(* ===== verification/_CoqProject ===== *)
-Q . S2P
Prelude.v
JsNumber.v
HtmlInput.v
Calendar.v
JsDate.v
Entities.v
CreateInvoice.v
Invoices.v
InvoiceDates.v
InvoiceFlow.v
Dashboard.v
DashboardSpec.v
DashboardOrder.v
Index.v
