(* ===== verification/Prelude.v ===== *)
(** * BizConnect: a verification development of the page logic

    The repository is a React/TypeScript front end of a business-services
    marketplace.  Its four page components under [src/src/pages/] hold all of
    the program's own logic; persistence, authentication and routing are
    delegated to hooks ([useAuth], [useInvoices], [useServices],
    [useProfile]) and libraries that are not part of the sources.

    ** The program and how its parts interact

    - [CreateInvoice.tsx] keeps a form object ([formData]) of four raw text
      fields, the date one prefilled with [new Date().toISOString()]'s date
      part, updates it with [handleInputChange] (an updater function with a
      computed key), and on submit ([handleSubmit]) coerces the two numeric
      fields with [parseInt], calls the data hook's [createInvoice], resets
      the form and navigates to [/invoices].
    - [Invoices.tsx] renders the invoice collection of [useInvoices]:
      skeletons while loading, one card per invoice, or an empty state; the
      helpers [getMonthName], [formatCurrency] and [formatDate] format a card,
      and each card's delete button calls [deleteInvoice] directly.
    - [Dashboard.tsx] keeps the user's services in local state, loads them
      asynchronously ([loadUserServices]), deletes one behind a confirmation
      prompt ([handleDeleteService]) and reloads afterwards; two effects
      redirect an anonymous user to [/login] and load on sign-in.
    - [Index.tsx] is the landing page: constant featured services and
      categories, a search box, buttons and badges without handlers.

    The pages talk to the rest of the system only through the hooks' results
    and calls, and through navigation; the development models every such call
    as an explicit effect (a value of an [effect] type) emitted by a handler,
    so the order of calls is a list the theorems can speak about.  The
    JavaScript built-ins the pages call ([parseInt], number printing, [Date],
    [Intl]) are modelled after ECMA-262 and ECMA-402 so that the pages'
    definitions compute what the browser computes, and so is the browser's
    constraint validation of the create form's number inputs, which decides
    which texts can be submitted at all.  The two invoice pages share one
    [useInvoices] binding: [InvoiceFlow.v] composes them with it and with
    the router, so that what the create page sends and what the list page
    then shows are related by theorems.

    ** Files (in dependency order)

    - [Prelude.v] (this file): the [bc_scope] notation for JavaScript's [||]
      on strings, the [bizconnect] hint databases, the tactics [invc], [zlia]
      and [eval_str], and the generic lemmas on strings, lists, options and
      reflexive-transitive closures ([rtc_invariant]) the components share.
    - [JsNumber.v]: the numbers [parseInt] can return; Module [ParseInt],
      [parseInt] after ECMA-262 (whitespace, sign, [0x] prefix, longest digit
      prefix, rounding to a double); Module [Decimal], integer printing
      ([decimal_of_Z]).  Theorems: print/parse round trip below 2^53, NaN
      without a leading digit, exactness up to 15 digits.
    - [HtmlInput.v], Module [HtmlInput]: [<input type="number">] after the
      HTML Living Standard: the grammar of valid floating-point numbers and
      their value [m * 10^k] ([parse_valid_float]), rounding to the closest
      double with ties to even and an error at 2^1024 ([round_double],
      [to_number]), and the [required], [min], [max] and default-step
      checks of interactive validation ([number_input_valid]).  Lemmas:
      printed integers parse back, and integers below 2^53 written with any
      exponent are converted exactly.
    - [Calendar.v], Module [Calendar]: the time-value arithmetic of ECMA-262
      21.4.1 ([Day], [DayFromYear], [YearFromTime], [MonthFromTime],
      [DateFromTime], [MakeDay], [MakeTime], [MakeDate], [TimeClip]).
      Theorems: [YearFromTime] (an estimate with one-year corrections) is
      the largest year starting before [t]; the closed form [DayFromYear]
      equals the reference sum of year lengths; composing and decomposing a
      time value are inverse.
    - [JsDate.v], Module [JsDate]: [Date_parse] on the Date Time String
      Format (fields, ranges, UTC for date-only forms, local time through
      the host otherwise, the host's own heuristics for other strings),
      [new_Date], [toISOString], and [toLocaleDateString_enUS] (ECMA-402
      [MMM d, y] of the local date).  The host (time-zone offset at an
      instant, [UTC] of a local time, fallback parser) is a record every
      theorem quantifies over.  Theorem: [new Date(d.toISOString())] is [d]
      for every valid time value.
    - [Entities.v]: the records [User.t], [Profile.t], [Service.t],
      [Invoice.t] the hooks return (declared outside [src/]; taken from the
      spec and the pages' field reads), with decidable equality.
    - [CreateInvoice.v], Module [CreateInvoice]: the form as an stdpp
      [gmap string string], [handleInputChange], [handleSubmit] returning
      the new form and its effects in order, [CreateInvoice_render] with the
      [console.log(user.id)] that precedes the [!user] test, the attributes
      of the two number inputs ([month_input], [sales_amount_input]) and the
      browser's check of the whole form ([form_accepts]), and the page's
      life as the step relation [ci_step] (input of a value an input can
      report, submit of a form the browser lets through, cancel), each step
      only while the last render showed the form ([shows_form]): without a
      user the render throws, and the page has no step at all.
    - [Invoices.v], Module [Invoices]: [getMonthName], [formatCurrency]
      (en-US dollars from integer cents) with its parser [parse_usd], and
      [Invoices_render] with one [card] per invoice, in a Section over
      [formatDate].
    - [InvoiceDates.v], Module [InvoiceDates]: [formatDate] over [JsDate],
      plugged into the invoice cards, and the default date of
      [CreateInvoice]: what date a user is shown and proposed.
    - [InvoiceFlow.v], Module [InvoiceFlow]: the two invoice pages composed
      with the router (each navigation mounts a new page, counted by
      [page]), the shared [useInvoices] cache (items, [isLoading]), the
      requests in flight, each tagged with the mount that sent it, and the
      server's rows; [isCreating] and [isDeleting] are the mounted page's
      own flags, as a mutation hook keeps them per component.
      [flow_step] takes the user's events (input, submit, Cancel, the Create
      Invoice link, a delete button), each only when its control is shown
      and enabled, and the settling of any request in flight; [flow_run]
      runs a list of them.  The router, the hook and the store are
      spec-modelled (spec 4.1: a create appends its row to the items, a
      delete leaves them to the next fetch).
    - [Dashboard.v], Module [Dashboard]: the dashboard's [world] (local
      state, requests in flight, the remote store, the trace of effects); the
      effects [commit] (both [useEffect]s with their dependency arrays),
      [loadUserServices], [handleDeleteService], [resume] (the code after
      each [await]); the event function [dash_step] where the network serves
      and delivers requests in any order; the create dialog's success with
      the row it added to the store; and [Dashboard_render].
    - [DashboardSpec.v], Module [DashboardSpec]: the spec's sequential
      contract of the dashboard (section 4.3) as the abstract machine
      [spec_step], the serial scheduler [serial_step] (an action, then the
      in-order network until quiescence), and the simulation between them.
    - [DashboardOrder.v], Module [DashboardOrder]: the dashboard on a network
      that never fails and delivers answers in the order the requests were
      sent (the store may still serve them in any order), with the invariant
      that every row missing from the store and still shown, or still carried
      by an answer in flight, has a later request in flight that will
      replace it.
    - [Index.v], Module [Index]: [featuredServices], [categories] and the
      rendered landing page with its controls and their (absent) handlers.
      The page is constant data; no theorem is stated about it.

    ** What the theorems show (claims C1-C32)

    - Submit protocol (C1, C3, C4, C9): every reachable state of the
      invoice form has its four fields; a signed-in submit creates exactly
      once, with the parsed payload, then resets and navigates
      unconditionally; [1e4] is submitted as 1.
    - Form validation (C13, C26, C27): the Month input accepts a plain
      integer exactly in 1..12, and then submits it unchanged; but every
      month can be typed with an exponent ([120e-1]) so that the browser
      accepts it and [parseInt] submits a different month, or as a
      fraction ([.5e1]) so that it is submitted as NaN.
    - The invoice pages together (C28-C30): a submit shows the unchanged
      list at once and the new row once the create succeeds; the Create
      Invoice link mounts a new create page whose submit is enabled while
      the first create is in flight, so two creates can be in flight at
      once (the gap spec 4.1 notes); a delete asks nothing, and the deleted
      invoice stays listed because the page never reloads.
    - Render failure (C8): without a user, the invoice page throws before
      its log-in branch, which is therefore unreachable.
    - Dates (C20, C23, C24): a date-only invoice date is shown one day early
      to every viewer west of Greenwich; the default invoice date is the UTC
      date; a [toISOString] timestamp is shown as its local date.
    - Dashboard (C2, C5-C7, C12, C14-C16, C18, C21, C22, C25, C31, C32): a
      confirmed delete deletes then reloads; a declined one changes
      nothing; a failed delete or a failed reload leaves the page as it was,
      the deleted service included; sign-out redirects, sign-in loads once;
      every request settles under an in-order network within
      [total_weight] rounds; two clicks send two deletes; a stale response
      can restore a deleted service (C5), while under a serial network the
      component refines the spec's sequential contract and a deleted
      service never returns; with in-order delivery and no failures a
      settled page shows only rows the store has (C25), so C5 needs
      delivery out of order; a dashboard that has been left still sends the
      reload that follows a delete, and drops its answer (C31); a service
      the create dialog adds is shown after the reload its [onSuccess]
      sends (C32).
    - Invoice list (C10, C11, C17, C19): one card per invoice with the right
      id and amount; [formatCurrency] is injective (round trip through
      [parse_usd]); the empty state's exact condition; [getMonthName]'s
      range.

    ** Bounds and fuel

    [Decimal.digits_rev] runs on fuel [S (Z.log2 n)], which exceeds the
    number of decimal digits of [n] ([decimal_digits_spec]).  [parseInt] is
    exact below 2^53 (the safe integers), the hypothesis of its round trip.
    [formatCurrency] is modelled exactly on integer cents, which matches
    [Intl.NumberFormat] while [amount / 100] rounds to the same cents (below
    about 2^45 dollars).  Time values are integers within [TimeClip]'s
    8.64e15 ms, where every year has at most six digits, as [toISOString]
    needs; the date theorems take years 0..9999, the four-digit years of a
    date-only string.  The number-input model keeps values exact ([m *
    10^k] as integers) and rounds once, as the standard does; its theorems
    take integers below 2^53, where the rounding is exact.
    [Dashboard.drain] takes [total_weight] rounds, proved enough by C7.

    ** What is not modelled

    Markup and styling (class names, icons, layout), the visual component
    library, [Header], [Hero], [ServiceCard] and the router beyond the two
    invoice routes (navigation is an effect), the authentication provider,
    the landing page's behaviour (it has none: constants and controls
    without handlers), the collection binding apart from the state the
    invoice pages share in [InvoiceFlow.v],
    [CreateServiceDialog] (only its open flag, the row its [createService]
    adds and its [onSuccess] callback; the store's choice of ids is not
    modelled, a created row carries its id), the remote database beyond the
    spec's contract of the hooks, [console.log] output, and the locales and
    options of [Intl] other than the two the pages use.  The host's time
    zone data and its fallback date formats are parameters, not models.  The
    dashboard's effect dependencies are compared by value rather than with
    [Object.is] (the same as long as a user object is replaced only when
    the user changes).  The date input's own validation is not modelled:
    any text is a possible [invoice_date], and only an empty one is
    refused. *)

From stdpp Require Export base gmap strings list.
From Stdlib Require Export ZArith Lia Ascii.

Declare Scope bc_scope.
Delimit Scope bc_scope with bc.
Open Scope bc_scope.

(** JavaScript's [a || b] on strings: the empty string is the only falsy
    string, so [a || b] is [b] exactly when [a] is [""].  The pages use it for
    display fallbacks ([profile?.display_name || user.email]). *)
Definition js_or_str (a b : string) : string :=
  if String.eqb a "" then b else a.
Notation "a '||s' b" := (js_or_str a b) (at level 50, left associativity) : bc_scope.

Lemma js_or_str_empty (b : string) : ("" ||s b) = b.
Proof. done. Qed.

Lemma js_or_str_nonempty (a b : string) : a <> "" -> (a ||s b) = a.
Proof. unfold js_or_str. by destruct (String.eqb_spec a ""). Qed.

Create HintDb bizconnect.
Create Rewrite HintDb bizconnect_rw.

(** Invert a hypothesis and clean up the equations it produces. *)
Ltac invc H := inversion H; subst; clear H.

(** Linear arithmetic with [/] and [mod] by constants: [lia] after the
    Euclidean-division equations of every quotient and remainder. *)
Ltac zlia := Z.to_euclidean_division_equations; lia.

(** Close a goal about a concrete character or string by evaluation. *)
Ltac eval_str := vm_compute; reflexivity.

(** ** Generic lemmas on strings

    stdpp declares [String.append] [simpl never]; these equations are the
    one-step unfoldings the proofs rewrite with instead. *)

Lemma string_app_nil_l (b : string) : EmptyString +:+ b = b.
Proof. done. Qed.

Lemma string_app_cons (x : ascii) (a b : string) : String x a +:+ b = String x (a +:+ b).
Proof. done. Qed.

Lemma string_app_assoc (a b c : string) : (a +:+ b) +:+ c = a +:+ (b +:+ c).
Proof. induction a as [|x a IH]; rewrite ?string_app_cons; cbn [String.length]; [done | by rewrite IH]. Qed.

Lemma string_app_nil_r (a : string) : a +:+ EmptyString = a.
Proof. induction a as [|x a IH]; rewrite ?string_app_cons; cbn [String.length]; [done | by rewrite IH]. Qed.

Lemma string_length_app (a b : string) :
  String.length (a +:+ b) = (String.length a + String.length b)%nat.
Proof. induction a as [|x a IH]; rewrite ?string_app_cons; cbn [String.length]; [done | by rewrite IH]. Qed.

#[export] Hint Rewrite js_or_str_empty string_app_nil_l string_app_cons string_app_assoc string_app_nil_r string_length_app : bizconnect_rw.

(** ** Generic lemmas on lists of digits and folds *)

Lemma fold_left_snoc {A B} (f : A -> B -> A) (l : list B) (x : B) (a : A) :
  fold_left f (l ++ [x]) a = f (fold_left f l a) x.
Proof. by rewrite fold_left_app. Qed.

#[export] Hint Rewrite @fold_left_snoc : bizconnect_rw.

Lemma lookup_map_Some {A B} (f : A -> B) (l : list A) (j : nat) (x : A) :
  l !! j = Some x -> map f l !! j = Some (f x).
Proof. revert j. induction l as [|y l IH]; intros [|j] Hj; simplify_eq/=; [done | by apply IH]. Qed.

(** ** Options *)

Lemma option_default_Some {A} (d x : A) (o : option A) :
  o = Some x -> default d o = x.
Proof. by intros ->. Qed.

#[export] Hint Resolve option_default_Some : bizconnect.

(** ** Reachability

    Invariants of the pages' transition systems are proved once and for all
    from two facts: they hold initially and every step preserves them. *)

Lemma rtc_invariant {A} (R : relation A) (I : A -> Prop) (x y : A) :
  (forall a b, I a -> R a b -> I b) -> I x -> rtc R x y -> I y.
Proof. intros Hstep Hx Hr. induction Hr; eauto. Qed.

(** ** Filtering lists *)

Lemma filter_rev {A} (P : A -> Prop) `{!forall x, Decision (P x)} (l : list A) :
  filter P (rev l) = rev (filter P l).
Proof.
  induction l as [|x l IH]; [done|]. cbn [rev]. rewrite filter_app, IH, !filter_cons.
  case_decide; cbn [rev]; [done | by rewrite app_nil_r].
Qed.

Lemma filter_Forall_id {A} (P : A -> Prop) `{!forall x, Decision (P x)} (l : list A) :
  Forall P l -> filter P l = l.
Proof. induction 1; [done|]. by rewrite filter_cons_True; [f_equal|]. Qed.
