(* ===== verification/JsNumber.v ===== *)
(** * JsNumber: the JavaScript numbers and conversions the pages rely on

    [CreateInvoice.tsx] turns the text of its two numeric fields into numbers
    with the built-in [parseInt(text)] (no radix argument), and the pages print
    integers into markup through JSX interpolation.  This file models both
    after ECMA-262 (19.2.5 [parseInt], 21.1.3.6 [Number::toString]) on strings
    whose characters are read as Latin-1 code units, which covers every
    character a [type="number"] input can hold.

    [parseInt] only returns NaN, an infinity, -0 or an integral double, so
    [number] has exactly these cases; [Int z] is the double whose value is the
    integer [z] (+0 is [Int 0]). *)

From S2P Require Import Prelude.

Local Open Scope Z_scope.

Inductive number :=
| NaN
| Infinity (negative : bool)
| NegZero
| Int (z : Z).

#[export] Instance number_eq_dec : EqDecision number.
Proof. solve_decision. Qed.

Module ParseInt.

(** WhiteSpace and LineTerminator code points below 256: TAB, LF, VT, FF,
    CR, SPACE and NO-BREAK SPACE. *)
Definition is_js_whitespace (c : ascii) : bool :=
  bool_decide (N_of_ascii c ∈ [9; 10; 11; 12; 13; 32; 160]%N).

(** [TrimString(S, start)]. *)
Fixpoint trim_start (s : string) : string :=
  match s with
  | EmptyString => EmptyString
  | String c s' => if is_js_whitespace c then trim_start s' else s
  end.

(** The value of a character as a digit of any radix up to 36. *)
Definition digit_value (c : ascii) : option Z :=
  let n := Z.of_N (N_of_ascii c) in
  if (48 <=? n) && (n <=? 57) then Some (n - 48)
  else if (97 <=? n) && (n <=? 122) then Some (n - 87)
  else if (65 <=? n) && (n <=? 90) then Some (n - 55)
  else None.

Definition radix_digit (R : Z) (c : ascii) : option Z :=
  match digit_value c with
  | Some d => if d <? R then Some d else None
  | None => None
  end.

(** Steps 4-5: the sign. *)
Definition strip_sign (s : string) : bool * string :=
  match s with
  | String c s' =>
      if Ascii.eqb c "-" then (true, s')
      else if Ascii.eqb c "+" then (false, s')
      else (false, s)
  | EmptyString => (false, s)
  end.

(** Steps 6-10 with an undefined radix: radix 10, or 16 after a [0x] or
    [0X] prefix. *)
Definition strip_radix_prefix (s : string) : Z * string :=
  match s with
  | String z (String x s') =>
      if Ascii.eqb z "0" && (Ascii.eqb x "x" || Ascii.eqb x "X")
      then (16, s') else (10, s)
  | _ => (10, s)
  end.

(** Steps 11-12: the longest prefix of radix-[R] digits, as digit values. *)
Fixpoint digit_prefix (R : Z) (s : string) : list Z :=
  match s with
  | EmptyString => []
  | String c s' =>
      match radix_digit R c with
      | Some d => d :: digit_prefix R s'
      | None => []
      end
  end.

(** Step 14: the mathematical value of the digits. *)
Definition digits_value (R : Z) (ds : list Z) : Z :=
  fold_left (fun acc d => acc * R + d) ds 0.

(** Step 16, [𝔽(x)] for a positive integer [m]: round to 53 significant
    bits, ties to even, and overflow to an infinity at [2^1024]. *)
Definition round_to_double (negative : bool) (m : Z) : number :=
  if m <? 2 ^ 53 then Int (if negative then - m else m)
  else
    let e := Z.log2 m - 52 in
    let q := m / 2 ^ e in
    let r := m mod 2 ^ e in
    let half := 2 ^ (e - 1) in
    let q' := if (half <? r) || ((r =? half) && Z.odd q) then q + 1 else q in
    let v := q' * 2 ^ e in
    if 2 ^ 1024 <=? v then Infinity negative
    else Int (if negative then - v else v).

End ParseInt.

Import ParseInt.

(** [parseInt(string)] with the radix argument omitted, as
    [CreateInvoice.tsx] calls it. *)
Definition parseInt (s : string) : number :=
  let s1 := trim_start s in
  let '(negative, s2) := strip_sign s1 in
  let '(R, s3) := strip_radix_prefix s2 in
  match digit_prefix R s3 with
  | [] => NaN
  | ds =>
      let v := digits_value R ds in
      if v =? 0 then (if negative then NegZero else Int 0)
      else round_to_double negative v
  end.

(** [ToString(undefined)]: what [parseInt] reads when a field is missing. *)
Definition undefined_string : string := "undefined".

Module Decimal.

Definition digit_char (d : Z) : ascii := ascii_of_N (Z.to_N (48 + d)).

(** Decimal digits of [n >= 0], least significant first; [fuel] bounds the
    number of digits. *)
Fixpoint digits_rev (fuel : nat) (n : Z) : list Z :=
  match fuel with
  | O => []
  | S f => if n <? 10 then [n] else n mod 10 :: digits_rev f (n / 10)
  end.

(** [Z.log2 n + 1] binary digits bound the number of decimal digits. *)
Definition digits_fuel (n : Z) : nat := S (Z.to_nat (Z.log2 n)).

Definition decimal_digits (n : Z) : list Z := rev (digits_rev (digits_fuel n) n).

Fixpoint string_of_digits (ds : list Z) : string :=
  match ds with
  | [] => EmptyString
  | d :: ds' => String (digit_char d) (string_of_digits ds')
  end.

End Decimal.

Import Decimal.

(** [Number::toString(x)] for an integral [x] with [|x| < 10^21], the form JSX
    interpolation prints an integer in. *)
Definition decimal_of_Z (z : Z) : string :=
  if z <? 0 then String "-" (string_of_digits (decimal_digits (- z)))
  else string_of_digits (decimal_digits z).

(** A text can follow a printed integer without changing what [parseInt]
    reads: it is empty or starts with a character that is neither a decimal
    digit nor the [x] of a hexadecimal prefix. *)
Definition number_boundary (t : string) : bool :=
  match t with
  | EmptyString => true
  | String c _ =>
      match radix_digit 10 c with
      | Some _ => false
      | None => negb (Ascii.eqb c "x" || Ascii.eqb c "X")
      end
  end.

(** Whether, after leading whitespace and an optional sign, a text starts
    with a decimal digit. *)
Definition leading_digit (t : string) : bool :=
  match snd (strip_sign (trim_start t)) with
  | String c _ => bool_decide (is_Some (radix_digit 10 c))
  | EmptyString => false
  end.

Definition is_digit (d : Z) : Prop := 0 <= d <= 9.


(** ** Lemmas on digits *)

Local Ltac enum_digit d :=
  let H := fresh in
  assert (H : d = 0 \/ d = 1 \/ d = 2 \/ d = 3 \/ d = 4 \/ d = 5 \/ d = 6 \/
              d = 7 \/ d = 8 \/ d = 9) by (unfold is_digit in *; lia);
  destruct_or! H; subst d.

Lemma digit_char_spec d :
  is_digit d ->
  radix_digit 10 (digit_char d) = Some d /\
  is_js_whitespace (digit_char d) = false /\
  Ascii.eqb (digit_char d) "-" = false /\ Ascii.eqb (digit_char d) "+" = false /\
  Ascii.eqb (digit_char d) "x" = false /\ Ascii.eqb (digit_char d) "X" = false.
Proof. intros Hd. enum_digit d; vm_compute; auto 10. Qed.

Lemma fold_digits_acc R ds acc :
  fold_left (fun a d => a * R + d) ds acc =
  acc * R ^ Z.of_nat (length ds) + digits_value R ds.
Proof.
  unfold digits_value. revert acc.
  induction ds as [|d ds IH]; intros acc; simpl; [lia|].
  rewrite (IH (acc * R + d)), (IH (0 * R + d)), Nat2Z.inj_succ, Z.pow_succ_r; lia.
Qed.

Lemma digits_value_cons R d ds :
  digits_value R (d :: ds) = d * R ^ Z.of_nat (length ds) + digits_value R ds.
Proof. unfold digits_value at 1. simpl. rewrite fold_digits_acc. lia. Qed.

Lemma digits_value_snoc R ds d :
  digits_value R (ds ++ [d]) = digits_value R ds * R + d.
Proof. unfold digits_value. by rewrite fold_left_snoc. Qed.

Lemma digits_value_bound ds :
  Forall is_digit ds -> 0 <= digits_value 10 ds < 10 ^ Z.of_nat (length ds).
Proof.
  induction 1 as [|d ds Hd _ IH]; [unfold digits_value; simpl; lia|].
  rewrite digits_value_cons. cbn [length]. rewrite Nat2Z.inj_succ, Z.pow_succ_r by lia.
  unfold is_digit in Hd. nia.
Qed.

Lemma digit_prefix_digits ds t :
  Forall is_digit ds -> number_boundary t = true ->
  digit_prefix 10 (string_of_digits ds +:+ t) = ds.
Proof.
  intros Hds Ht. induction Hds as [|d ds Hd _ IH]; cbn [string_of_digits].
  - rewrite string_app_nil_l. destruct t as [|c t]; [done|]. simpl in *.
    by destruct (radix_digit 10 c).
  - rewrite string_app_cons. cbn [digit_prefix].
    by rewrite (proj1 (digit_char_spec d Hd)), IH.
Qed.

(** The second character after a leading digit is never a hex marker. *)
Lemma strip_radix_prefix_digits d ds t :
  Forall is_digit (d :: ds) -> number_boundary t = true ->
  strip_radix_prefix (string_of_digits (d :: ds) +:+ t) =
    (10, string_of_digits (d :: ds) +:+ t).
Proof.
  intros Hds Ht. inversion Hds as [|? ? Hd Hrest]; subst.
  simpl string_of_digits. rewrite string_app_cons.
  destruct ds as [|d' ds]; simpl string_of_digits.
  - destruct t as [|c t]; [done|]. simpl in Ht |- *.
    destruct (radix_digit 10 c); [done|].
    destruct (Ascii.eqb c "x"), (Ascii.eqb c "X"); simpl in *; try done.
    by rewrite andb_false_r.
  - inversion Hrest as [|? ? Hd' _]; subst. rewrite string_app_cons. simpl.
    destruct (digit_char_spec d' Hd') as (_ & _ & _ & _ & -> & ->).
    by rewrite andb_false_r.
Qed.

Lemma digits_rev_spec fuel n :
  0 <= n -> Z.log2 n < Z.of_nat fuel ->
  Forall is_digit (digits_rev fuel n) /\ digits_rev fuel n <> [] /\
  digits_value 10 (rev (digits_rev fuel n)) = n.
Proof.
  revert n. induction fuel as [|f IH]; intros n Hn Hlog; [pose proof (Z.log2_nonneg n); simpl in Hlog; lia|].
  simpl. destruct (Z.ltb_spec n 10).
  - split_and!; [constructor; [unfold is_digit; lia | constructor] | done | done].
  - assert (Hlt : Z.log2 (n / 10) < Z.of_nat f).
    { assert (Z.log2 (n / 10) <= Z.log2 (n / 2)) by (apply Z.log2_le_mono; apply Z.div_le_compat_l; lia).
      change (n / 2) with (n / 2 ^ 1) in H0. rewrite <- Z.shiftr_div_pow2 in H0 by lia.
      rewrite Z.log2_shiftr in H0 by lia.
      assert (1 <= Z.log2 n) by (change 1 with (Z.log2 2); apply Z.log2_le_mono; lia). lia. }
    destruct (IH (n / 10)) as (Hall & _ & Hval); [apply Z.div_pos; lia | done |].
    split_and!; [constructor; [unfold is_digit; pose proof (Z.mod_pos_bound n 10); lia | done] | done |].
    simpl. rewrite digits_value_snoc, Hval. pose proof (Z.div_mod n 10). lia.
Qed.

Lemma decimal_digits_spec n :
  0 <= n ->
  Forall is_digit (decimal_digits n) /\ decimal_digits n <> [] /\
  digits_value 10 (decimal_digits n) = n.
Proof.
  intros Hn. unfold decimal_digits, digits_fuel.
  destruct (digits_rev_spec (S (Z.to_nat (Z.log2 n))) n) as (Hall & Hne & Hval);
    [done | pose proof (Z.log2_nonneg n); lia |].
  split_and!; [by apply Forall_rev | | done].
  intros Hnil. apply Hne. by apply (f_equal (@rev Z)) in Hnil; rewrite rev_involutive in Hnil.
Qed.

Lemma trim_start_digits d ds t :
  is_digit d -> trim_start (string_of_digits (d :: ds) +:+ t) = string_of_digits (d :: ds) +:+ t.
Proof. intros Hd. simpl. rewrite string_app_cons. simpl. by rewrite (proj1 (proj2 (digit_char_spec d Hd))). Qed.

Lemma round_to_double_small negative m :
  0 <= m < 2 ^ 53 -> round_to_double negative m = Int (if negative then - m else m).
Proof. intros Hm. unfold round_to_double. by destruct (Z.ltb_spec m (2 ^ 53)); [|lia]. Qed.

(** A nonempty run of decimal digits followed by a boundary passes the
    whitespace, sign and radix steps unchanged and is read back whole. *)
Lemma parse_digit_string ds t :
  Forall is_digit ds -> ds <> [] -> number_boundary t = true ->
  let s := string_of_digits ds +:+ t in
  strip_radix_prefix s = (10, s) /\ digit_prefix 10 s = ds /\
  trim_start s = s /\ strip_sign s = (false, s).
Proof.
  intros Hall Hne Ht s. destruct ds as [|d ds]; [done|].
  inversion Hall as [|? ? Hd _]; subst.
  destruct (digit_char_spec d Hd) as (_ & _ & Hm & Hp & _).
  split_and!; [by apply strip_radix_prefix_digits | by apply digit_prefix_digits
              | by apply trim_start_digits |].
  subst s. cbn [string_of_digits]. rewrite string_app_cons. simpl. by rewrite Hm, Hp.
Qed.

Lemma parse_unsigned_digits n t :
  0 <= n -> number_boundary t = true ->
  let s := string_of_digits (decimal_digits n) +:+ t in
  strip_radix_prefix s = (10, s) /\ digit_prefix 10 s = decimal_digits n /\
  trim_start s = s /\ strip_sign s = (false, s).
Proof.
  intros Hn Ht. destruct (decimal_digits_spec n Hn) as (Hall & Hne & _).
  by apply parse_digit_string.
Qed.

(** ** Properties of [parseInt] *)

(** Reading back a printed integer.  For every integer [z] with
    [|z| < 2^53] (a safe integer) and every text [t] that does not continue
    the number (empty, or starting with a character other than a decimal
    digit, [x] or [X]), [parseInt] applied to the decimal form of [z]
    followed by [t] returns exactly [z].  With [t = ""] this is the
    print/parse round trip; with [t = "e4"] it shows that an exponent is cut
    off. *)
Theorem parseInt_decimal_of_Z (z : Z) (t : string) :
  Z.abs z < 2 ^ 53 -> number_boundary t = true ->
  parseInt (decimal_of_Z z +:+ t) = Int z.
Proof.
  intros Hz Ht. unfold decimal_of_Z. destruct (Z.ltb_spec z 0) as [Hneg|Hpos].
  - destruct (parse_unsigned_digits (- z) t) as (Hr & Hd & _ & _); [lia | done |].
    destruct (decimal_digits_spec (- z)) as (_ & Hne & Hval); [lia |].
    unfold parseInt. rewrite string_app_cons. simpl. rewrite Hr, Hd.
    destruct (decimal_digits (- z)) as [|d ds] eqn:E; [done |]. rewrite Hval.
    destruct (Z.eqb_spec (- z) 0); [lia |].
    rewrite round_to_double_small by lia. f_equal. lia.
  - destruct (parse_unsigned_digits z t) as (Hr & Hd & Htr & Hs); [lia | done |].
    destruct (decimal_digits_spec z) as (_ & Hne & Hval); [lia |].
    unfold parseInt. rewrite Htr, Hs, Hr, Hd.
    destruct (decimal_digits z) as [|d ds] eqn:E; [done |]. rewrite Hval.
    destruct (Z.eqb_spec z 0); [congruence |].
    rewrite round_to_double_small by lia. done.
Qed.

(** [parseInt] returns NaN when, after leading whitespace and an optional
    sign, the text does not start with a decimal digit: the empty string,
    ["abc"], [".5"], ["-"] and [ToString(undefined)] all give NaN. *)
Theorem parseInt_NaN_without_leading_digit (s : string) :
  match snd (strip_sign (trim_start s)) with
  | String c _ => radix_digit 10 c = None
  | EmptyString => True
  end -> parseInt s = NaN.
Proof.
  intros H. unfold parseInt. destruct (strip_sign (trim_start s)) as [neg [|c s3]]; [done|].
  simpl in H. unfold strip_radix_prefix.
  destruct (Ascii.eqb_spec c "0") as [->|Hc]; [discriminate|].
  destruct s3 as [|x s4]; simpl; by rewrite H.
Qed.

(** A run of at most 15 decimal digits is read exactly: its value is below
    [10^15 < 2^53], so no rounding to a double happens. *)
Theorem parseInt_digits_exact (ds : list Z) :
  Forall is_digit ds -> ds <> [] -> (length ds <= 15)%nat ->
  parseInt (string_of_digits ds) = Int (digits_value 10 ds).
Proof.
  intros Hall Hne Hlen.
  destruct (parse_digit_string ds "" Hall Hne eq_refl) as (Hr & Hd & Htr & Hs).
  rewrite string_app_nil_r in Hr, Hd, Htr, Hs.
  destruct (digits_value_bound ds Hall) as [Hlo Hhi].
  assert (10 ^ Z.of_nat (length ds) <= 10 ^ 15) by (apply Z.pow_le_mono_r; lia).
  unfold parseInt. rewrite Htr, Hs, Hr, Hd.
  destruct ds as [|d ds']; [done|].
  destruct (Z.eqb_spec (digits_value 10 (d :: ds')) 0) as [->|]; [done|].
  rewrite round_to_double_small; [done | lia].
Qed.

Lemma parseInt_NaN_of_leading_digit (t : string) :
  leading_digit t = false -> parseInt t = NaN.
Proof.
  intros H. apply parseInt_NaN_without_leading_digit. unfold leading_digit in H.
  destruct (snd (strip_sign (trim_start t))) as [|c s]; [done|].
  case_bool_decide as Hc; [done|]. by destruct (radix_digit 10 c); [destruct Hc; eexists|].
Qed.
