(* ===== verification/HtmlInput.v ===== *)
(** * HtmlInput: the browser's number inputs (HTML Living Standard)

    [CreateInvoice.tsx] declares its Month and Sales Amount fields as
    [<Input type="number" ... required>] with [min="1" max="12"] and
    [min="0"].  Before the browser fires a form's [submit] event it runs
    interactive constraint validation, and blocks the submission when an
    input suffers from a missing value, bad input, an underflow, an overflow
    or a step mismatch.  This file models that check for number inputs, after
    the HTML Living Standard:
    - 2.3.4.3: the grammar of a valid floating-point number and its value,
      [parse_valid_float], which gives the value as [m * 10^k];
    - 2.3.4.3, the rules for parsing floating-point number values, steps 15
      and 16: rounding to the closest finite double, ties to an even
      significand, and an error at [2^1024] ([round_double]);
    - 4.10.5.1.13, the Number state: the value sanitization (the value of a
      number input is [""] or a valid floating-point number) and the
      conversion of a string to a number ([to_number]);
    - 4.10.5.3: [required], [min], [max] and the default [step] of 1, whose
      step base is the [min] attribute ([number_input_valid]).

    This is a model of the browser, which [src/] only uses; what the page
    declares (the attributes of each input) is in [CreateInvoice.v]. *)

From S2P Require Import Prelude JsNumber.
Import ParseInt Decimal.

Local Open Scope Z_scope.

Module HtmlInput.

(** ** Valid floating-point numbers *)

(** The longest prefix of ASCII digits, as digit values, and the rest. *)
Fixpoint digit_run (s : string) : list Z * string :=
  match s with
  | EmptyString => ([], EmptyString)
  | String c s' =>
      match radix_digit 10 c with
      | Some d => let '(ds, r) := digit_run s' in (d :: ds, r)
      | None => ([], s)
      end
  end.

(** The optional exponent: [e] or [E], an optional sign, one or more
    digits, and nothing after them. *)
Definition parse_exponent (s : string) : option Z :=
  match s with
  | EmptyString => Some 0
  | String c s' =>
      if Ascii.eqb c "e" || Ascii.eqb c "E" then
        let '(neg, s'') := strip_sign s' in
        match digit_run s'' with
        | ((_ :: _) as ds, EmptyString) =>
            Some (if neg then - digits_value 10 ds else digits_value 10 ds)
        | _ => None
        end
      else None
  end.

(** The optional fraction: a [.] followed by one or more digits. *)
Definition parse_fraction (s : string) : option (list Z * string) :=
  match s with
  | String c r =>
      if Ascii.eqb c "." then
        match digit_run r with
        | ((_ :: _) as fp, r') => Some (fp, r')
        | _ => None
        end
      else Some ([], s)
  | EmptyString => Some ([], s)
  end.

(** The digits, fraction and exponent of a valid floating-point number, as
    [(m, k)] with value [m * 10^k]: at least one digit before or after the
    [.], then an optional exponent, and nothing else. *)
Definition parse_unsigned_float (s : string) : option (Z * Z) :=
  let '(ip, s2) := digit_run s in
  match parse_fraction s2 with
  | Some (fp, s3) =>
      match ip ++ fp, parse_exponent s3 with
      | _ :: _, Some e => Some (digits_value 10 (ip ++ fp), e - Z.of_nat (length fp))
      | _, _ => None
      end
  | None => None
  end.

Definition signed (neg : bool) (p : Z * Z) : bool * Z * Z := (neg, p.1, p.2).

(** A valid floating-point number: an optional [-] and an unsigned number;
    its value is [(-1)^negative * m * 10^k]. *)
Definition parse_valid_float (s : string) : option (bool * Z * Z) :=
  match s with
  | String c r =>
      if Ascii.eqb c "-" then signed true <$> parse_unsigned_float r
      else signed false <$> parse_unsigned_float s
  | EmptyString => signed false <$> parse_unsigned_float s
  end.

(** ** Rounding to a double *)

(** [2^j <= n / d], for [d > 0]. *)
Definition pow2_le (j n d : Z) : bool :=
  if 0 <=? j then d * 2 ^ j <=? n else d <=? n * 2 ^ (- j).

(** The exponent of the leading bit of [n / d] ([n, d > 0]):
    [Z.log2 n - Z.log2 d] or one less. *)
Definition floor_log2 (n d : Z) : Z :=
  let j := Z.log2 n - Z.log2 d in
  if pow2_le j n d then j else j - 1.

(** The finite double closest to [n / d] ([n >= 0], [d > 0]) as [(q, e)]
    with value [q * 2^e]: 53 significant bits, subnormals below [2^-1022],
    ties to an even significand, and an error when the result is [2^1024]. *)
Definition round_double (n d : Z) : option (Z * Z) :=
  if n =? 0 then Some (0, 0) else
  let e := Z.max (floor_log2 n d - 52) (-1074) in
  let '(num, den) := if 0 <=? e then (n, d * 2 ^ e) else (n * 2 ^ (- e), d) in
  let q := num / den in
  let r := num mod den in
  let q' := if (den <? 2 * r) || ((2 * r =? den) && Z.odd q) then q + 1 else q in
  if (0 <=? e) && (2 ^ 1024 <=? q' * 2 ^ e) then None else Some (q', e).

(** A finite double other than -0: its sign, and [q * 2^e]. *)
Record double := mk_double { d_negative : bool; d_q : Z; d_e : Z }.

(** The conversion of a string to a number of the Number state: the value
    of a valid floating-point number rounded to a double (a zero is +0), or
    an error. *)
Definition to_number (s : string) : option double :=
  match parse_valid_float s with
  | Some (neg, m, k) =>
      let '(n, d) := if 0 <=? k then (m * 10 ^ k, 1) else (m, 10 ^ (- k)) in
      match round_double n d with
      | Some (q, e) => Some (mk_double (neg && negb (q =? 0)) q e)
      | None => None
      end
  | None => None
  end.

(** The comparison of a double with an integer. *)
Definition dbl_cmp (x : double) (c : Z) : comparison :=
  let s := if d_negative x then - d_q x else d_q x in
  if 0 <=? d_e x then Z.compare (s * 2 ^ d_e x) c
  else Z.compare s (c * 2 ^ (- d_e x)).

(** Whether a double is an integer. *)
Definition dbl_integral (x : double) : bool :=
  (0 <=? d_e x) || (d_q x mod 2 ^ (- d_e x) =? 0).

(** ** Constraint validation *)

(** The attributes of an [<input type="number">]; the [step] attribute is
    absent, so the allowed value step is 1. *)
Record number_input := mk_number_input {
  required : bool;
  min : option Z;
  max : option Z
}.

(** Whether a number input with value [value] lets its form be submitted:
    no missing value ([required] and [""]), no bad input (a value that is
    not a valid floating-point number is sanitized to [""] while the user's
    text stays in the field), and, when the value converts to a number, no
    underflow, no overflow and no step mismatch (with an integral step base,
    the [min] attribute or 0, a step of 1 requires an integral value).  A
    value whose conversion is an error (too large) has no range or step
    constraint. *)
Definition number_input_valid (a : number_input) (value : string) : bool :=
  if String.eqb value "" then negb (required a)
  else match parse_valid_float value with
       | None => false
       | Some _ =>
           match to_number value with
           | None => true
           | Some x =>
               match min a with Some lo => negb (bool_decide (dbl_cmp x lo = Lt)) | None => true end &&
               match max a with Some hi => negb (bool_decide (dbl_cmp x hi = Gt)) | None => true end &&
               dbl_integral x
           end
       end.

(** ** Lemmas *)

Lemma digit_run_digits ds t :
  Forall is_digit ds -> digit_run t = ([], t) -> digit_run (string_of_digits ds +:+ t) = (ds, t).
Proof.
  intros Hds Ht. induction Hds as [|d ds Hd _ IH]; [done|].
  cbn [string_of_digits]. rewrite string_app_cons. simpl.
  by rewrite (proj1 (digit_char_spec d Hd)), IH.
Qed.

(** A run of digits, then a text [t] that is neither a digit nor a [.]
    and is a valid exponent. *)
Lemma parse_unsigned_float_digits ds t e :
  Forall is_digit ds -> ds <> [] -> digit_run t = ([], t) -> parse_fraction t = Some ([], t) ->
  parse_exponent t = Some e ->
  parse_unsigned_float (string_of_digits ds +:+ t) = Some (digits_value 10 ds, e).
Proof.
  intros Hds Hne Hrun Hfr He. unfold parse_unsigned_float.
  rewrite digit_run_digits, Hfr, He, app_nil_r by done. destruct ds; [done|].
  cbn [length]. by rewrite Z.sub_0_r.
Qed.

Lemma parse_valid_float_decimal_of_Z z t e :
  digit_run t = ([], t) -> parse_fraction t = Some ([], t) -> parse_exponent t = Some e ->
  parse_valid_float (decimal_of_Z z +:+ t) = Some (z <? 0, Z.abs z, e).
Proof.
  intros Hrun Hfr He. unfold decimal_of_Z.
  destruct (Z.ltb_spec z 0) as [Hz|Hz].
  - destruct (decimal_digits_spec (- z)) as (Hall & Hne & Hval); [lia|].
    rewrite string_app_cons. cbn [parse_valid_float Ascii.eqb].
    rewrite (parse_unsigned_float_digits _ t e), Hval by done. unfold signed. simpl. by rewrite Z.abs_neq by lia.
  - destruct (decimal_digits_spec z) as (Hall & Hne & Hval); [lia|].
    destruct (decimal_digits z) as [|d ds] eqn:E; [done|].
    inversion Hall as [|? ? Hd _]; subst.
    cbn [string_of_digits]. rewrite string_app_cons. cbn [parse_valid_float].
    rewrite (proj1 (proj2 (proj2 (digit_char_spec d Hd)))), <- string_app_cons.
    change (String (digit_char d) (string_of_digits ds)) with (string_of_digits (d :: ds)).
    rewrite (parse_unsigned_float_digits _ t e) by done. unfold signed. simpl. by rewrite Z.abs_eq by lia.
Qed.

Lemma parse_exponent_neg k :
  0 <= k -> parse_exponent (String "e" (String "-" (decimal_of_Z k))) = Some (- k).
Proof.
  intros Hk. unfold decimal_of_Z. destruct (Z.ltb_spec k 0); [lia|].
  destruct (decimal_digits_spec k) as (Hall & Hne & Hval); [done|].
  simpl. rewrite <- (string_app_nil_r (string_of_digits _)), digit_run_digits by done.
  destruct (decimal_digits k); [done|]. by rewrite Hval.
Qed.

Lemma parse_exponent_pos k :
  0 <= k -> parse_exponent (String "e" (decimal_of_Z k)) = Some k.
Proof.
  intros Hk. unfold decimal_of_Z. destruct (Z.ltb_spec k 0); [lia|].
  destruct (decimal_digits_spec k) as (Hall & Hne & Hval); [done|].
  destruct (decimal_digits k) as [|d ds]; [done|].
  destruct (digit_char_spec d (proj1 (proj1 (Forall_cons _ _ _) Hall))) as (_ & _ & Hm & Hp & _).
  cbn [parse_exponent]. change (Ascii.eqb "e" "e" || Ascii.eqb "e" "E") with true.
  cbn [string_of_digits strip_sign]. rewrite Hm, Hp. cbv iota beta.
  change (String (digit_char d) (string_of_digits ds)) with (string_of_digits (d :: ds)).
  rewrite <- (string_app_nil_r (string_of_digits (d :: ds))), digit_run_digits by done.
  by rewrite Hval.
Qed.

(** A number written as a fraction with no integer part, [.ds] followed by
    [e] and the count of its digits, such as [".5e1"] or [".12e2"]: the
    integer the digits spell. *)
Lemma parse_valid_float_point_digits ds :
  Forall is_digit ds -> ds <> [] ->
  parse_valid_float (String "." (string_of_digits ds +:+ String "e" (decimal_of_Z (Z.of_nat (length ds)))))
    = Some (false, digits_value 10 ds, 0).
Proof.
  intros Hds Hne. unfold parse_valid_float. change (Ascii.eqb "." "-") with false. cbv iota.
  unfold parse_unsigned_float. cbn [digit_run]. change (radix_digit 10 ".") with (@None Z). cbv iota.
  cbn [parse_fraction]. change (Ascii.eqb "." ".") with true. cbv iota.
  rewrite digit_run_digits by done. destruct ds as [|d ds']; [done|].
  rewrite parse_exponent_pos by lia. cbn [app]. unfold signed. simpl. do 2 f_equal. lia.
Qed.

Lemma parse_valid_float_nonempty s x : parse_valid_float s = Some x -> s <> "".
Proof. by intros Hs ->. Qed.

Lemma log2_le_52 v : 0 < v < 2 ^ 53 -> Z.log2 v <= 52.
Proof. intros Hv. enough (Z.log2 v < 53) by lia. apply Z.log2_lt_pow2; lia. Qed.

(** [floor_log2] is exact on a quotient that is a positive integer. *)
Lemma floor_log2_mul v d : 0 < v -> 0 < d -> floor_log2 (v * d) d = Z.log2 v.
Proof.
  intros Hv Hd. unfold floor_log2, pow2_le.
  pose proof (Z.log2_mul_below v d Hv Hd). pose proof (Z.log2_mul_above v d ltac:(lia) ltac:(lia)).
  pose proof (Z.log2_spec v Hv) as [Hlo Hhi]. pose proof (Z.log2_nonneg v).
  assert (Hj : Z.log2 (v * d) - Z.log2 d = Z.log2 v \/ Z.log2 (v * d) - Z.log2 d = Z.log2 v + 1) by lia.
  destruct Hj as [-> | ->].
  - destruct (Z.leb_spec 0 (Z.log2 v)); [|lia]. destruct (Z.leb_spec (d * 2 ^ Z.log2 v) (v * d)); nia.
  - rewrite Z.pow_succ_r in Hhi by lia.
    assert (Hlt : v * d < d * 2 ^ (Z.log2 v + 1)) by (rewrite Z.pow_add_r, Z.pow_1_r by lia; nia).
    destruct (Z.leb_spec 0 (Z.log2 v + 1)); [|lia].
    destruct (Z.leb_spec (d * 2 ^ (Z.log2 v + 1)) (v * d)); lia.
Qed.

(** Round to nearest, ties to even, on a zero remainder. *)
Lemma round_up_exact q den :
  0 < den -> (if (den <? 2 * 0) || ((2 * 0 =? den) && Z.odd q) then q + 1 else q) = q.
Proof. intros Hd. destruct (Z.ltb_spec den (2 * 0)), (Z.eqb_spec (2 * 0) den); simpl; lia. Qed.

(** A positive integer below [2^53] divided by [d] is rounded exactly: its
    significand is [v] shifted to 53 bits. *)
Lemma round_double_exact v d :
  0 < v < 2 ^ 53 -> 0 < d ->
  round_double (v * d) d = Some (v * 2 ^ (52 - Z.log2 v), Z.log2 v - 52).
Proof.
  intros Hv Hd. unfold round_double. rewrite floor_log2_mul by lia.
  assert (Hl : Z.log2 v <= 52) by (apply log2_le_52; lia).
  pose proof (Z.log2_nonneg v).
  destruct (Z.eqb_spec (v * d) 0); [nia|].
  assert (H1024 : 2 ^ 53 < 2 ^ 1024) by (apply Z.pow_lt_mono_r; lia).
  rewrite Z.max_l by lia. destruct (Z.leb_spec 0 (Z.log2 v - 52)) as [He|He].
  - assert (Z.log2 v = 52) as -> by lia. cbn -[Z.pow Z.mul Z.div Z.modulo].
    rewrite Z.sub_diag, Z.pow_0_r, !Z.mul_1_r, Z.div_mul, Z.mod_mul, round_up_exact by lia.
    by destruct (Z.leb_spec (2 ^ 1024) v); [lia|].
  - replace (- (Z.log2 v - 52)) with (52 - Z.log2 v) by lia.
    replace (v * d * 2 ^ (52 - Z.log2 v)) with (v * 2 ^ (52 - Z.log2 v) * d) by ring.
    rewrite Z.div_mul, Z.mod_mul, round_up_exact by lia.
    by destruct (Z.leb_spec 0 (Z.log2 v - 52)); [lia|].
Qed.

Definition exact_double (neg : bool) (v : Z) : double :=
  mk_double neg (v * 2 ^ (52 - Z.log2 v)) (Z.log2 v - 52).

(** The value of a valid floating-point number that is an integer [v] with
    [0 < v < 2^53], written as [v * 10^k] digits and the exponent [-k]. *)
Lemma to_number_integral s neg v k :
  parse_valid_float s = Some (neg, v * 10 ^ k, - k) -> 0 <= k -> 0 < v < 2 ^ 53 ->
  to_number s = Some (exact_double neg v).
Proof.
  intros Hs Hk Hv. unfold to_number. rewrite Hs.
  assert (Hd : 0 < 10 ^ k) by (apply Z.pow_pos_nonneg; lia).
  assert (Hq : 0 < v * 2 ^ (52 - Z.log2 v)).
  { apply Z.mul_pos_pos; [lia|]. apply Z.pow_pos_nonneg; [lia|].
    assert (Z.log2 v <= 52) by (apply log2_le_52; lia). lia. }
  destruct (Z.leb_spec 0 (- k)) as [Hk0|Hk0].
  - assert (k = 0) as -> by lia.
    replace (v * 10 ^ 0 * 10 ^ (- 0)) with (v * 1) by (rewrite Z.opp_0, Z.pow_0_r; ring).
    rewrite round_double_exact by lia. destruct (Z.eqb_spec (v * 2 ^ (52 - Z.log2 v)) 0); [lia|].
    unfold exact_double. simpl. by rewrite andb_true_r.
  - rewrite Z.opp_involutive, round_double_exact by lia.
    destruct (Z.eqb_spec (v * 2 ^ (52 - Z.log2 v)) 0); [lia|].
    unfold exact_double. simpl. by rewrite andb_true_r.
Qed.

Lemma dbl_cmp_exact neg v c :
  0 < v < 2 ^ 53 -> dbl_cmp (exact_double neg v) c = Z.compare (if neg then - v else v) c.
Proof.
  intros Hv. unfold dbl_cmp, exact_double. cbn [d_negative d_q d_e].
  assert (Z.log2 v <= 52) by (apply log2_le_52; lia).
  pose proof (Z.log2_nonneg v). assert (Hp : 0 < 2 ^ (52 - Z.log2 v)) by (apply Z.pow_pos_nonneg; lia).
  destruct (Z.leb_spec 0 (Z.log2 v - 52)) as [He|He].
  - assert (Z.log2 v = 52) as -> by lia. cbn -[Z.pow]. by rewrite !Z.mul_1_r.
  - replace (- (Z.log2 v - 52)) with (52 - Z.log2 v) by lia.
    rewrite (Zmult_compare_compat_r (if neg then - v else v) c (2 ^ (52 - Z.log2 v))) by lia.
    by destruct neg; [rewrite Z.mul_opp_l|].
Qed.

Lemma dbl_integral_exact neg v : 0 < v < 2 ^ 53 -> dbl_integral (exact_double neg v) = true.
Proof.
  intros Hv. unfold dbl_integral, exact_double. cbn [d_q d_e].
  assert (Z.log2 v <= 52) by (apply log2_le_52; lia).
  destruct (Z.leb_spec 0 (Z.log2 v - 52)); [done|].
  replace (- (Z.log2 v - 52)) with (52 - Z.log2 v) by lia. by rewrite Z.mod_mul, Z.eqb_refl by (apply Z.pow_nonzero; lia).
Qed.

Lemma cmp_not_lt x c : negb (bool_decide ((x ?= c) = Lt)) = bool_decide (c <= x).
Proof. repeat case_bool_decide; simpl; try done; rewrite ?Z.compare_lt_iff in *; lia. Qed.

Lemma cmp_not_gt x c : negb (bool_decide ((x ?= c) = Gt)) = bool_decide (x <= c).
Proof. repeat case_bool_decide; simpl; try done; rewrite ?Z.compare_gt_iff in *; lia. Qed.

(** The validity of a number input whose value is a nonzero integer below
    [2^53] in magnitude is the range check on that integer. *)
Lemma number_input_valid_integral a s neg v k :
  parse_valid_float s = Some (neg, v * 10 ^ k, - k) -> 0 <= k -> 0 < v < 2 ^ 53 ->
  number_input_valid a s =
    match min a with Some lo => bool_decide (lo <= if neg then - v else v) | None => true end &&
    match max a with Some hi => bool_decide ((if neg then - v else v) <= hi) | None => true end.
Proof.
  intros Hs Hk Hv. unfold number_input_valid.
  destruct (String.eqb_spec s ""); [by eapply parse_valid_float_nonempty in Hs|].
  rewrite Hs, (to_number_integral s neg v k), dbl_integral_exact, andb_true_r by done.
  destruct (min a), (max a); by rewrite ?dbl_cmp_exact, ?cmp_not_lt, ?cmp_not_gt by done.
Qed.

(** An input with both bounds: the range check on the integer. *)
Lemma number_input_valid_range a lo hi s neg v k :
  min a = Some lo -> max a = Some hi ->
  parse_valid_float s = Some (neg, v * 10 ^ k, - k) -> 0 <= k -> 0 < v < 2 ^ 53 ->
  number_input_valid a s = bool_decide (lo <= (if neg then - v else v) <= hi).
Proof.
  intros Hlo Hhi Hs Hk Hv. rewrite (number_input_valid_integral a s neg v k), Hlo, Hhi by done.
  apply eq_bool_prop_intro. rewrite andb_True, !bool_decide_spec. lia.
Qed.

End HtmlInput.
