(* ===== verification/Calendar.v ===== *)
(** * Calendar: the time-value arithmetic of ECMA-262, section 21.4.1

    A JavaScript [Date] holds a time value: an integral number of
    milliseconds since 1970-01-01T00:00:00Z (or NaN).  The abstract
    operations that take a time value apart ([Day], [YearFromTime],
    [MonthFromTime], [DateFromTime], ...) and put one together ([MakeDay],
    [MakeTime], [MakeDate], [TimeClip]) are translated here one by one, on
    [Z].  [YearFromTime] is specified as "the largest integral [y] such that
    [TimeFromYear y <= t]"; it is computed from an estimate corrected by one
    year either way, and [YearFromTime_spec] shows that it is that largest
    [y].  [DayFromYear_ref] is a reference definition that adds up the
    lengths of the years from 1970, and [DayFromYear] (ECMA's closed form
    with floor divisions) is proved equal to it. *)

From S2P Require Import Prelude.

Local Open Scope Z_scope.

Module Calendar.

Definition msPerSecond : Z := 1000.
Definition msPerMinute : Z := 60000.
Definition msPerHour : Z := 3600000.
Definition msPerDay : Z := 86400000.

(** [Day(t) = floor(t / msPerDay)]; [Z.div] rounds towards minus infinity. *)
Definition Day (t : Z) : Z := t / msPerDay.

Definition TimeWithinDay (t : Z) : Z := t mod msPerDay.

Definition DaysInYear (y : Z) : Z :=
  if negb (y mod 4 =? 0) then 365
  else if negb (y mod 100 =? 0) then 366
  else if negb (y mod 400 =? 0) then 365
  else 366.

Definition DayFromYear (y : Z) : Z :=
  365 * (y - 1970) + (y - 1969) / 4 - (y - 1901) / 100 + (y - 1601) / 400.

Definition TimeFromYear (y : Z) : Z := msPerDay * DayFromYear y.

(** The year of day number [d]: the estimate [1970 + floor(400 d / 146097)]
    (146097 days make 400 years) is off by at most one year either way. *)
Definition year_estimate (d : Z) : Z := 1970 + (400 * d) / 146097.

Definition YearFromDay (d : Z) : Z :=
  let y := year_estimate d in
  if DayFromYear (y + 1) <=? d then y + 1
  else if DayFromYear y <=? d then y
  else y - 1.

Definition YearFromTime (t : Z) : Z := YearFromDay (Day t).

Definition leap_of_year (y : Z) : Z := if DaysInYear y =? 366 then 1 else 0.

Definition InLeapYear (t : Z) : Z := leap_of_year (YearFromTime t).

Definition DayWithinYear (t : Z) : Z := Day t - DayFromYear (YearFromTime t).

(** Days of the year before the first day of month [m] (0 = January). *)
Definition days_before_month (leap m : Z) : Z :=
  if m =? 0 then 0 else if m =? 1 then 31 else if m =? 2 then 59 + leap
  else if m =? 3 then 90 + leap else if m =? 4 then 120 + leap
  else if m =? 5 then 151 + leap else if m =? 6 then 181 + leap
  else if m =? 7 then 212 + leap else if m =? 8 then 243 + leap
  else if m =? 9 then 273 + leap else if m =? 10 then 304 + leap
  else 334 + leap.

(** The month of a day of the year, as ECMA-262's table of intervals. *)
Definition month_of_day (leap dwy : Z) : Z :=
  if dwy <? 31 then 0 else if dwy <? 59 + leap then 1
  else if dwy <? 90 + leap then 2 else if dwy <? 120 + leap then 3
  else if dwy <? 151 + leap then 4 else if dwy <? 181 + leap then 5
  else if dwy <? 212 + leap then 6 else if dwy <? 243 + leap then 7
  else if dwy <? 273 + leap then 8 else if dwy <? 304 + leap then 9
  else if dwy <? 334 + leap then 10 else 11.

Definition MonthFromTime (t : Z) : Z := month_of_day (InLeapYear t) (DayWithinYear t).

(** [DateFromTime]: ECMA's table [dwy + 1], [dwy - 30], [dwy - 58 - leap], ...
    is [dwy - days_before_month + 1]. *)
Definition DateFromTime (t : Z) : Z :=
  DayWithinYear t - days_before_month (InLeapYear t) (MonthFromTime t) + 1.

Definition HourFromTime (t : Z) : Z := (t / msPerHour) mod 24.
Definition MinFromTime (t : Z) : Z := (t / msPerMinute) mod 60.
Definition SecFromTime (t : Z) : Z := (t / msPerSecond) mod 60.
Definition msFromTime (t : Z) : Z := t mod msPerSecond.

(** The length of month [m] (0 = January) in a year with [leap] = 0 or 1. *)
Definition days_in_month (leap m : Z) : Z :=
  if m =? 1 then 28 + leap
  else if (m =? 3) || (m =? 5) || (m =? 8) || (m =? 10) then 30
  else 31.

(** [MakeDay(year, month, date)]: the day number of the first of month
    [month modulo 12] of year [year + floor(month / 12)], plus [date - 1]
    (a date past the end of the month runs into the next one). *)
Definition MakeDay (year month date : Z) : Z :=
  let ym := year + month / 12 in
  let mn := month mod 12 in
  DayFromYear ym + days_before_month (leap_of_year ym) mn + date - 1.

Definition MakeTime (hour min sec ms : Z) : Z :=
  hour * msPerHour + min * msPerMinute + sec * msPerSecond + ms.

Definition MakeDate (day time : Z) : Z := day * msPerDay + time.

(** [TimeClip]: time values beyond 8.64e15 ms (100 000 000 days) either
    side of the epoch are NaN, here [None]. *)
Definition TimeClip (t : Z) : option Z :=
  if Z.abs t <=? 8640000000000000 then Some t else None.

(** The reference: the number of days from 1970-01-01 to the first of year
    [y], by adding up the lengths of the years in between. *)
Fixpoint days_of_years_from (y : Z) (n : nat) : Z :=
  match n with
  | O => 0
  | S n' => DaysInYear y + days_of_years_from (y + 1) n'
  end.

Definition DayFromYear_ref (y : Z) : Z :=
  if 1970 <=? y then days_of_years_from 1970 (Z.to_nat (y - 1970))
  else - days_of_years_from y (Z.to_nat (1970 - y)).

(** ** Lemmas *)

Lemma DaysInYear_cases y : DaysInYear y = 365 \/ DaysInYear y = 366.
Proof. unfold DaysInYear. repeat case_match; auto. Qed.

Lemma leap_of_year_range y : 0 <= leap_of_year y <= 1.
Proof. unfold leap_of_year. case_match; lia. Qed.

Lemma leap_of_year_days y : DaysInYear y = 365 + leap_of_year y.
Proof. unfold leap_of_year. destruct (DaysInYear_cases y) as [-> | ->]; done. Qed.

(** The closed form grows by the length of each year. *)
Lemma DayFromYear_succ y : DayFromYear (y + 1) = DayFromYear y + DaysInYear y.
Proof.
  unfold DayFromYear, DaysInYear.
  destruct (Z.eqb_spec (y mod 4) 0), (Z.eqb_spec (y mod 100) 0),
    (Z.eqb_spec (y mod 400) 0); simpl; zlia.
Qed.

Lemma days_of_years_from_succ y n :
  days_of_years_from y (S n) = days_of_years_from y n + DaysInYear (y + Z.of_nat n).
Proof.
  revert y. induction n as [|n IH]; intros y; [cbn [days_of_years_from]; replace (y + Z.of_nat 0) with y by lia; lia|].
  specialize (IH (y + 1)). cbn [days_of_years_from] in *. rewrite IH.
  replace (y + 1 + Z.of_nat n) with (y + Z.of_nat (S n)) by lia. lia.
Qed.

Lemma DayFromYear_plus y n : DayFromYear (y + Z.of_nat n) = DayFromYear y + days_of_years_from y n.
Proof.
  induction n as [|n IH]; [cbn [days_of_years_from]; replace (y + Z.of_nat 0) with y by lia; lia|].
  rewrite days_of_years_from_succ, Nat2Z.inj_succ, <- Z.add_1_r, Z.add_assoc,
    DayFromYear_succ, IH. lia.
Qed.

Lemma days_of_years_from_lower y n : 365 * Z.of_nat n <= days_of_years_from y n.
Proof.
  revert y. induction n as [|n IH]; intros y; cbn [days_of_years_from]; [lia|].
  specialize (IH (y + 1)). destruct (DaysInYear_cases y); lia.
Qed.

Lemma DayFromYear_mono y z : y <= z -> DayFromYear y + 365 * (z - y) <= DayFromYear z.
Proof.
  intros Hyz. pose proof (DayFromYear_plus y (Z.to_nat (z - y))) as Hp.
  pose proof (days_of_years_from_lower y (Z.to_nat (z - y))).
  replace (y + Z.of_nat (Z.to_nat (z - y))) with z in Hp by lia. lia.
Qed.

(** The estimate is within a year of the true year. *)
Lemma year_estimate_bounds d :
  DayFromYear (year_estimate d - 1) <= d < DayFromYear (year_estimate d + 2).
Proof. unfold DayFromYear, year_estimate. zlia. Qed.

Lemma YearFromDay_bounds d :
  DayFromYear (YearFromDay d) <= d < DayFromYear (YearFromDay d + 1).
Proof.
  pose proof (year_estimate_bounds d) as [Hlo Hhi]. unfold YearFromDay.
  set (y := year_estimate d) in *.
  destruct (Z.leb_spec (DayFromYear (y + 1)) d).
  - split; [done|]. by replace (y + 1 + 1) with (y + 2) by lia.
  - destruct (Z.leb_spec (DayFromYear y) d); [lia|].
    split; [done|]. by replace (y - 1 + 1) with y by lia.
Qed.

(** At most one year contains a given day. *)
Lemma year_of_day_unique d y z :
  DayFromYear y <= d < DayFromYear (y + 1) ->
  DayFromYear z <= d < DayFromYear (z + 1) -> y = z.
Proof.
  intros Hy Hz. destruct (Z.lt_total y z) as [Hlt | [-> | Hlt]]; [| done |].
  - pose proof (DayFromYear_mono (y + 1) z). lia.
  - pose proof (DayFromYear_mono (z + 1) y). lia.
Qed.

Lemma YearFromDay_unique d y :
  DayFromYear y <= d < DayFromYear (y + 1) -> YearFromDay d = y.
Proof. intros Hy. eapply year_of_day_unique; [apply YearFromDay_bounds | exact Hy]. Qed.

Lemma Day_MakeDate day time : 0 <= time < msPerDay -> Day (MakeDate day time) = day.
Proof. unfold Day, MakeDate, msPerDay. zlia. Qed.

Lemma days_before_month_bounds leap m :
  0 <= leap <= 1 -> 0 <= m <= 11 ->
  days_before_month leap m + days_in_month leap m <= 365 + leap /\
  0 <= days_before_month leap m /\ 28 <= days_in_month leap m.
Proof.
  intros Hl Hm. unfold days_in_month, days_before_month.
  assert (m = 0 \/ m = 1 \/ m = 2 \/ m = 3 \/ m = 4 \/ m = 5 \/ m = 6 \/ m = 7 \/
          m = 8 \/ m = 9 \/ m = 10 \/ m = 11) as Hcases by lia.
  destruct_or! Hcases; subst; simpl; lia.
Qed.

(** A day inside month [m] is mapped back to [m] and its date. *)
Lemma month_of_day_inside leap m k :
  0 <= leap <= 1 -> 0 <= m <= 11 -> 0 <= k < days_in_month leap m ->
  month_of_day leap (days_before_month leap m + k) = m.
Proof.
  intros Hl Hm Hk. unfold days_in_month, days_before_month, month_of_day in *.
  assert (m = 0 \/ m = 1 \/ m = 2 \/ m = 3 \/ m = 4 \/ m = 5 \/ m = 6 \/ m = 7 \/
          m = 8 \/ m = 9 \/ m = 10 \/ m = 11) as Hcases by lia.
  destruct_or! Hcases; subst; simpl in *; repeat (case_match; try lia); lia.
Qed.

Lemma TimeFromYear_le y t : TimeFromYear y <= t <-> DayFromYear y <= Day t.
Proof. unfold TimeFromYear, Day, msPerDay. zlia. Qed.

Lemma TimeFromYear_gt y t : t < TimeFromYear y <-> Day t < DayFromYear y.
Proof. unfold TimeFromYear, Day, msPerDay. zlia. Qed.

Lemma leap_of_year_InLeapYear t : InLeapYear t = leap_of_year (YearFromTime t).
Proof. reflexivity. Qed.

(** [MakeDay] on a month in range: the year's first day, the days of the
    months before, and the date. *)
Lemma MakeDay_in_range y m d :
  0 <= m <= 11 -> MakeDay y m d = DayFromYear y + days_before_month (leap_of_year y) m + d - 1.
Proof.
  intros Hm. unfold MakeDay. rewrite Z.div_small, Z.mod_small by lia. by rewrite Z.add_0_r.
Qed.

(** The month table inverts [days_before_month]: the month of a day of the
    year starts at or before it and ends after it. *)
Lemma month_of_day_spec leap dwy :
  0 <= leap <= 1 -> 0 <= dwy < 365 + leap ->
  0 <= month_of_day leap dwy <= 11 /\
  days_before_month leap (month_of_day leap dwy) <= dwy <
    days_before_month leap (month_of_day leap dwy) + days_in_month leap (month_of_day leap dwy).
Proof.
  intros Hl Hd. unfold month_of_day.
  repeat (case_match; [unfold days_before_month, days_in_month; simpl; lia|]).
  unfold days_before_month, days_in_month; simpl; lia.
Qed.

Lemma DayWithinYear_range t : 0 <= DayWithinYear t < DaysInYear (YearFromTime t).
Proof.
  unfold DayWithinYear, YearFromTime. pose proof (YearFromDay_bounds (Day t)).
  rewrite DayFromYear_succ in *. lia.
Qed.

(** Every time value is put together from its year, month, date and time of
    day, each in range. *)
Lemma calendar_decompose t :
  0 <= MonthFromTime t <= 11 /\
  1 <= DateFromTime t <= days_in_month (InLeapYear t) (MonthFromTime t) /\
  Day t = MakeDay (YearFromTime t) (MonthFromTime t) (DateFromTime t).
Proof.
  pose proof (DayWithinYear_range t) as Hd. pose proof (leap_of_year_range (YearFromTime t)) as Hl.
  rewrite leap_of_year_days in Hd.
  destruct (month_of_day_spec (leap_of_year (YearFromTime t)) (DayWithinYear t)) as [Hm Hb]; [lia..|].
  unfold DateFromTime, MonthFromTime, InLeapYear. split_and!; try lia.
  rewrite MakeDay_in_range by lia. unfold DayWithinYear in *. lia.
Qed.

Lemma time_decompose t :
  0 <= HourFromTime t <= 23 /\ 0 <= MinFromTime t <= 59 /\ 0 <= SecFromTime t <= 59 /\
  0 <= msFromTime t <= 999 /\
  t = MakeDate (Day t) (MakeTime (HourFromTime t) (MinFromTime t) (SecFromTime t) (msFromTime t)).
Proof.
  unfold HourFromTime, MinFromTime, SecFromTime, msFromTime, MakeDate, MakeTime, Day,
    msPerHour, msPerMinute, msPerSecond, msPerDay. zlia.
Qed.

(** The calendar fields of a time value depend on its day only. *)
Lemma calendar_of_Day t :
  YearFromTime t = YearFromTime (MakeDate (Day t) 0) /\
  MonthFromTime t = MonthFromTime (MakeDate (Day t) 0) /\
  DateFromTime t = DateFromTime (MakeDate (Day t) 0).
Proof.
  assert (Day (MakeDate (Day t) 0) = Day t) as HD by (apply Day_MakeDate; unfold msPerDay; lia).
  unfold DateFromTime, MonthFromTime, InLeapYear, DayWithinYear, YearFromTime. by rewrite HD.
Qed.

(** The calendar fields of a day built by [MakeDay] are its arguments. *)
Lemma calendar_of_MakeDay y m d time :
  0 <= m <= 11 -> 1 <= d <= days_in_month (leap_of_year y) m -> 0 <= time < msPerDay ->
  YearFromTime (MakeDate (MakeDay y m d) time) = y /\
  MonthFromTime (MakeDate (MakeDay y m d) time) = m /\
  DateFromTime (MakeDate (MakeDay y m d) time) = d.
Proof.
  intros Hm Hd Ht. pose proof (leap_of_year_range y) as Hl.
  pose proof (days_before_month_bounds (leap_of_year y) m Hl Hm) as (Hb & Hb0 & _).
  assert (Hy : YearFromTime (MakeDate (MakeDay y m d) time) = y).
  { apply YearFromDay_unique. rewrite Day_MakeDate, MakeDay_in_range by done.
    rewrite DayFromYear_succ, leap_of_year_days. lia. }
  assert (Hdwy : DayWithinYear (MakeDate (MakeDay y m d) time) =
                 days_before_month (leap_of_year y) m + (d - 1)).
  { unfold DayWithinYear. rewrite Hy, Day_MakeDate, MakeDay_in_range by done. lia. }
  unfold DateFromTime, MonthFromTime, InLeapYear.
  rewrite Hy, Hdwy, month_of_day_inside by lia. split_and!; [done | done | lia].
Qed.

(** ** Theorems *)

(** [YearFromTime] computes the year ECMA-262 specifies.  For every
    time value [t] and year [y], [YearFromTime t = y] exactly when
    [TimeFromYear y <= t < TimeFromYear (y + 1)], i.e. [y] is the largest
    integral [y] with [TimeFromYear y <= t]: the estimate with its
    one-year corrections is equivalent to the specification. *)
Theorem YearFromTime_spec (t y : Z) :
  YearFromTime t = y <-> TimeFromYear y <= t < TimeFromYear (y + 1).
Proof.
  rewrite TimeFromYear_le, TimeFromYear_gt. unfold YearFromTime. split.
  - intros <-. pose proof (YearFromDay_bounds (Day t)). lia.
  - intros Hy. by apply YearFromDay_unique.
Qed.

(** ECMA-262's closed form of [DayFromYear] (with its three floor
    divisions) equals the reference count of days, the sum of the lengths
    of the years from 1970 to [y] (negated for years before 1970). *)
Theorem DayFromYear_equiv_ref (y : Z) : DayFromYear y = DayFromYear_ref y.
Proof.
  unfold DayFromYear_ref. destruct (Z.leb_spec 1970 y) as [Hle | Hle].
  - pose proof (DayFromYear_plus 1970 (Z.to_nat (y - 1970))) as Hp.
    replace (1970 + Z.of_nat (Z.to_nat (y - 1970))) with y in Hp by lia.
    rewrite Hp. reflexivity.
  - pose proof (DayFromYear_plus y (Z.to_nat (1970 - y))) as Hp.
    replace (y + Z.of_nat (Z.to_nat (1970 - y))) with 1970 in Hp by lia.
    change (DayFromYear 1970) with 0 in Hp. lia.
Qed.

(** Taking a time value apart inverts putting it together.  For
    every year [y], month [m] in 0..11, date [d] within the month's length
    and time of day [time] in [0, msPerDay), the time value
    [MakeDate (MakeDay y m d) time] has year [y], month [m], date [d] and
    time within the day [time]. *)
Theorem calendar_roundtrip (y m d time : Z) :
  0 <= m <= 11 -> 1 <= d <= days_in_month (leap_of_year y) m -> 0 <= time < msPerDay ->
  YearFromTime (MakeDate (MakeDay y m d) time) = y /\
  MonthFromTime (MakeDate (MakeDay y m d) time) = m /\
  DateFromTime (MakeDate (MakeDay y m d) time) = d /\
  TimeWithinDay (MakeDate (MakeDay y m d) time) = time.
Proof.
  intros Hm Hd Ht. destruct (calendar_of_MakeDay y m d time) as (-> & -> & ->); [done..|].
  split_and!; [done..|]. unfold TimeWithinDay, MakeDate, msPerDay in *. zlia.
Qed.

End Calendar.
