(* ===== verification/JsDate.v ===== *)
(** * JsDate: [new Date(string)], [toISOString] and [toLocaleDateString]

    The pages use three [Date] operations: [new Date().toISOString()]
    ([CreateInvoice.tsx], for the default invoice date, and [Index.tsx]),
    and [new Date(s).toLocaleDateString('en-US', {year: 'numeric', month:
    'short', day: 'numeric'})] ([formatDate] of [Invoices.tsx]).

    - [Date_parse] follows ECMA-262 21.4.3.2: a string in the Date Time
      String Format (21.4.1.32: [YYYY], [YYYY-MM], [YYYY-MM-DD], expanded
      years [+YYYYYY] / [-YYYYYY], optionally followed by [THH:mm],
      [THH:mm:ss] or [THH:mm:ss.sss] and a UTC offset [Z] or [+HH:mm]) is
      read field by field; out-of-bounds fields give NaN; any other string
      is left to the implementation's own heuristics ([fallback_parse]).
      A date-only form is UTC; a date-time form without offset is local
      time, converted by the host's [UTC] operation.
    - [new_Date] applies [TimeClip] to the parsed value.
    - [toISOString] prints [YYYY-MM-DDTHH:mm:ss.sssZ] (six-digit signed
      years outside 0..9999) and throws ([None]) on NaN.
    - [toLocaleDateString_enUS] prints the local date as en-US [MMM d, y]
      (ECMA-402: [Invalid Date] for NaN, local time through the time zone's
      offset at the instant, and a year [v <= 0] written [1 - v]).

    The time zone and the fallback parser are host-defined; they are the
    fields of the record [host], and every theorem holds for every host. *)

From S2P Require Import Prelude JsNumber Calendar.
Import ParseInt Decimal Calendar.

Local Open Scope Z_scope.

Module JsDate.

(** What ECMA-262 leaves to the implementation. *)
Record host := mk_host {
  offset_at : Z -> Z;                 (** offset of the local time zone, in ms, at a UTC instant *)
  utc_of_local : Z -> Z;              (** [UTC(t)] of a local time value *)
  fallback_parse : string -> option Z (** implementation-specific formats *)
}.

(** ** Reading the Date Time String Format *)

Definition char_is (c : ascii) (s : string) : option string :=
  match s with
  | String c' s' => if Ascii.eqb c c' then Some s' else None
  | EmptyString => None
  end.

(** Exactly [n] decimal digits. *)
Fixpoint take_digits (n : nat) (acc : Z) (s : string) : option (Z * string) :=
  match n with
  | O => Some (acc, s)
  | S n' =>
      match s with
      | String c s' => d ← radix_digit 10 c; take_digits n' (10 * acc + d) s'
      | EmptyString => None
      end
  end.

(** [YYYY], [+YYYYYY] or [-YYYYYY] ([-000000] is not a valid year). *)
Definition parse_year (s : string) : option (Z * string) :=
  match s with
  | String c s' =>
      if Ascii.eqb c "+" then take_digits 6 0 s'
      else if Ascii.eqb c "-" then
        '(v, r) ← take_digits 6 0 s'; if v =? 0 then None else Some (- v, r)
      else take_digits 4 0 s
  | EmptyString => None
  end.

(** [-MM] and [-DD], each optional, defaulting to 01. *)
Definition parse_month_day (s : string) : option (Z * Z * string) :=
  match char_is "-" s with
  | Some s1 =>
      '(mo, s2) ← take_digits 2 0 s1;
      match char_is "-" s2 with
      | Some s3 => '(dd, s4) ← take_digits 2 0 s3; Some (mo, dd, s4)
      | None => Some (mo, 1, s2)
      end
  | None => Some (1, 1, s)
  end.

(** [HH:mm], then optionally [:ss] and [.sss]. *)
Definition parse_time (s : string) : option (Z * Z * Z * Z * string) :=
  '(hh, s1) ← take_digits 2 0 s;
  s2 ← char_is ":" s1;
  '(mi, s3) ← take_digits 2 0 s2;
  match char_is ":" s3 with
  | Some s4 =>
      '(ss, s5) ← take_digits 2 0 s4;
      match char_is "." s5 with
      | Some s6 => '(ms, s7) ← take_digits 3 0 s6; Some (hh, mi, ss, ms, s7)
      | None => Some (hh, mi, ss, 0, s5)
      end
  | None => Some (hh, mi, 0, 0, s3)
  end.

Inductive zone :=
| ZLocal                                (** no offset: local time *)
| ZUtc                                  (** [Z] *)
| ZOffset (sign hours minutes : Z).     (** [+HH:mm] or [-HH:mm] *)

(** The offset, which must end the string. *)
Definition parse_zone (s : string) : option zone :=
  match s with
  | EmptyString => Some ZLocal
  | String c s1 =>
      if Ascii.eqb c "Z" then (if bool_decide (s1 = EmptyString) then Some ZUtc else None)
      else if Ascii.eqb c "+" || Ascii.eqb c "-" then
        '(oh, s2) ← take_digits 2 0 s1;
        s3 ← char_is ":" s2;
        '(om, s4) ← take_digits 2 0 s3;
        if bool_decide (s4 = EmptyString)
        then Some (ZOffset (if Ascii.eqb c "-" then -1 else 1) oh om) else None
      else None
  end.

Record iso_fields := mk_iso {
  iso_year : Z;
  iso_month : Z;                          (** 1-based, as written *)
  iso_day : Z;
  iso_time : option (Z * Z * Z * Z);      (** hours, minutes, seconds, ms of a date-time form *)
  iso_zone : zone
}.

(** The shape of the format, without the range checks. *)
Definition iso_shape (s : string) : option iso_fields :=
  '(y, s1) ← parse_year s;
  '(mo, dd, s2) ← parse_month_day s1;
  match s2 with
  | EmptyString => Some (mk_iso y mo dd None ZUtc)
  | String c s3 =>
      if Ascii.eqb c "T" then
        '(hh, mi, ss, ms, s4) ← parse_time s3;
        z ← parse_zone s4;
        Some (mk_iso y mo dd (Some (hh, mi, ss, ms)) z)
      else None
  end.

(** The ranges of 21.4.1.32: MM 01-12, DD 01-31, HH 00-24 (24 only for
    24:00:00.000), mm and ss 00-59, offsets up to 23:59. *)
Definition iso_in_bounds (f : iso_fields) : bool :=
  (1 <=? iso_month f) && (iso_month f <=? 12) && (1 <=? iso_day f) && (iso_day f <=? 31) &&
  match iso_time f with
  | None => true
  | Some (hh, mi, ss, ms) =>
      (hh <=? 24) && (mi <=? 59) && (ss <=? 59) &&
      (negb (hh =? 24) || ((mi =? 0) && (ss =? 0) && (ms =? 0)))
  end &&
  match iso_zone f with
  | ZOffset _ oh om => (oh <=? 23) && (om <=? 59)
  | _ => true
  end.

(** The time value the fields denote. *)
Definition iso_time_value (h : host) (f : iso_fields) : Z :=
  let '(hh, mi, ss, ms) := default (0, 0, 0, 0) (iso_time f) in
  let t := MakeDate (MakeDay (iso_year f) (iso_month f - 1) (iso_day f)) (MakeTime hh mi ss ms) in
  match iso_time f, iso_zone f with
  | None, _ | Some _, ZUtc => t
  | Some _, ZOffset sign oh om => t - sign * (oh * msPerHour + om * msPerMinute)
  | Some _, ZLocal => utc_of_local h t
  end.

(** [Date.parse(s)]; [None] is NaN. *)
Definition Date_parse (h : host) (s : string) : option Z :=
  match iso_shape s with
  | Some f => if iso_in_bounds f then Some (iso_time_value h f) else None
  | None => fallback_parse h s
  end.

(** [new Date(s)]: the parsed value, clipped. *)
Definition new_Date (h : host) (s : string) : option Z :=
  t ← Date_parse h s; TimeClip t.

(** ** Printing *)

(** The last [n] decimal digits of [z], most significant first. *)
Fixpoint pad_digits (n : nat) (z : Z) : string :=
  match n with
  | O => EmptyString
  | S n' => String (digit_char ((z / 10 ^ Z.of_nat n') mod 10)) (pad_digits n' z)
  end.

Definition iso_year_string (y : Z) : string :=
  if (0 <=? y) && (y <=? 9999) then pad_digits 4 y
  else if y <? 0 then String "-" (pad_digits 6 (- y))
  else String "+" (pad_digits 6 y).

(** [Date.prototype.toISOString]; [None] is the RangeError of NaN. *)
Definition toISOString (tv : option Z) : option string :=
  t ← tv;
  Some (iso_year_string (YearFromTime t) +:+ String "-" (pad_digits 2 (MonthFromTime t + 1)) +:+
        String "-" (pad_digits 2 (DateFromTime t)) +:+
        String "T" (pad_digits 2 (HourFromTime t)) +:+ String ":" (pad_digits 2 (MinFromTime t)) +:+
        String ":" (pad_digits 2 (SecFromTime t)) +:+ String "." (pad_digits 3 (msFromTime t)) +:+ "Z").

Definition month_short (m : Z) : string :=
  nth (Z.to_nat m) ["Jan"; "Feb"; "Mar"; "Apr"; "May"; "Jun"; "Jul"; "Aug"; "Sep"; "Oct"; "Nov"; "Dec"] "".

(** The en-US pattern [MMM d, y] of [{year: 'numeric', month: 'short', day:
    'numeric'}]; ECMA-402 writes a year [v <= 0] as [1 - v]. *)
Definition en_US_date (y m d : Z) : string :=
  month_short m +:+ " " +:+ decimal_of_Z d +:+ ", " +:+ decimal_of_Z (if y <=? 0 then 1 - y else y).

Definition en_US_of_time (lt : Z) : string :=
  en_US_date (YearFromTime lt) (MonthFromTime lt) (DateFromTime lt).

Definition LocalTime (h : host) (t : Z) : Z := t + offset_at h t.

(** [Date.prototype.toLocaleDateString('en-US', {year: 'numeric', month:
    'short', day: 'numeric'})]. *)
Definition toLocaleDateString_enUS (h : host) (tv : option Z) : string :=
  match tv with
  | None => "Invalid Date"
  | Some t => en_US_of_time (LocalTime h t)
  end.

(** ISO text of a calendar date, as [YYYY-MM-DD] (month 1-based). *)
Definition iso_date (y m d : Z) : string :=
  pad_digits 4 y +:+ String "-" (pad_digits 2 m) +:+ String "-" (pad_digits 2 d).

(** ** Lemmas *)

Lemma digit_char_digit z : radix_digit 10 (digit_char (z mod 10)) = Some (z mod 10).
Proof. apply digit_char_spec. unfold is_digit. pose proof (Z.mod_pos_bound z 10). lia. Qed.

Lemma digit_char_not_sign z :
  Ascii.eqb (digit_char (z mod 10)) "+" = false /\ Ascii.eqb (digit_char (z mod 10)) "-" = false.
Proof.
  destruct (digit_char_spec (z mod 10)) as (_ & _ & ? & ? & _); [|done].
  unfold is_digit. pose proof (Z.mod_pos_bound z 10). lia.
Qed.

(** Reading [n] digits back from [pad_digits n z] gives [z mod 10^n]. *)
Lemma take_digits_pad n acc z rest :
  take_digits n acc (pad_digits n z +:+ rest) =
  Some (acc * 10 ^ Z.of_nat n + z mod 10 ^ Z.of_nat n, rest).
Proof.
  revert acc. induction n as [|n IH]; intros acc.
  - cbn [pad_digits]. rewrite string_app_nil_l. simpl. f_equal. f_equal.
    rewrite Z.mod_1_r. lia.
  - cbn [pad_digits]. rewrite string_app_cons. cbn [take_digits].
    rewrite digit_char_digit. simpl (_ ≫= _). rewrite IH. do 2 f_equal.
    rewrite Nat2Z.inj_succ, Z.pow_succ_r by lia.
    rewrite (Z.mul_comm 10 (10 ^ Z.of_nat n)), Z.rem_mul_r by (try apply Z.pow_nonzero; lia).
    lia.
Qed.

Lemma take_digits_pad_small n z rest :
  0 <= z < 10 ^ Z.of_nat n -> take_digits n 0 (pad_digits n z +:+ rest) = Some (z, rest).
Proof. intros Hz. rewrite take_digits_pad, Z.mod_small by done. do 2 f_equal. Qed.

Lemma pad_digits_S n z :
  pad_digits (S n) z = String (digit_char ((z / 10 ^ Z.of_nat n) mod 10)) (pad_digits n z).
Proof. reflexivity. Qed.

Lemma parse_year_plus s : parse_year (String "+" s) = take_digits 6 0 s.
Proof. reflexivity. Qed.

Lemma parse_year_minus s :
  parse_year (String "-" s) = '(v, r) ← take_digits 6 0 s; if v =? 0 then None else Some (- v, r).
Proof. reflexivity. Qed.

Lemma parse_year_iso y rest :
  -10 ^ 6 < y < 10 ^ 6 -> parse_year (iso_year_string y +:+ rest) = Some (y, rest).
Proof.
  intros Hy. unfold iso_year_string.
  destruct (Z.leb_spec 0 y), (Z.leb_spec y 9999); simpl andb; cbn match.
  - rewrite pad_digits_S, string_app_cons. unfold parse_year.
    destruct (digit_char_not_sign (y / 10 ^ Z.of_nat 3)) as [-> ->].
    rewrite <- string_app_cons, <- pad_digits_S, take_digits_pad_small; [done | simpl; lia].
  - destruct (Z.ltb_spec y 0); [lia|]. rewrite string_app_cons, parse_year_plus.
    rewrite take_digits_pad_small; [done | simpl; lia].
  - destruct (Z.ltb_spec y 0); [|lia]. rewrite string_app_cons, parse_year_minus.
    rewrite take_digits_pad_small by (simpl; lia). cbn [mbind option_bind].
    destruct (Z.eqb_spec (- y) 0); [lia|]. do 2 f_equal. lia.
  - lia.
Qed.

Lemma char_is_same c s : char_is c (String c s) = Some s.
Proof. unfold char_is. by rewrite Ascii.eqb_refl. Qed.

Lemma parse_month_day_iso mo dd r :
  0 <= mo < 100 -> 0 <= dd < 100 ->
  parse_month_day (String "-" (pad_digits 2 mo) +:+ String "-" (pad_digits 2 dd) +:+ r) =
  Some (mo, dd, r).
Proof.
  intros Hmo Hdd. unfold parse_month_day. rewrite string_app_cons, char_is_same.
  rewrite take_digits_pad_small by (simpl; lia). cbn [mbind option_bind].
  rewrite string_app_cons, char_is_same, take_digits_pad_small by (simpl; lia). done.
Qed.

Lemma parse_time_iso hh mi ss ms r :
  0 <= hh < 100 -> 0 <= mi < 100 -> 0 <= ss < 100 -> 0 <= ms < 1000 ->
  parse_time (pad_digits 2 hh +:+ String ":" (pad_digits 2 mi) +:+ String ":" (pad_digits 2 ss) +:+
              String "." (pad_digits 3 ms) +:+ r) = Some (hh, mi, ss, ms, r).
Proof.
  intros. unfold parse_time. rewrite take_digits_pad_small by (simpl; lia). cbn [mbind option_bind].
  rewrite string_app_cons, char_is_same. cbn [mbind option_bind].
  rewrite take_digits_pad_small by (simpl; lia). cbn [mbind option_bind].
  rewrite string_app_cons, char_is_same, take_digits_pad_small by (simpl; lia). cbn [mbind option_bind].
  rewrite string_app_cons, char_is_same, take_digits_pad_small by (simpl; lia). done.
Qed.

(** A valid time value lies within 275 760 years of the epoch. *)
Lemma YearFromTime_valid t :
  Z.abs t <= 8640000000000000 -> -10 ^ 6 < YearFromTime t < 10 ^ 6.
Proof.
  intros Ht. pose proof (YearFromDay_bounds (Day t)) as Hb. unfold YearFromTime.
  set (y := YearFromDay (Day t)) in *. unfold DayFromYear, Day, msPerDay in *. zlia.
Qed.

Lemma days_in_month_le leap m : 0 <= leap <= 1 -> days_in_month leap m <= 31.
Proof. unfold days_in_month. repeat case_match; lia. Qed.

Lemma iso_in_bounds_datetime y mo dd hh mi ss ms :
  1 <= mo <= 12 -> 1 <= dd <= 31 -> 0 <= hh <= 23 -> 0 <= mi <= 59 -> 0 <= ss <= 59 ->
  iso_in_bounds (mk_iso y mo dd (Some (hh, mi, ss, ms)) ZUtc) = true.
Proof.
  intros. unfold iso_in_bounds; cbn [iso_month iso_day iso_time iso_zone].
  repeat rewrite (proj2 (Z.leb_le _ _)) by lia. by rewrite (proj2 (Z.eqb_neq hh 24)) by lia.
Qed.

Lemma TimeClip_valid t : Z.abs t <= 8640000000000000 -> TimeClip t = Some t.
Proof. intros Ht. unfold TimeClip. by rewrite (proj2 (Z.leb_le _ _)). Qed.

Lemma iso_year_string_small y : 0 <= y <= 9999 -> iso_year_string y = pad_digits 4 y.
Proof.
  intros Hy. unfold iso_year_string.
  by rewrite (proj2 (Z.leb_le 0 y)), (proj2 (Z.leb_le y 9999)) by lia.
Qed.

(** A date-only ISO string is read as UTC midnight of its date. *)
Lemma Date_parse_iso_date h y m d :
  0 <= y <= 9999 -> 1 <= m <= 12 -> 1 <= d <= 31 ->
  Date_parse h (iso_date y m d) = Some (MakeDate (MakeDay y (m - 1) d) 0).
Proof.
  intros Hy Hm Hd. unfold Date_parse, iso_shape, iso_date.
  rewrite <- (string_app_nil_r (String "-" (pad_digits 2 d))), <- iso_year_string_small by done.
  rewrite parse_year_iso by lia. cbn [mbind option_bind].
  rewrite parse_month_day_iso by lia. cbn [mbind option_bind].
  unfold iso_in_bounds; cbn [iso_month iso_day iso_time iso_zone].
  repeat rewrite (proj2 (Z.leb_le _ _)) by lia. done.
Qed.

Lemma MakeDate_small_valid y m d :
  0 <= y <= 9999 -> 0 <= m <= 11 -> 1 <= d <= 31 ->
  Z.abs (MakeDate (MakeDay y m d) 0) <= 8640000000000000.
Proof.
  intros Hy Hm Hd. rewrite MakeDay_in_range by done.
  pose proof (leap_of_year_range y).
  pose proof (days_before_month_bounds (leap_of_year y) m ltac:(lia) Hm) as (Hb & Hb0 & Hdim).
  unfold MakeDate, DayFromYear, msPerDay. zlia.
Qed.

Lemma new_Date_iso_date h y m d :
  0 <= y <= 9999 -> 1 <= m <= 12 -> 1 <= d <= 31 ->
  new_Date h (iso_date y m d) = Some (MakeDate (MakeDay y (m - 1) d) 0).
Proof.
  intros. unfold new_Date. rewrite Date_parse_iso_date by done. cbn [mbind option_bind].
  apply TimeClip_valid, MakeDate_small_valid; lia.
Qed.

(** The en-US date of a time value is the date of its day. *)
Lemma en_US_of_time_Day a b : Day a = Day b -> en_US_of_time a = en_US_of_time b.
Proof.
  intros Hab. unfold en_US_of_time.
  destruct (calendar_of_Day a) as (-> & -> & ->), (calendar_of_Day b) as (-> & -> & ->).
  by rewrite Hab.
Qed.

Lemma en_US_of_MakeDay y m d :
  0 <= m <= 11 -> 1 <= d <= days_in_month (leap_of_year y) m ->
  en_US_of_time (MakeDate (MakeDay y m d) 0) = en_US_date y m d.
Proof.
  intros Hm Hd. unfold en_US_of_time.
  destruct (calendar_of_MakeDay y m d 0) as (-> & -> & ->); [done | done | unfold msPerDay; lia |].
  done.
Qed.

(** ** Theorems *)

(** [new Date(d.toISOString())] is [d].  For every valid time value
    [t] (within [TimeClip]'s 8.64e15 ms of the epoch), [toISOString]
    succeeds and its text, read back by [Date.parse] as a date-time with
    offset [Z], and clipped, is [t] again, whatever the host's time zone
    and fallback parser. *)
Theorem toISOString_roundtrip (h : host) (t : Z) :
  Z.abs t <= 8640000000000000 -> toISOString (Some t) ≫= new_Date h = Some t.
Proof.
  intros Ht. destruct (calendar_decompose t) as (HM & HD & Hday).
  destruct (time_decompose t) as (HH & HMi & HS & HMs & Htime).
  pose proof (YearFromTime_valid t Ht).
  pose proof (days_in_month_le (InLeapYear t) (MonthFromTime t) (leap_of_year_range _)).
  cbn [toISOString mbind option_bind]. unfold new_Date, Date_parse, iso_shape.
  rewrite parse_year_iso by done. cbn [mbind option_bind].
  rewrite parse_month_day_iso by lia. cbn [mbind option_bind].
  rewrite string_app_cons, Ascii.eqb_refl, parse_time_iso by lia. cbn [mbind option_bind].
  change (parse_zone "Z") with (Some ZUtc). cbn [mbind option_bind].
  rewrite iso_in_bounds_datetime by lia. cbn [mbind option_bind].
  unfold iso_time_value; cbn [iso_time iso_zone iso_year iso_month iso_day default].
  unfold id. rewrite Z.add_simpl_r, <- Hday, <- Htime. by apply TimeClip_valid.
Qed.

End JsDate.
