(* ===== verification/Entities.v ===== *)
(** * Entities: the records the pages receive from the data hooks

    The types [Service] (from [@/hooks/useServices]), the invoice rows of
    [@/hooks/useInvoices], the profile of [@/hooks/useProfile] and the user of
    [@/hooks/useAuth] are declared outside [src/]; their fields are taken from
    the spec (section 3) and from the literals and field reads of the pages
    ([Index.tsx] builds three [Service] values field by field).  Each record
    lives in a module of its own so that its fields keep the names of the
    TypeScript properties. *)

From S2P Require Import Prelude.

Local Open Scope Z_scope.

Module User.
(** The authenticated user: the pages read [user.id] and [user.email]. *)
Record t := mk { id : string; email : string }.

#[global] Instance eq_dec : EqDecision t.
Proof. solve_decision. Defined.
End User.

Module Profile.
(** The signed-in user's profile; [display_name] may be null. *)
Record t := mk { display_name : option string; company_name : option string }.

#[global] Instance eq_dec : EqDecision t.
Proof. solve_decision. Defined.
End Profile.

Module Service.
(** The denormalised owner information joined into a service row. *)
Record owner := mk_owner { company_name : string; display_name : string }.

Record t := mk {
  id : string;
  user_id : string;
  title : string;
  description : string;
  category : string;
  price_range : string;
  location : string;
  is_active : bool;
  created_at : string;
  updated_at : string;
  profiles : option owner
}.

#[global] Instance owner_eq_dec : EqDecision owner.
Proof. solve_decision. Defined.
#[global] Instance eq_dec : EqDecision t.
Proof. solve_decision. Defined.
End Service.

Module Invoice.
(** An invoice row: [month] and [sales_amount] are integer columns
    ([sales_amount] in cents), [invoice_date] an ISO date. *)
Record t := mk {
  id : string;
  month : Z;
  sales_amount : Z;
  invoice_date : string;
  description : option string;
  created_at : string
}.

#[global] Instance eq_dec : EqDecision t.
Proof. solve_decision. Defined.
End Invoice.
