(* ===== verification/CreateInvoice.v ===== *)
(** * CreateInvoice: the invoice form page ([src/src/pages/CreateInvoice.tsx])

    The page keeps [formData], a JavaScript object with the four text fields
    [month], [sales_amount], [invoice_date] and [description]; it is modelled
    as an stdpp [gmap string string], so that the computed-key spread of
    [handleInputChange] is a map insertion and a read of a missing field is
    [None] ([undefined]).  Handlers return the new form together with the list
    of effects they perform, in program order: [preventDefault], the call of
    the hook's [createInvoice], [setFormData] and [navigate].  The render
    function reproduces the component body, including the [console.log] of
    [user.id] that runs before the [!user] test.  The attributes of the two
    number inputs ([type="number"], [min], [max], [required]) and the
    browser's interactive validation of the form ([form_accepts], over the
    model of [HtmlInput]) decide which forms reach [handleSubmit] at all.
    The page's life (inputs, submit of a form the browser lets through,
    cancel, until navigation unmounts it) is the step relation [ci_step];
    each step needs the form on screen, so a page rendered without a user,
    whose render throws, takes none.  The default date,
    [new Date().toISOString().split('T')[0]], is [today_of] applied to the
    [toISOString] of [JsDate]; the theorems show it is the UTC calendar
    date. *)

From S2P Require Import Prelude JsNumber HtmlInput Calendar JsDate Entities.
Import Calendar JsDate.

Local Open Scope Z_scope.

Module CreateInvoice.

(** ** Data *)

Abbreviation form := (gmap string string).

(** [s.split(sep)[0]]: the text before the first [sep], or all of [s]. *)
Fixpoint split_head (sep : ascii) (s : string) : string :=
  match s with
  | EmptyString => EmptyString
  | String c s' => if Ascii.eqb c sep then EmptyString else String c (split_head sep s')
  end.

(** [new Date().toISOString().split('T')[0]], given the clock's ISO
    string [now_iso]. *)
Definition today_of (now_iso : string) : string := split_head "T" now_iso.

(** The object literal of [useState] and of the reset in [handleSubmit]. *)
Definition initial_formData (now_iso : string) : form :=
  <["month" := ""]> (<["sales_amount" := ""]>
    (<["invoice_date" := today_of now_iso]> (<["description" := ""]> ∅))).

(** The argument of [createInvoice]. *)
Record invoice_payload := mk_payload {
  p_month : number;
  p_sales_amount : number;
  p_invoice_date : option string;
  p_description : option string
}.

Inductive effect :=
| PreventDefault
| ConsoleLog (msg : string)
| CreateInvoiceCall (p : invoice_payload)
| SetFormData (fd : form)
| Navigate (path : string).

(** ** Handlers *)

(** [handleInputChange(field, value)]:
    [setFormData(prev => ({...prev, [field]: value}))]. *)
Definition handleInputChange (field value : string) (prev : form) : form :=
  <[field := value]> prev.

(** [parseInt(formData.f)]; a missing field is [undefined], which
    [parseInt] reads as the string ["undefined"]. *)
Definition parse_field (fd : form) (f : string) : number :=
  parseInt (default undefined_string (fd !! f)).

(** [formData.description || undefined]. *)
Definition description_or_undefined (o : option string) : option string :=
  match o with
  | Some s => if String.eqb s "" then None else Some s
  | None => None
  end.

Definition build_payload (fd : form) : invoice_payload :=
  {| p_month := parse_field fd "month";
     p_sales_amount := parse_field fd "sales_amount";
     p_invoice_date := fd !! "invoice_date";
     p_description := description_or_undefined (fd !! "description") |}.

(** [handleSubmit(e)]: the new form and the effects, in order. *)
Definition handleSubmit (user : option User.t) (now_iso : string) (fd : form)
    : form * list effect :=
  match user with
  | None => (fd, [PreventDefault])
  | Some _ =>
      let fd' := initial_formData now_iso in
      (fd', [PreventDefault; CreateInvoiceCall (build_payload fd); SetFormData fd';
             Navigate "/invoices"])
  end.

(** ** Rendering *)

Inductive view :=
| LoginPrompt
| Form (month sales_amount invoice_date description : option string)
       (submit_disabled : bool) (submit_label : string).

Inductive render_result :=
| Threw (error : string)
| Rendered (v : view) (logs : list effect).

Definition null_id_error : string :=
  "TypeError: Cannot read properties of null (reading 'id')".

(** [user.id] on the value of [useAuth().user]. *)
Definition read_user_id (user : option User.t) : string + string :=
  match user with
  | None => inl null_id_error
  | Some u => inr (User.id u)
  end.

(** The component body: [console.log(user.id)], then the [!user] test,
    then the form bound to [formData] and to the hook's [isCreating]. *)
Definition CreateInvoice_render (user : option User.t) (isCreating : bool) (fd : form)
    : render_result :=
  match read_user_id user with
  | inl err => Threw err
  | inr uid =>
      let logs := [ConsoleLog uid] in
      match user with
      | None => Rendered LoginPrompt logs
      | Some _ =>
          Rendered (Form (fd !! "month") (fd !! "sales_amount") (fd !! "invoice_date")
                         (fd !! "description") isCreating
                         (if isCreating then "Creating..." else "Create Invoice"))
                   logs
      end
  end.

(** Whether a render shows the form: its inputs, submit button and Cancel,
    and so their handlers, exist only then.  Without a user the render
    throws at [console.log(user.id)] and the page has no handler at all. *)
Definition shows_form (user : option User.t) (fd : form) : bool :=
  match CreateInvoice_render user false fd with
  | Rendered (Form _ _ _ _ _ _) _ => true
  | _ => false
  end.

(** ** The page as a transition system *)

(** The fields that have an [onChange] calling [handleInputChange]. *)
Definition input_fields : list string := ["month"; "invoice_date"; "sales_amount"; "description"].

(** ** Constraint validation of the form *)

(** [<Input id="month" type="number" min="1" max="12" ... required />]. *)
Definition month_input : HtmlInput.number_input := HtmlInput.mk_number_input true (Some 1) (Some 12).

(** [<Input id="sales_amount" type="number" min="0" ... required />]. *)
Definition sales_amount_input : HtmlInput.number_input := HtmlInput.mk_number_input true (Some 0) None.

(** What [e.target.value] can be in an [onChange] of the form: a number
    input reports its sanitized value, [""] or a valid floating-point
    number; the date input and the textarea report their text. *)
Definition input_value (field value : string) : bool :=
  if bool_decide (field = "month") || bool_decide (field = "sales_amount")
  then String.eqb value "" || bool_decide (is_Some (HtmlInput.parse_valid_float value))
  else true.

(** Interactive validation before the [submit] event: the two number inputs
    satisfy their constraints and the [required] date input is not empty;
    the description has no constraint.  A field missing from [formData]
    makes its controlled input empty. *)
Definition form_accepts (fd : form) : bool :=
  HtmlInput.number_input_valid month_input (default "" (fd !! "month")) &&
  negb (String.eqb (default "" (fd !! "invoice_date")) "") &&
  HtmlInput.number_input_valid sales_amount_input (default "" (fd !! "sales_amount")).

Record ci_state := mk_state {
  ci_form : form;
  ci_trace : list effect;   (** effects performed so far, oldest first *)
  ci_mounted : bool
}.

Definition navigates (effs : list effect) : bool :=
  existsb (fun e => match e with Navigate _ => true | _ => false end) effs.

(** One event of the mounted page, on the form its last render showed. *)
Inductive ci_step (user : option User.t) : ci_state -> ci_state -> Prop :=
| step_input fd tr field value :
    shows_form user fd = true ->
    field ∈ input_fields -> input_value field value = true ->
    ci_step user (mk_state fd tr true) (mk_state (handleInputChange field value fd) tr true)
| step_submit fd tr now_iso :
    shows_form user fd = true -> form_accepts fd = true ->
    let r := handleSubmit user now_iso fd in
    ci_step user (mk_state fd tr true)
            (mk_state r.1 (tr ++ r.2) (negb (navigates r.2)))
| step_cancel fd tr :
    shows_form user fd = true ->
    ci_step user (mk_state fd tr true) (mk_state fd (tr ++ [Navigate "/invoices"]) false).

Definition ci_init (now_iso : string) : ci_state := mk_state (initial_formData now_iso) [] true.

Definition ci_reachable (user : option User.t) (now_iso : string) (s : ci_state) : Prop :=
  rtc (ci_step user) (ci_init now_iso) s.


(** The keys of the [formData] object literal. *)
Definition fields_set : gset string := {["month"; "sales_amount"; "invoice_date"; "description"]}.

(** The effects a signed-in page has performed: none while it is mounted,
    then either the cancel navigation or one complete submit. *)
Definition signed_in_trace_shape (s : ci_state) : Prop :=
  (ci_mounted s = true /\ ci_trace s = []) \/
  (ci_mounted s = false /\ ci_trace s = [Navigate "/invoices"]) \/
  (ci_mounted s = false /\ exists fd now',
     dom fd = fields_set /\
     ci_trace s = [PreventDefault; CreateInvoiceCall (build_payload fd);
                   SetFormData (initial_formData now'); Navigate "/invoices"]).

(** ** Concrete runs *)

Definition demo_user : User.t := User.mk "u-1" "owner@example.com".
Definition demo_clock : string := "2024-03-01T09:30:00.000Z".

(** The form after typing ["3"] into Month and ["15000"] into Sales Amount. *)
Definition demo_filled : form :=
  handleInputChange "sales_amount" "15000" (handleInputChange "month" "3" (initial_formData demo_clock)).

Definition demo_submitted (user : option User.t) : ci_state :=
  let r := handleSubmit user demo_clock demo_filled in
  mk_state r.1 ([] ++ r.2) (negb (navigates r.2)).

(** A host in New York in winter (UTC-5, no fallback formats). *)
Definition new_york : host := mk_host (fun _ => -18000000) (fun t => t + 18000000) (fun _ => None).

(** Whether character [c] occurs in [s]. *)
Fixpoint occurs (c : ascii) (s : string) : bool :=
  match s with
  | EmptyString => false
  | String c' s' => Ascii.eqb c' c || occurs c s'
  end.

(** ** Lemmas *)

Lemma dom_initial_formData now_iso : dom (initial_formData now_iso) = fields_set.
Proof. unfold initial_formData, fields_set. rewrite !dom_insert_L, dom_empty_L. set_solver. Qed.

(** Writing a key the object already has keeps its set of keys. *)
Lemma dom_handleInputChange field value fd :
  field ∈ dom fd -> dom (handleInputChange field value fd) = dom fd.
Proof. intros Hf. unfold handleInputChange. rewrite dom_insert_L. set_solver. Qed.

Lemma dom_input_field field value fd :
  field ∈ input_fields -> dom fd = fields_set -> dom (handleInputChange field value fd) = fields_set.
Proof.
  intros Hf Hd. rewrite dom_handleInputChange; [done|].
  rewrite Hd. unfold input_fields, fields_set in *. set_solver.
Qed.

#[local] Hint Resolve dom_initial_formData : bizconnect.

(** Steps only leave a mounted page. *)
Lemma ci_step_mounted user s s' : ci_step user s s' -> ci_mounted s = true.
Proof. by inversion 1. Qed.

(** A page rendered without a user has thrown: nothing can happen on it. *)
Lemma ci_step_signed_out s s' : ~ ci_step None s s'.
Proof. inversion 1; simplify_eq/=; done. Qed.

(** Invariant proofs: show [I] of the initial state, then invert one step
    from a state satisfying [I]. *)
Ltac ci_invariant I init_tac :=
  let Hreach := fresh "Hreach" in
  intros Hreach; unfold ci_reachable in Hreach;
  apply (rtc_invariant _ I _ _) in Hreach;
  [ exact Hreach
  | intros ?s ?s' HI Hstep;
    inversion Hstep as [fd tr field value Hshow Hf Hv | fd tr now' Hshow Hacc r | fd tr Hshow];
    subst; simpl in *
  | init_tac ].

Lemma split_head_app sep a b :
  occurs sep a = false -> split_head sep (a +:+ b) = a +:+ split_head sep b.
Proof.
  induction a as [|c a IH]; intros Ha; [done|]. simpl in Ha. apply orb_false_iff in Ha as [Hc Ha].
  rewrite string_app_cons. simpl. rewrite Hc, IH by done. by rewrite string_app_cons.
Qed.

Lemma split_head_sep sep s : split_head sep (String sep s) = EmptyString.
Proof. simpl. by rewrite Ascii.eqb_refl. Qed.

Lemma split_head_sep_app sep a b : split_head sep (String sep a +:+ b) = EmptyString.
Proof. rewrite string_app_cons. apply split_head_sep. Qed.

Lemma digit_char_not_T z : Ascii.eqb (Decimal.digit_char (z mod 10)) "T" = false.
Proof.
  pose proof (Z.mod_pos_bound z 10) as Hz.
  assert (z mod 10 = 0 \/ z mod 10 = 1 \/ z mod 10 = 2 \/ z mod 10 = 3 \/ z mod 10 = 4 \/
          z mod 10 = 5 \/ z mod 10 = 6 \/ z mod 10 = 7 \/ z mod 10 = 8 \/ z mod 10 = 9) as Hc by lia.
  destruct_or! Hc; rewrite Hc; reflexivity.
Qed.

Lemma pad_digits_no_T n z : occurs "T" (pad_digits n z) = false.
Proof. induction n as [|n IH]; [done|]. simpl. by rewrite digit_char_not_T, IH. Qed.

Lemma iso_year_string_no_T y : occurs "T" (iso_year_string y) = false.
Proof. unfold iso_year_string. repeat case_match; [apply pad_digits_no_T | |]; cbn [occurs]; apply pad_digits_no_T. Qed.

Lemma occurs_app c a b : occurs c (a +:+ b) = occurs c a || occurs c b.
Proof. induction a as [|c' a IH]; [done|]. rewrite string_app_cons. simpl. by rewrite IH, orb_assoc. Qed.

(** The date part of [toISOString]: [split('T')[0]] keeps year, month and
    date. *)
Lemma today_of_toISOString t :
  exists iso, toISOString (Some t) = Some iso /\
  today_of iso =
    iso_year_string (YearFromTime t) +:+ String "-" (pad_digits 2 (MonthFromTime t + 1)) +:+
    String "-" (pad_digits 2 (DateFromTime t)).
Proof.
  eexists. split; [reflexivity|]. unfold today_of.
  rewrite split_head_app by apply iso_year_string_no_T.
  do 2 (rewrite (split_head_app _ (String "-" _)) by (cbn [occurs]; apply pad_digits_no_T)).
  rewrite split_head_sep_app, string_app_nil_r. by rewrite !string_app_cons.
Qed.

(** [parse_field] of a field just written reads its text. *)
Lemma parse_field_insert fd f t : parse_field (<[f := t]> fd) f = parseInt t.
Proof. unfold parse_field. by rewrite lookup_insert_eq. Qed.

(** ** Properties *)

(** C3: The form object always has exactly its four fields.  In every
    state reachable from the initial form through the page's inputs,
    submits and cancel, the keys of [formData] are [month],
    [invoice_date], [sales_amount] and [description]; so [handleSubmit]
    never reads [undefined] from it. *)
Theorem form_fields_invariant user now_iso s :
  ci_reachable user now_iso s -> dom (ci_form s) = fields_set.
Proof.
  ci_invariant (fun s => dom (ci_form s) = fields_set) ltac:(eauto with bizconnect);
    [| destruct user; simpl; eauto with bizconnect | done].
  rewrite dom_handleInputChange; rewrite HI; [done|].
  unfold input_fields, fields_set in *. set_solver.
Qed.

(** C1: A signed-in page issues at most one [createInvoice] call, and only
    as part of a complete submit.  In every reachable state of the page of
    a signed-in user, the effects performed so far are either none (the
    page is still mounted), or the navigation of Cancel, or exactly
    [preventDefault], one [createInvoice] with the payload built from a
    complete four-field form, the reset of the form and the navigation to
    [/invoices], after which the page is unmounted.  Reset and navigation
    follow the call unconditionally, before the request has settled. *)
Theorem signed_in_submit_protocol (u : User.t) now_iso s :
  ci_reachable (Some u) now_iso s ->
  dom (ci_form s) = fields_set /\ signed_in_trace_shape s.
Proof.
  unfold signed_in_trace_shape.
  ci_invariant (fun s => dom (ci_form s) = fields_set /\ signed_in_trace_shape s)
    ltac:(split; [apply dom_initial_formData | by left]);
    unfold signed_in_trace_shape in *; simpl in *;
    destruct HI as [Hdom [[_ ->] | [[? _] | [? _]]]]; try discriminate.
  - split; [by apply dom_input_field | auto].
  - split; [apply dom_initial_formData |]. right; right. split; [done |]. by exists fd, now'.
  - split; [done | auto].
Qed.

Lemma parse_field_decimal fd f z t :
  fd !! f = Some (decimal_of_Z z +:+ t) -> Z.abs z < 2 ^ 53 -> number_boundary t = true ->
  parse_field fd f = Int z.
Proof. intros Hf Hz Ht. unfold parse_field. rewrite Hf. by apply parseInt_decimal_of_Z. Qed.

(** C4: A signed-in submit sends the typed values of the fields.  When the
    month and amount fields hold the decimal forms of integers [m] and [a]
    (of magnitude below [2^53]), [handleSubmit] prevents the default
    submission, calls [createInvoice] with [month = m],
    [sales_amount = a], the date field as is and the description or
    [undefined] when it is empty, resets the form to its initial value for
    the current clock and navigates to [/invoices], in this order. *)
Theorem handleSubmit_typed_payload (u : User.t) now_iso fd m a :
  fd !! "month" = Some (decimal_of_Z m) -> fd !! "sales_amount" = Some (decimal_of_Z a) ->
  Z.abs m < 2 ^ 53 -> Z.abs a < 2 ^ 53 ->
  handleSubmit (Some u) now_iso fd =
    (initial_formData now_iso,
     [PreventDefault;
      CreateInvoiceCall {| p_month := Int m; p_sales_amount := Int a;
                           p_invoice_date := fd !! "invoice_date";
                           p_description := description_or_undefined (fd !! "description") |};
      SetFormData (initial_formData now_iso); Navigate "/invoices"]).
Proof.
  intros Hm Ha Hbm Hba. simpl. unfold build_payload.
  rewrite (parse_field_decimal fd "month" m ""), (parse_field_decimal fd "sales_amount" a "");
    rewrite ?string_app_nil_r; done.
Qed.

(** C9: Exponent notation in the amount is cut at the [e].  A
    [type="number"] input accepts ["1e4"] as the number 10000, but
    [parseInt] stops at the first non-digit: whenever the amount text is
    the decimal form of [a] followed by [e] and any exponent, the payload's
    [sales_amount] is [a]. *)
Theorem exponent_amount_truncated fd a k :
  fd !! "sales_amount" = Some (decimal_of_Z a +:+ String "e" k) -> Z.abs a < 2 ^ 53 ->
  p_sales_amount (build_payload fd) = Int a.
Proof. intros Ha Hb. simpl. by apply (parse_field_decimal fd "sales_amount" a (String "e" k)). Qed.

(** C8: The log-in prompt of the page is unreachable.  Rendering without
    a user throws the [TypeError] of [console.log(user.id)] before the
    [!user] test, and no render of the page, for any user, form or
    [isCreating], produces the "Please log in" view. *)
Theorem render_without_user_throws :
  (forall isCreating fd, CreateInvoice_render None isCreating fd = Threw null_id_error) /\
  (forall user isCreating fd logs, CreateInvoice_render user isCreating fd <> Rendered LoginPrompt logs).
Proof. split; [done|]. intros [u|] isCreating fd logs H; inversion H. Qed.

(** C23: The default invoice date is the UTC calendar date.  At every
    instant [now] of the years 0..9999, the date input of a fresh invoice
    form holds the ISO date-only text [YYYY-MM-DD] of [now]'s UTC year,
    month and date (the type the create payload declares for
    [invoice_date]), and reading it back gives UTC midnight of [now]'s
    day; for a user whose local date differs from the UTC date (evenings
    west of Greenwich, mornings east of it) the default is not today. *)
Theorem default_invoice_date_is_utc (h : host) (now : Z) :
  0 <= YearFromTime now <= 9999 ->
  exists iso, toISOString (Some now) = Some iso /\
    initial_formData iso !! "invoice_date" =
      Some (iso_date (YearFromTime now) (MonthFromTime now + 1) (DateFromTime now)) /\
    Date_parse h (iso_date (YearFromTime now) (MonthFromTime now + 1) (DateFromTime now)) =
      Some (MakeDate (Day now) 0).
Proof.
  intros Hy. destruct (today_of_toISOString now) as (iso & Hiso & Htoday).
  destruct (calendar_decompose now) as (HM & HD & Hday).
  pose proof (days_in_month_le (InLeapYear now) (MonthFromTime now) (leap_of_year_range _)).
  exists iso. split_and!; [done | |].
  - unfold initial_formData. rewrite lookup_insert_ne by done.
    rewrite lookup_insert_ne by done. rewrite lookup_insert. rewrite Htoday.
    unfold iso_date. by rewrite iso_year_string_small.
  - rewrite Date_parse_iso_date by lia. by rewrite Z.add_simpl_r, <- Hday.
Qed.

(** C26: The month's constraints accept exactly the months 1 to 12 when
    they are typed as plain integers, and those are submitted unchanged.
    For every safe integer [z], the browser lets the form be submitted with
    the decimal text of [z] in the Month input ([type="number" min="1"
    max="12" required]) exactly when [1 <= z <= 12], and [handleSubmit]'s
    [parseInt] reads that text back as [z]. *)
Theorem month_input_plain_integers (fd : form) (z : Z) :
  Z.abs z < 2 ^ 53 ->
  HtmlInput.number_input_valid month_input (decimal_of_Z z) = bool_decide (1 <= z <= 12) /\
  parse_field (<["month" := decimal_of_Z z]> fd) "month" = Int z.
Proof.
  intros Hz. rewrite parse_field_insert, <- (string_app_nil_r (decimal_of_Z z)).
  split; [| by apply parseInt_decimal_of_Z].
  destruct (Z.eqb_spec z 0) as [->|Hz0]; [done|].
  rewrite (HtmlInput.number_input_valid_range month_input 1 12 _ (z <? 0) (Z.abs z) 0);
    [| reflexivity | reflexivity | | lia | lia].
  - f_equal. apply bool_decide_ext. destruct (Z.ltb_spec z 0); lia.
  - rewrite (HtmlInput.parse_valid_float_decimal_of_Z z "" 0) by done. do 3 f_equal; lia.
Qed.

(** C27: The month's constraints check the number, [parseInt] reads the
    text: every month can be typed so that the browser accepts it and a
    different month is submitted.  For every month [v] in 1..12 and every
    [k >= 1] (with [v * 10^k] a safe integer), the text of [v * 10^k]
    followed by [e-k] (e.g. ["120e-1"]) has the value [v], so the Month
    input accepts it, but [parseInt] stops at the [e] and the payload's
    month is [v * 10^k], at least 10 and in most cases above 12. *)
Theorem month_exponent_escapes_range (fd : form) (v k : Z) :
  1 <= v <= 12 -> 1 <= k -> v * 10 ^ k < 2 ^ 53 ->
  let t := decimal_of_Z (v * 10 ^ k) +:+ String "e" (String "-" (decimal_of_Z k)) in
  HtmlInput.to_number t = Some (HtmlInput.exact_double false v) /\
  HtmlInput.number_input_valid month_input t = true /\
  parse_field (<["month" := t]> fd) "month" = Int (v * 10 ^ k).
Proof.
  intros Hv Hk Hb t. assert (Hpow : 10 <= 10 ^ k).
  { rewrite <- (Z.pow_1_r 10) at 1. apply Z.pow_le_mono_r; lia. }
  assert (Hp : HtmlInput.parse_valid_float t = Some (false, v * 10 ^ k, - k)).
  { unfold t. rewrite (HtmlInput.parse_valid_float_decimal_of_Z _ _ (- k));
      [| done | done | by apply HtmlInput.parse_exponent_neg; lia].
    destruct (Z.ltb_spec (v * 10 ^ k) 0); [nia|]. by rewrite Z.abs_eq by nia. }
  split_and!.
  - apply (HtmlInput.to_number_integral _ _ _ k); [done | lia | lia].
  - rewrite (HtmlInput.number_input_valid_range month_input 1 12 _ false v k);
      [by apply bool_decide_eq_true | reflexivity | reflexivity | done | lia | lia].
  - rewrite parse_field_insert. apply parseInt_decimal_of_Z; [rewrite Z.abs_eq; nia | done].
Qed.

(** C13: A month the browser accepts can reach [createInvoice] as NaN.
    For every month [v] in 1..12, the text made of a dot, the digits of
    [v], [e] and the number of those digits ([".5e1"], [".12e2"]) is a
    valid floating-point number of value [v], so the Month input
    ([type="number" min="1" max="12" required]) accepts it; but [parseInt]
    finds no digit before the dot, so the submit sends [month: NaN]: the
    unvalidated coercion of spec section 9 is not prevented by the
    browser's check. *)
Theorem month_point_form_submits_NaN (u : User.t) (now_iso : string) (fd : form) (v : Z) :
  1 <= v <= 12 ->
  let t := String "." (decimal_of_Z v +:+
             String "e" (decimal_of_Z (Z.of_nat (length (Decimal.decimal_digits v))))) in
  HtmlInput.number_input_valid month_input t = true /\
  (handleSubmit (Some u) now_iso (<["month" := t]> fd)).2 !! 1%nat =
    Some (CreateInvoiceCall (build_payload (<["month" := t]> fd))) /\
  p_month (build_payload (<["month" := t]> fd)) = NaN.
Proof.
  intros Hv t. split_and!; [| done | cbn [p_month build_payload]; rewrite parse_field_insert;
                                     by apply parseInt_NaN_of_leading_digit].
  destruct (decimal_digits_spec v) as (Hall & Hne & Hval); [lia|].
  assert (Ht : HtmlInput.parse_valid_float t = Some (false, v * 10 ^ 0, - 0)).
  { unfold t, decimal_of_Z. destruct (Z.ltb_spec v 0); [lia|].
    rewrite HtmlInput.parse_valid_float_point_digits, Hval by done. by rewrite Z.mul_1_r. }
  rewrite (HtmlInput.number_input_valid_range month_input 1 12 t false v 0); [| done..| lia | lia].
  by apply bool_decide_eq_true.
Qed.

(** ** Witnesses *)

Lemma demo_submitted_reachable :
  ci_reachable (Some demo_user) demo_clock (demo_submitted (Some demo_user)).
Proof.
  unfold ci_reachable, ci_init.
  eapply rtc_l; [apply (step_input _ _ _ "month" "3"); [done | unfold input_fields; set_solver | done] |].
  eapply rtc_l; [apply (step_input _ _ _ "sales_amount" "15000"); [done | unfold input_fields; set_solver | done] |].
  eapply rtc_l; [apply (step_submit _ _ _ demo_clock); vm_compute; reflexivity | apply rtc_refl].
Qed.

Lemma signed_in_submit_protocol_witness :
  ci_reachable (Some demo_user) demo_clock (demo_submitted (Some demo_user)) /\
  signed_in_trace_shape (demo_submitted (Some demo_user)).
Proof.
  split; [apply demo_submitted_reachable |].
  apply (signed_in_submit_protocol demo_user demo_clock), demo_submitted_reachable.
Defined.

Lemma form_fields_invariant_witness :
  ci_reachable (Some demo_user) demo_clock (demo_submitted (Some demo_user)) /\
  dom (ci_form (demo_submitted (Some demo_user))) = fields_set.
Proof.
  split; [apply demo_submitted_reachable |].
  apply (form_fields_invariant (Some demo_user) demo_clock), demo_submitted_reachable.
Defined.

(** Scenario B of the spec: month ["3"], amount ["15000"], the date of the
    clock and an empty description. *)
Lemma handleSubmit_typed_payload_witness :
  handleSubmit (Some demo_user) demo_clock demo_filled =
    (initial_formData demo_clock,
     [PreventDefault;
      CreateInvoiceCall {| p_month := Int 3; p_sales_amount := Int 15000;
                           p_invoice_date := Some "2024-03-01"; p_description := None |};
      SetFormData (initial_formData demo_clock); Navigate "/invoices"]).
Proof.
  apply (handleSubmit_typed_payload demo_user demo_clock demo_filled 3 15000);
    [vm_compute; reflexivity | vm_compute; reflexivity | lia | lia].
Defined.

Lemma exponent_amount_truncated_witness :
  p_sales_amount (build_payload (handleInputChange "sales_amount" "1e4" (initial_formData demo_clock)))
    = Int 1.
Proof.
  apply (exponent_amount_truncated _ 1 "4"); [vm_compute; reflexivity | lia].
Defined.

(** At 2024-03-02T01:00Z (8 p.m. on March 1st in New York) the form
    proposes 2024-03-02. *)
Lemma default_invoice_date_is_utc_witness :
  iso_date (YearFromTime 1709341200000) (MonthFromTime 1709341200000 + 1) (DateFromTime 1709341200000)
    = "2024-03-02" /\
  exists iso, toISOString (Some 1709341200000) = Some iso /\
    initial_formData iso !! "invoice_date" =
      Some (iso_date (YearFromTime 1709341200000) (MonthFromTime 1709341200000 + 1)
              (DateFromTime 1709341200000)) /\
    Date_parse new_york (iso_date (YearFromTime 1709341200000) (MonthFromTime 1709341200000 + 1)
                           (DateFromTime 1709341200000)) =
      Some (MakeDate (Day 1709341200000) 0).
Proof.
  split; [vm_compute; reflexivity|].
  apply (default_invoice_date_is_utc new_york 1709341200000). vm_compute. split; discriminate.
Defined.

(** ["12"] is accepted and ["13"] is not. *)
Lemma month_input_plain_integers_witness :
  HtmlInput.number_input_valid month_input "12" = true /\
  HtmlInput.number_input_valid month_input "13" = false /\
  parse_field (<["month" := "12"]> (initial_formData demo_clock)) "month" = Int 12.
Proof.
  destruct (month_input_plain_integers (initial_formData demo_clock) 12) as [H12 Hp]; [lia|].
  destruct (month_input_plain_integers (initial_formData demo_clock) 13) as [H13 _]; [lia|].
  split_and!; [exact H12 | exact H13 | exact Hp].
Defined.

(** ["120e-1"] has the value 12, passes [min="1" max="12"] and submits 120. *)
Lemma month_exponent_escapes_range_witness :
  HtmlInput.number_input_valid month_input "120e-1" = true /\
  parse_field (<["month" := "120e-1"]> (initial_formData demo_clock)) "month" = Int 120.
Proof.
  destruct (month_exponent_escapes_range (initial_formData demo_clock) 12 1) as (_ & Hv & Hp);
    [lia | lia | lia |].
  split; [exact Hv | exact Hp].
Defined.

(** The month typed as [".5e1"]: accepted as 5, submitted as NaN. *)
Lemma month_point_form_submits_NaN_witness :
  HtmlInput.number_input_valid month_input ".5e1" = true /\
  p_month (build_payload (<["month" := ".5e1"]> demo_filled)) = NaN.
Proof.
  destruct (month_point_form_submits_NaN demo_user demo_clock demo_filled 5) as (H1 & _ & H2); [lia|].
  split; [exact H1 | exact H2].
Defined.

End CreateInvoice.
