(* ===== verification/Invoices.v ===== *)
(** * Invoices: the invoice list page ([src/src/pages/Invoices.tsx])

    The page reads [user] from [useAuth] and [invoices], [isLoading],
    [deleteInvoice] and [isDeleting] from [useInvoices], and renders one of
    four views: the log-in placeholder, three loading skeletons, one card per
    invoice, or the empty state.  The helpers [getMonthName] and
    [formatCurrency] are modelled exactly (the latter after the en-US
    currency format of [Intl.NumberFormat], on integer cents); [formatDate]
    is a variable of the section, so the render theorems hold whatever date
    format is used.  A card's delete button performs the effect
    [DeleteInvoiceCall id] directly. *)

From S2P Require Import Prelude JsNumber Entities.

Local Open Scope Z_scope.

Import ParseInt Decimal.

Module Invoices.

(** ** Helpers *)

Definition months : list string :=
  ["January"; "February"; "March"; "April"; "May"; "June";
   "July"; "August"; "September"; "October"; "November"; "December"].

(** [months[month - 1] || 'Invalid Month']: a negative or too large index
    reads [undefined]. *)
Definition getMonthName (month : Z) : string :=
  match (if month - 1 <? 0 then None else months !! Z.to_nat (month - 1)) with
  | Some name => name ||s "Invalid Month"
  | None => "Invalid Month"
  end.

(** Digits of a nonnegative integer as characters, most significant first. *)
Definition digit_chars (n : Z) : list ascii := digit_char <$> decimal_digits n.

(** The en-US grouping of an integer part, built on its digits least
    significant first: a [,] before every digit whose position is a nonzero
    multiple of 3. *)
Fixpoint group_rev (p : nat) (ds : list ascii) : list ascii :=
  match ds with
  | [] => []
  | d :: ds' =>
      (if (Nat.eqb (p mod 3) 0 && Nat.ltb 0 p)%nat then [","%char; d] else [d])
        ++ group_rev (S p) ds'
  end.

Definition group_thousands (ds : list ascii) : list ascii := rev (group_rev 0 (rev ds)).

Definition two_digit_chars (n : Z) : list ascii := [digit_char (n / 10); digit_char (n mod 10)].

(** [Intl.NumberFormat('en-US', {style: 'currency', currency: 'USD'})
    .format(amount / 100)] on an integer number of cents: a minus sign for a
    negative amount, the dollar sign, the grouped dollars and two digits of
    cents. *)
Definition usd_chars (amount : Z) : list ascii :=
  (if amount <? 0 then ["-"%char] else []) ++ ["$"%char] ++
  group_thousands (digit_chars (Z.abs amount / 100)) ++ ["."%char] ++
  two_digit_chars (Z.abs amount mod 100).

Definition formatCurrency (amount : Z) : string := String.string_of_list_ascii (usd_chars amount).

(** Reading a formatted amount back: sign, [$], digits with commas, [.] and
    two digits of cents. *)
Definition digits_of_chars (cs : list ascii) : option (list Z) := mapM (radix_digit 10) cs.

Definition parse_usd (s : string) : option Z :=
  let l := String.list_ascii_of_string s in
  let '(negative, l1) :=
    match l with
    | c :: r => if Ascii.eqb c "-" then (true, r) else (false, l)
    | [] => (false, l)
    end in
  match l1 with
  | c :: r =>
      if Ascii.eqb c "$" then
        match rev r with
        | c0 :: c1 :: dot :: rint =>
            if Ascii.eqb dot "." then
              match digits_of_chars (filter (fun x => x <> ","%char) (rev rint)),
                    radix_digit 10 c1, radix_digit 10 c0 with
              | Some ((_ :: _) as ds), Some d1, Some d0 =>
                  let v := digits_value 10 ds * 100 + d1 * 10 + d0 in
                  Some (if negative then - v else v)
              | _, _, _ => None
              end
            else None
        | _ => None
        end
      else None
  | [] => None
  end.

(** ** Effects and views *)

Inductive effect :=
| DeleteInvoiceCall (id : string).

(** One card of the list, with the text it shows. *)
Record card := mk_card {
  card_key : string;
  card_title : string;
  card_created : string;
  card_amount : string;
  card_date : string;
  card_badge : string;
  card_description : option string;
  card_delete_disabled : bool;
  card_on_delete : list effect
}.

Inductive body :=
| Skeletons (n : nat)
| Cards (cs : list card)
| EmptyState.

Inductive view :=
| LoginPrompt
| Page (b : body).

Section Render.

(** [formatDate(dateString)]: [new Date(dateString).toLocaleDateString(...)]. *)
Variable formatDate : string -> string.

(** [{invoice.description && ...}]: shown for a non-empty description. *)
Definition shown_description (d : option string) : option string :=
  match d with
  | Some s => if String.eqb s "" then None else Some s
  | None => None
  end.

(** The card of one invoice; its delete button calls
    [deleteInvoice(invoice.id)] with no confirmation and is disabled while
    any deletion is pending. *)
Definition invoice_card (isDeleting : bool) (inv : Invoice.t) : card :=
  {| card_key := Invoice.id inv;
     card_title := "Invoice for " +:+ getMonthName (Invoice.month inv);
     card_created := "Created " +:+ formatDate (Invoice.created_at inv);
     card_amount := formatCurrency (Invoice.sales_amount inv);
     card_date := formatDate (Invoice.invoice_date inv);
     card_badge := "Month " +:+ decimal_of_Z (Invoice.month inv);
     card_description := shown_description (Invoice.description inv);
     card_delete_disabled := isDeleting;
     card_on_delete := [DeleteInvoiceCall (Invoice.id inv)] |}.

(** The component: [!user], then [isLoading], then
    [invoices && invoices.length > 0]. *)
Definition Invoices_render (user : option User.t) (invoices : option (list Invoice.t))
    (isLoading isDeleting : bool) : view :=
  match user with
  | None => LoginPrompt
  | Some _ =>
      if isLoading then Page (Skeletons 3)
      else match invoices with
           | Some ((_ :: _) as l) => Page (Cards (map (invoice_card isDeleting) l))
           | _ => Page EmptyState
           end
  end.

End Render.

(** ** Concrete data *)

Definition demo_invoices : list Invoice.t :=
  [Invoice.mk "inv-1" 3 15000 "2024-03-01" None "2024-03-01T09:30:00Z";
   Invoice.mk "inv-2" 12 123456789 "2024-12-31" (Some "Year end") "2024-12-31T18:00:00Z"].

(** ** Lemmas *)

Abbreviation not_comma := (fun x : ascii => x <> ","%char).

Lemma digit_char_not_comma d : is_digit d -> digit_char d <> ","%char.
Proof. intros Hd Heq. pose proof (proj1 (digit_char_spec d Hd)) as H. by rewrite Heq in H. Qed.

Lemma filter_group_rev p ds : filter not_comma (group_rev p ds) = filter not_comma ds.
Proof.
  revert p. induction ds as [|d ds IH]; intros p; [done|]. cbn [group_rev].
  rewrite filter_app, IH. destruct (_ && _)%nat; rewrite ?(filter_cons_False _ ","%char); try by intros [].
  all: rewrite !filter_cons; by case_decide.
Qed.

Lemma filter_group_thousands n :
  0 <= n -> filter not_comma (group_thousands (digit_chars n)) = digit_chars n.
Proof.
  intros Hn. destruct (decimal_digits_spec n Hn) as (Hall & _ & _).
  unfold group_thousands. rewrite filter_rev, filter_group_rev, filter_rev, rev_involutive.
  apply filter_Forall_id. unfold digit_chars. apply Forall_fmap.
  eapply Forall_impl; [exact Hall|]. apply digit_char_not_comma.
Qed.

Lemma digits_of_digit_chars n :
  0 <= n -> digits_of_chars (digit_chars n) = Some (decimal_digits n).
Proof.
  intros Hn. destruct (decimal_digits_spec n Hn) as (Hall & _ & _).
  apply mapM_fmap_Forall_Some. eapply Forall_impl; [exact Hall|].
  intros d Hd. apply (digit_char_spec d Hd).
Qed.

(** Everything [parse_usd] reads after the sign and the dollar sign. *)
Lemma usd_digits m :
  0 <= m ->
  rev (group_thousands (digit_chars (m / 100)) ++ "."%char :: two_digit_chars (m mod 100)) =
    digit_char ((m mod 100) mod 10) :: digit_char ((m mod 100) / 10) :: "."%char ::
      rev (group_thousands (digit_chars (m / 100))) /\
  digits_of_chars (filter not_comma (rev (rev (group_thousands (digit_chars (m / 100))))))
    = Some (decimal_digits (m / 100)) /\
  decimal_digits (m / 100) <> [] /\
  radix_digit 10 (digit_char ((m mod 100) / 10)) = Some ((m mod 100) / 10) /\
  radix_digit 10 (digit_char ((m mod 100) mod 10)) = Some ((m mod 100) mod 10) /\
  digits_value 10 (decimal_digits (m / 100)) * 100 + (m mod 100) / 10 * 10 + (m mod 100) mod 10 = m.
Proof.
  intros Hm. assert (0 <= m / 100) by (apply Z.div_pos; lia).
  destruct (decimal_digits_spec (m / 100)) as (_ & Hne & Hval); [done|].
  pose proof (Z.mod_pos_bound m 100 ltac:(lia)). pose proof (Z.mod_pos_bound (m mod 100) 10 ltac:(lia)).
  split_and!.
  - unfold two_digit_chars. by rewrite rev_app_distr.
  - by rewrite rev_involutive, filter_group_thousands, digits_of_digit_chars.
  - done.
  - apply (digit_char_spec ((m mod 100) / 10)). unfold is_digit. zlia.
  - apply (digit_char_spec ((m mod 100) mod 10)). unfold is_digit. zlia.
  - rewrite Hval. zlia.
Qed.

(** ** Properties *)

(** [parse_usd] inverts [formatCurrency] on every integer. *)
Lemma parse_usd_formatCurrency (amount : Z) : parse_usd (formatCurrency amount) = Some amount.
Proof.
  unfold parse_usd, formatCurrency. rewrite String.list_ascii_of_string_of_list_ascii.
  destruct (usd_digits (Z.abs amount)) as (Hrev & Hds & Hne & H1 & H0 & Hv); [lia|].
  unfold usd_chars. destruct (Z.ltb_spec amount 0); simpl; rewrite Hrev; simpl;
    rewrite Hds, H1, H0; destruct (decimal_digits (Z.abs amount / 100)); try done;
    rewrite Hv; f_equal; lia.
Qed.

(** C11: Every displayed amount reads back to its number of cents.  For
    every integer [amount], [parse_usd] recovers [amount] from
    [formatCurrency amount] (sign, [$], comma-grouped dollars, [.] and two
    digits of cents); hence two amounts are displayed alike only when they
    are equal. *)
Theorem formatCurrency_roundtrip (amount other : Z) :
  parse_usd (formatCurrency amount) = Some amount /\
  (formatCurrency amount = formatCurrency other <-> amount = other).
Proof.
  split; [apply parse_usd_formatCurrency|split; [|by intros ->]].
  intros Heq. apply (inj Some).
  by rewrite <- parse_usd_formatCurrency, Heq, parse_usd_formatCurrency.
Qed.

(** C19: [getMonthName] names exactly the months 1 to 12.  It returns
    ["Invalid Month"] exactly when [month] is outside [1..12], and for a
    month in range it returns the entry [month - 1] of [months]. *)
Theorem getMonthName_range (month : Z) :
  (getMonthName month = "Invalid Month" <-> ~ (1 <= month <= 12)) /\
  (1 <= month <= 12 -> months !! Z.to_nat (month - 1) = Some (getMonthName month)).
Proof.
  unfold getMonthName. destruct (Z.ltb_spec (month - 1) 0).
  { split; [split; [intros _; lia | done] | lia]. }
  destruct (months !! Z.to_nat (month - 1)) as [name|] eqn:E.
  - apply list_elem_of_lookup_2 in E as Hin.
    assert (name <> "" /\ name <> "Invalid Month") as [Hne Hinv]
      by (split; intros ->; revert Hin; vm_compute; set_solver).
    rewrite js_or_str_nonempty by done.
    apply lookup_lt_Some in E. simpl in E. split; [split; [done | lia] | done].
  - apply lookup_ge_None_1 in E. simpl in E. split; [split; [lia | done] | lia].
Qed.

Lemma cards_of_invoices formatDate isDeleting (invs : list Invoice.t) :
  Forall2 (fun c inv =>
      card_key c = Invoice.id inv /\
      parse_usd (card_amount c) = Some (Invoice.sales_amount inv) /\
      card_delete_disabled c = isDeleting /\
      card_on_delete c = [DeleteInvoiceCall (Invoice.id inv)])
    (map (invoice_card formatDate isDeleting) invs) invs.
Proof.
  induction invs as [|inv invs IH]; constructor; [|done].
  split_and!; [done | apply parse_usd_formatCurrency | done | done].
Qed.

(** C10: The loaded list shows one card per invoice, in order.  For a
    signed-in user, once loading is over and the list is non-empty, the page
    renders exactly one card per invoice, keyed by its id, whose amount
    reads back to the invoice's [sales_amount]; every delete button is
    disabled exactly while [isDeleting] (one flag for all cards), and
    clicking it calls [deleteInvoice(id)] of its own invoice at once, with
    no confirmation prompt. *)
Theorem invoices_one_card_each formatDate (u : User.t) (invs : list Invoice.t) isDeleting :
  invs <> [] ->
  exists cs, Invoices_render formatDate (Some u) (Some invs) false isDeleting = Page (Cards cs) /\
    Forall2 (fun c inv =>
        card_key c = Invoice.id inv /\
        parse_usd (card_amount c) = Some (Invoice.sales_amount inv) /\
        card_delete_disabled c = isDeleting /\
        card_on_delete c = [DeleteInvoiceCall (Invoice.id inv)]) cs invs.
Proof.
  intros Hne. exists (map (invoice_card formatDate isDeleting) invs).
  split; [by destruct invs | apply cards_of_invoices].
Qed.

(** C17: The empty state is shown exactly for a loaded empty list.  The
    page renders the "No invoices yet" state with its create link if and
    only if a user is signed in, loading is over, and the invoice list is
    undefined or empty (spec scenario A). *)
Theorem empty_state_iff formatDate user invs isLoading isDeleting :
  Invoices_render formatDate user invs isLoading isDeleting = Page EmptyState <->
  (exists u, user = Some u) /\ isLoading = false /\ (invs = None \/ invs = Some []).
Proof.
  destruct user as [u|], isLoading, invs as [[|inv invs]|]; simpl;
    split; intros H; try discriminate; try naive_solver.
Qed.

(** ** Witnesses *)

Lemma invoices_one_card_each_witness :
  exists cs, Invoices_render (fun d => d) (Some (User.mk "u-1" "owner@example.com"))
               (Some demo_invoices) false true = Page (Cards cs) /\
    Forall2 (fun c inv =>
        card_key c = Invoice.id inv /\
        parse_usd (card_amount c) = Some (Invoice.sales_amount inv) /\
        card_delete_disabled c = true /\
        card_on_delete c = [DeleteInvoiceCall (Invoice.id inv)]) cs demo_invoices.
Proof. apply (invoices_one_card_each (fun d => d) _ demo_invoices true). discriminate. Defined.

Lemma getMonthName_range_witness :
  getMonthName 13 = "Invalid Month" /\ months !! Z.to_nat (3 - 1) = Some (getMonthName 3).
Proof.
  split; [apply (proj2 (proj1 (getMonthName_range 13))); lia
         | apply (proj2 (getMonthName_range 3)); lia].
Defined.

End Invoices.
