(* ===== verification/InvoiceDates.v ===== *)
(** * InvoiceDates: the dates an invoice is created with and shown with

    [Invoices.tsx] shows the dates of an invoice with [formatDate],
    [new Date(s).toLocaleDateString('en-US', ...)].  This file plugs the
    [Date] model of [JsDate] into the invoice page: the [formatDate] of
    [Invoices.tsx] is defined here and given to the page's render function
    ([Invoices.Render] is a Section over [formatDate]).

    The theorems show what a user sees: a date-only string is read as UTC
    midnight and printed in local time, so every user west of Greenwich
    sees each invoice dated one day early, while a [toISOString] timestamp
    is shown as its local date.  (The default date of a new invoice, the
    UTC calendar date, is the subject of C23 in [CreateInvoice.v].) *)

From S2P Require Import Prelude JsNumber Calendar JsDate Entities CreateInvoice Invoices.
Import Calendar JsDate.

Local Open Scope Z_scope.

Module InvoiceDates.

(** [formatDate] of [Invoices.tsx]. *)
Definition formatDate (h : host) (dateString : string) : string :=
  toLocaleDateString_enUS h (new_Date h dateString).

(** An invoice dated 2024-03-01. *)

Definition march_first : Invoice.t :=
  Invoice.mk "inv-1" 3 15000 "2024-03-01" None "2024-03-01T09:30:00.000Z".

(** The invoice page with its own [formatDate]. *)
Definition Invoices_page (h : host) := Invoices.Invoices_render (formatDate h).

(** ** Lemmas *)

Lemma offset_day_before t0 off :
  Day t0 * msPerDay = t0 -> - msPerDay <= off < 0 -> Day (t0 + off) = Day t0 - 1.
Proof. unfold Day, msPerDay. zlia. Qed.

Lemma offset_same_day t0 off :
  Day t0 * msPerDay = t0 -> 0 <= off < msPerDay -> Day (t0 + off) = Day t0.
Proof. unfold Day, msPerDay. zlia. Qed.

(** ** Properties *)

(** C20: West of Greenwich every invoice is shown dated one day early.
    For an invoice whose [invoice_date] is the ISO date [y-m-d] (a valid
    date, year 0..9999), the card's date is the en-US text of that date
    when the viewer's time zone offset at that UTC midnight is in
    [0, 24h), and the text of the day before when it is in [-24h, 0):
    [new Date] reads a date-only string as UTC midnight and
    [toLocaleDateString] prints local time. *)
Theorem invoice_date_shown_day_before (h : host) (isDeleting : bool) (inv : Invoice.t) (y m d : Z) :
  Invoice.invoice_date inv = iso_date y m d ->
  0 <= y <= 9999 -> 1 <= m <= 12 -> 1 <= d <= days_in_month (leap_of_year y) (m - 1) ->
  (0 <= offset_at h (MakeDate (MakeDay y (m - 1) d) 0) < msPerDay ->
     Invoices.card_date (Invoices.invoice_card (formatDate h) isDeleting inv) = en_US_date y (m - 1) d) /\
  (- msPerDay <= offset_at h (MakeDate (MakeDay y (m - 1) d) 0) < 0 ->
     Invoices.card_date (Invoices.invoice_card (formatDate h) isDeleting inv) =
     en_US_of_time (MakeDate (MakeDay y (m - 1) d - 1) 0)).
Proof.
  intros Hdate Hy Hm Hd.
  pose proof (days_in_month_le (leap_of_year y) (m - 1) (leap_of_year_range y)).
  cbn [Invoices.invoice_card Invoices.card_date]. unfold formatDate.
  rewrite Hdate, new_Date_iso_date by lia. cbn [toLocaleDateString_enUS]. unfold LocalTime.
  assert (HD : forall k, Day (MakeDate k 0) = k) by (intros k; apply Day_MakeDate; unfold msPerDay; lia).
  assert (Ht0 : Day (MakeDate (MakeDay y (m - 1) d) 0) * msPerDay = MakeDate (MakeDay y (m - 1) d) 0)
    by (rewrite HD; unfold MakeDate; lia).
  split; intros Hoff.
  - rewrite <- en_US_of_MakeDay by lia. apply en_US_of_time_Day.
    by rewrite offset_same_day.
  - apply en_US_of_time_Day. rewrite offset_day_before by done. by rewrite !HD.
Qed.

(** C24: The creation date on a card is the local date of the
    creation instant.  When an invoice's [created_at] is the
    [toISOString] text of a valid time value [t], its card reads
    [Created] followed by the en-US date of [t] in the viewer's time zone:
    [new Date] reads the [Z] form back to [t] exactly. *)
Theorem created_at_shown_local_date (h : host) (isDeleting : bool) (inv : Invoice.t) (t : Z) :
  toISOString (Some t) = Some (Invoice.created_at inv) -> Z.abs t <= 8640000000000000 ->
  Invoices.card_created (Invoices.invoice_card (formatDate h) isDeleting inv) =
    "Created " +:+ en_US_of_time (t + offset_at h t).
Proof.
  intros Hiso Ht. cbn [Invoices.invoice_card Invoices.card_created]. unfold formatDate.
  pose proof (toISOString_roundtrip h t Ht) as Hrt. rewrite Hiso in Hrt. cbn [mbind option_bind] in Hrt.
  by rewrite Hrt.
Qed.

(** A New York invoice dated March 1st reads "Feb 29, 2024". *)
Lemma invoice_date_shown_day_before_witness :
  Invoices.card_date (Invoices.invoice_card (formatDate CreateInvoice.new_york) false march_first) = "Feb 29, 2024".
Proof.
  destruct (invoice_date_shown_day_before CreateInvoice.new_york false march_first 2024 3 1) as [_ Hwest];
    [reflexivity | lia | lia | vm_compute; split; discriminate |].
  rewrite Hwest; [vm_compute; reflexivity | cbn; unfold msPerDay; lia].
Defined.

(** The March 1st invoice, created at 09:30Z, reads "Created Mar 1, 2024"
    in New York (04:30 local time). *)
Lemma created_at_shown_local_date_witness :
  Invoices.card_created (Invoices.invoice_card (formatDate CreateInvoice.new_york) false march_first) =
    "Created Mar 1, 2024".
Proof.
  rewrite (created_at_shown_local_date CreateInvoice.new_york false march_first 1709285400000);
    [vm_compute; reflexivity | vm_compute; reflexivity | vm_compute; discriminate].
Defined.

End InvoiceDates.
