(* ===== verification/InvoiceFlow.v ===== *)
(** * InvoiceFlow: the two invoice pages over their shared binding

    [CreateInvoice.tsx] and [Invoices.tsx] both call [useInvoices()]: the
    create page calls [createInvoice] and reads [isCreating], the list page
    reads [invoices], [isLoading] and [isDeleting] and calls
    [deleteInvoice].  The hook is not under [src/]; following spec section
    4.1 it is a binding with one cache shared by every mounted view: the
    items (absent before the first load), [isLoading] from initialisation
    until the first fetch settles, and a successful create that puts the
    new row into the items (spec 4.1: "create relies on the mutation itself
    updating shared cache state"), while a delete changes the rows on the
    server and leaves the items to the next reload (spec 4.3: the view calls
    [reload()] after the delete).  The mutation flags [isCreating] and
    [isDeleting] are not shared: like the state of a mutation hook, each
    belongs to one mounted page, and is set while a request that this
    mount started is in flight; a page mounted later starts with its flags
    down (spec 4.1: the create view "does not actually disable reliably
    after navigation").

    This file composes the pages with that binding and with the router: a
    [flow] holds the route with the create page's [formData], the number
    of the mounted page (each navigation mounts a new one), the binding's
    state, the requests in flight and the rows on the server.  The events of
    [flow_step] are the user's (typing, submitting, Cancel, the Create
    Invoice link, a delete button), each allowed only when the page shows
    the control enabled and, for a submit, when the browser's constraint
    validation lets the form through; and the network's, the settling of
    the [i]-th request in flight, in any order.  A settle serves the request
    and delivers its answer in one step.  The store assigns ids from a
    counter and the creation time from the settle's clock, and rejects a
    payload whose month or amount is not an integer (the data model's
    integer columns; [NaN] is serialised as [null]).

    The pages' own parts (the effects of [handleSubmit], the
    [disabled={isCreating}] submit button, Cancel, the delete button with
    [disabled={isDeleting}], the links to [/create-invoice]) are the
    definitions of [CreateInvoice.v] and [Invoices.v]; the binding, the
    store and the router are spec-modelled. *)

From S2P Require Import Prelude JsNumber HtmlInput Entities CreateInvoice Invoices.

Local Open Scope Z_scope.

Module InvoiceFlow.

(** ** State *)

(** The route the router renders: the create page with its [formData], the
    list page, or another path. *)
Inductive location :=
| RCreate (fd : CreateInvoice.form)
| RInvoices
| ROther (path : string).

(** A request of the binding in flight. *)
Inductive call :=
| CFetch
| CCreate (page : nat) (p : CreateInvoice.invoice_payload)   (** started by mount [page] *)
| CDelete (page : nat) (id : string).

Record flow := mk_flow {
  route : location;
  page : nat;                        (** the mounted page, counted from 0 *)
  items : option (list Invoice.t);   (** the binding's items *)
  isLoading : bool;
  calls : list call;                 (** requests in flight, oldest first *)
  remote : list Invoice.t;           (** the user's rows on the server *)
  next_id : nat                      (** ids the store has handed out *)
}.

(** [setFormData]: the same page renders a new form. *)
Definition set_route (r : location) (s : flow) : flow :=
  mk_flow r (page s) (items s) (isLoading s) (calls s) (remote s) (next_id s).
(** A navigation: the router unmounts the page and mounts the next one. *)
Definition remount (r : location) (s : flow) : flow :=
  mk_flow r (S (page s)) (items s) (isLoading s) (calls s) (remote s) (next_id s).
Definition set_calls (l : list call) (s : flow) : flow :=
  mk_flow (route s) (page s) (items s) (isLoading s) l (remote s) (next_id s).

Definition is_create_of (g : nat) (c : call) : bool :=
  match c with CCreate g' _ => Nat.eqb g' g | _ => false end.
Definition is_delete_of (g : nat) (c : call) : bool :=
  match c with CDelete g' _ => Nat.eqb g' g | _ => false end.

(** The mounted page's mutation flags: a request of that kind that this
    mount started is in flight. *)
Definition isCreating (s : flow) : bool := existsb (is_create_of (page s)) (calls s).
Definition isDeleting (s : flow) : bool := existsb (is_delete_of (page s)) (calls s).

(** A new request of the binding. *)
Definition start_call (c : call) (s : flow) : flow := set_calls (calls s ++ [c]) s.

(** ** The store (spec-modelled) *)

(** The id the store gives its [n]-th row. *)
Definition fresh_id (n : nat) : string := "inv-" +:+ decimal_of_Z (Z.of_nat (S n)).

(** An integer column accepts an integral number (-0 is stored as 0). *)
Definition as_int (x : number) : option Z :=
  match x with
  | Int z => Some z
  | NegZero => Some 0
  | _ => None
  end.

(** The row the store inserts for a payload, if it accepts it. *)
Definition payload_row (id created : string) (p : CreateInvoice.invoice_payload) : option Invoice.t :=
  match as_int (CreateInvoice.p_month p), as_int (CreateInvoice.p_sales_amount p),
        CreateInvoice.p_invoice_date p with
  | Some m, Some a, Some d => Some (Invoice.mk id m a d (CreateInvoice.p_description p) created)
  | _, _, _ => None
  end.

(** A request served by the store ([ok] false: it fails) and its answer
    applied to the binding, at time [now].  A fetch replaces the items and
    ends the loading state, or only ends it when it fails; a create inserts
    the row on the server and appends it to the items; a delete removes the
    row on the server only. *)
Definition settle (c : call) (ok : bool) (now : string) (s : flow) : flow :=
  match c with
  | CFetch =>
      mk_flow (route s) (page s) (if ok then Some (remote s) else items s) false (calls s) (remote s)
              (next_id s)
  | CCreate _ p =>
      match if ok then payload_row (fresh_id (next_id s)) now p else None with
      | Some row =>
          mk_flow (route s) (page s) (Some (default [] (items s) ++ [row])) (isLoading s) (calls s)
                  (remote s ++ [row]) (S (next_id s))
      | None => s
      end
  | CDelete _ id =>
      if ok then mk_flow (route s) (page s) (items s) (isLoading s) (calls s)
                         (filter (fun r => Invoice.id r <> id) (remote s)) (next_id s)
      else s
  end.

(** ** The pages' effects *)

(** An effect of the create page: [createInvoice(payload)] starts a create,
    [setFormData] replaces the form, [navigate(path)] changes the route;
    [preventDefault] and [console.log] change nothing here. *)
Definition run_ci_effect (s : flow) (e : CreateInvoice.effect) : flow :=
  match e with
  | CreateInvoice.CreateInvoiceCall p => start_call (CCreate (page s) p) s
  | CreateInvoice.SetFormData fd =>
      match route s with RCreate _ => set_route (RCreate fd) s | _ => s end
  | CreateInvoice.Navigate path =>
      remount (if String.eqb path "/invoices" then RInvoices else ROther path) s
  | CreateInvoice.PreventDefault | CreateInvoice.ConsoleLog _ => s
  end.

Definition run_ci_effects (effs : list CreateInvoice.effect) (s : flow) : flow :=
  fold_left run_ci_effect effs s.

(** An effect of the list page: [deleteInvoice(id)] starts a delete. *)
Definition run_inv_effect (s : flow) (e : Invoices.effect) : flow :=
  match e with
  | Invoices.DeleteInvoiceCall id => start_call (CDelete (page s) id) s
  end.

Section Pages.

Variable user : option User.t.
Variable formatDate : string -> string.

(** Whether the create page renders its form ([user] set) with the submit
    button enabled: [disabled={isCreating}]. *)
Definition form_shown (s : flow) (fd : CreateInvoice.form) : bool :=
  match CreateInvoice.CreateInvoice_render user (isCreating s) fd with
  | CreateInvoice.Rendered (CreateInvoice.Form _ _ _ _ _ _) _ => true
  | _ => false
  end.

Definition submit_enabled (s : flow) (fd : CreateInvoice.form) : bool :=
  match CreateInvoice.CreateInvoice_render user (isCreating s) fd with
  | CreateInvoice.Rendered (CreateInvoice.Form _ _ _ _ false _) _ => true
  | _ => false
  end.

(** The list page of a flow on [/invoices]. *)
Definition list_page (s : flow) : Invoices.view :=
  Invoices.Invoices_render formatDate user (items s) (isLoading s) (isDeleting s).

Definition flow_page (s : flow) : option Invoices.view :=
  match route s with RInvoices => Some (list_page s) | _ => None end.

(** The Cancel button: [onClick={() => navigate('/invoices')}]. *)
Definition cancel (s : flow) : flow := run_ci_effects [CreateInvoice.Navigate "/invoices"] s.

(** The [Create Invoice] links ([<Link to="/create-invoice">]) of the list
    page: a fresh create page, whose [useState] reads the clock [now_iso]. *)
Definition open_create (now_iso : string) (s : flow) : flow :=
  remount (RCreate (CreateInvoice.initial_formData now_iso)) s.

(** The delete button of a card: [onClick={() => deleteInvoice(invoice.id)}],
    inert while [disabled={isDeleting}]. *)
Definition click_delete (c : Invoices.card) (s : flow) : option flow :=
  if Invoices.card_delete_disabled c then None
  else Some (fold_left run_inv_effect (Invoices.card_on_delete c) s).

Inductive flow_event :=
| FInput (field value : string)
| FSubmit (now_iso : string)
| FCancel
| FOpenCreate (now_iso : string)
| FClickDelete (j : nat)
| FSettle (i : nat) (ok : bool) (now : string).

Definition flow_step (s : flow) (ev : flow_event) : option flow :=
  match ev, route s with
  | FInput field value, RCreate fd =>
      if form_shown s fd && bool_decide (field ∈ CreateInvoice.input_fields) &&
         CreateInvoice.input_value field value
      then Some (set_route (RCreate (CreateInvoice.handleInputChange field value fd)) s) else None
  | FSubmit now_iso, RCreate fd =>
      if submit_enabled s fd && CreateInvoice.form_accepts fd
      then Some (run_ci_effects (CreateInvoice.handleSubmit user now_iso fd).2 s) else None
  | FCancel, RCreate fd => if form_shown s fd then Some (cancel s) else None
  | FOpenCreate now_iso, RInvoices =>
      match list_page s with Invoices.Page _ => Some (open_create now_iso s) | _ => None end
  | FClickDelete j, RInvoices =>
      match list_page s with
      | Invoices.Page (Invoices.Cards cs) =>
          match cs !! j with Some c => click_delete c s | None => None end
      | _ => None
      end
  | FSettle i ok now, _ =>
      match calls s !! i with
      | Some c => Some (settle c ok now (set_calls (delete i (calls s)) s))
      | None => None
      end
  | _, _ => None
  end.

End Pages.

(** The app as loaded on route [r]: its first page is mounted and the
    binding starts its first fetch. *)
Definition flow_init (r : location) (rows : list Invoice.t) : flow := mk_flow r 0 None true [CFetch] rows 0.

Definition flow_reachable (user : option User.t) (formatDate : string -> string)
    (r : location) (rows : list Invoice.t) (s : flow) : Prop :=
  rtc (fun a b => exists ev, flow_step user formatDate a ev = Some b) (flow_init r rows) s.

(** Several events in a row. *)
Fixpoint flow_run (user : option User.t) (formatDate : string -> string) (s : flow)
    (evs : list flow_event) : option flow :=
  match evs with
  | [] => Some s
  | ev :: evs' =>
      match flow_step user formatDate s ev with
      | Some s' => flow_run user formatDate s' evs'
      | None => None
      end
  end.

(** ** Concrete data *)

(** The create page over a loaded, empty list with nothing in flight. *)
Definition on_create (fd : CreateInvoice.form) : flow := mk_flow (RCreate fd) 0 (Some []) false [] [] 0.

(** The example form with the month typed as ["120e-1"] (the value 12). *)
Definition month_120_form : CreateInvoice.form :=
  CreateInvoice.handleInputChange "month" "120e-1" CreateInvoice.demo_filled.

(** The list page with the two example invoices, loaded. *)
Definition on_list : flow := mk_flow RInvoices 0 (Some Invoices.demo_invoices) false [] Invoices.demo_invoices 2.

(** ** Lemmas *)

Lemma flow_run_cons user formatDate s s' ev evs :
  flow_step user formatDate s ev = Some s' ->
  flow_run user formatDate s (ev :: evs) = flow_run user formatDate s' evs.
Proof. intros Hs. cbn [flow_run]. by rewrite Hs. Qed.

(** The create page renders its form, with the submit button enabled
    exactly while this mount has no create in flight, for a signed-in user
    only. *)
Lemma submit_enabled_user user s fd :
  submit_enabled user s fd = match user with Some _ => negb (isCreating s) | None => false end.
Proof. unfold submit_enabled. by destruct user, (isCreating s). Qed.

(** A signed-in submit: the create starts, tagged with the mount that
    sent it, then the list page is mounted. *)
Lemma run_submit (u : User.t) now_iso fd s :
  run_ci_effects (CreateInvoice.handleSubmit (Some u) now_iso fd).2 s =
    mk_flow RInvoices (S (page s)) (items s) (isLoading s)
            (calls s ++ [CCreate (page s) (CreateInvoice.build_payload fd)]) (remote s) (next_id s).
Proof. destruct s as [[] ? ? ? ? ? ?]; reflexivity. Qed.

Lemma step_submit (u : User.t) formatDate s fd now_iso :
  route s = RCreate fd -> isCreating s = false -> CreateInvoice.form_accepts fd = true ->
  flow_step (Some u) formatDate s (FSubmit now_iso) =
    Some (mk_flow RInvoices (S (page s)) (items s) (isLoading s)
            (calls s ++ [CCreate (page s) (CreateInvoice.build_payload fd)]) (remote s) (next_id s)).
Proof.
  intros Hr Hc Hacc. unfold flow_step. rewrite Hr, submit_enabled_user, Hc, Hacc. cbn [negb andb].
  by rewrite run_submit.
Qed.

(** Typing into one of the four inputs of a signed-in create page. *)
Lemma step_input (u : User.t) formatDate s fd field value :
  route s = RCreate fd -> field ∈ CreateInvoice.input_fields ->
  CreateInvoice.input_value field value = true ->
  flow_step (Some u) formatDate s (FInput field value) =
    Some (set_route (RCreate (CreateInvoice.handleInputChange field value fd)) s).
Proof.
  intros Hr Hf Hv. unfold flow_step. rewrite Hr, Hv, bool_decide_true by done.
  unfold form_shown. by destruct (isCreating s).
Qed.

(** The Create Invoice link of a signed-in list page that has loaded. *)
Lemma step_open_create (u : User.t) formatDate s now_iso :
  route s = RInvoices -> isLoading s = false ->
  flow_step (Some u) formatDate s (FOpenCreate now_iso) = Some (open_create now_iso s).
Proof.
  intros Hr Hl. unfold flow_step. rewrite Hr. unfold list_page, Invoices.Invoices_render.
  rewrite Hl. by destruct (items s) as [[|? ?]|].
Qed.

(** A card of the list page: disabled exactly while a delete of this mount
    is in flight, and its click is one [deleteInvoice]. *)
Lemma list_page_card user formatDate s cs j c :
  list_page user formatDate s = Invoices.Page (Invoices.Cards cs) -> cs !! j = Some c ->
  Invoices.card_delete_disabled c = isDeleting s /\
  exists inv, Invoices.card_on_delete c = [Invoices.DeleteInvoiceCall (Invoice.id inv)].
Proof.
  unfold list_page, Invoices.Invoices_render. intros Hp Hj.
  destruct user; [|done]. destruct (isLoading s); [done|].
  destruct (items s) as [[|inv l]|]; simplify_eq.
  change (_ :: map _ l) with (map (Invoices.invoice_card formatDate (isDeleting s)) (inv :: l)) in Hj.
  apply list_elem_of_lookup_2, list_elem_of_In, in_map_iff in Hj as (inv' & <- & _).
  split; [done | by exists inv'].
Qed.

Lemma create_of_other_mount g g' p : g <> g' -> is_create_of g' (CCreate g p) = false.
Proof. intros Hg. by apply Nat.eqb_neq. Qed.

(** ** Properties *)

(** C28: The create page navigates before the invoice exists, and the
    list shows it once the create settles.  On the create page of a
    signed-in user, with the list loaded and nothing in flight, a submit
    that the browser lets through (month and amount texts that [parseInt]
    reads as integers [m] and [a], a date [d]) sends one [createInvoice]
    and shows the list page at once, unchanged, before any answer; when
    the create succeeds, the store holds the new row (the store's next id,
    month [m], amount [a], date [d], the description or [undefined]) and
    the list page shows it after the old rows. *)
Theorem submit_then_listed (u : User.t) (formatDate : string -> string) (s : flow)
    (fd : CreateInvoice.form) (rows : list Invoice.t) (m a : Z) (d now_iso now : string) :
  route s = RCreate fd -> items s = Some rows -> isLoading s = false -> calls s = [] ->
  CreateInvoice.form_accepts fd = true ->
  CreateInvoice.parse_field fd "month" = Int m -> CreateInvoice.parse_field fd "sales_amount" = Int a ->
  fd !! "invoice_date" = Some d ->
  let row := Invoice.mk (fresh_id (next_id s)) m a d
               (CreateInvoice.description_or_undefined (fd !! "description")) now in
  exists s1 s2,
    flow_step (Some u) formatDate s (FSubmit now_iso) = Some s1 /\
    calls s1 = [CCreate (page s) (CreateInvoice.build_payload fd)] /\
    flow_page (Some u) formatDate s1 = Some (Invoices.Invoices_render formatDate (Some u) (Some rows) false false) /\
    flow_step (Some u) formatDate s1 (FSettle 0 true now) = Some s2 /\
    calls s2 = [] /\ remote s2 = remote s ++ [row] /\
    flow_page (Some u) formatDate s2 =
      Some (Invoices.Invoices_render formatDate (Some u) (Some (rows ++ [row])) false false).
Proof.
  intros Hr Hi Hl Hc Hacc Hm Ha Hd row.
  rewrite (step_submit u formatDate s fd now_iso Hr); [| unfold isCreating; by rewrite Hc | done].
  destruct s as [r g it ld cl rm n]; simpl in *; subst.
  eexists _, (mk_flow RInvoices (S g) (Some (rows ++ [row])) false [] (rm ++ [row]) (S n)).
  split_and!; [reflexivity.. | | reflexivity | reflexivity | reflexivity].
  cbn -[CreateInvoice.parse_field payload_row]. unfold payload_row, CreateInvoice.build_payload.
  cbn -[CreateInvoice.parse_field]. rewrite Hm, Ha, Hd. reflexivity.
Qed.

(** C29: A second create page can be submitted while the first create is
    still in flight.  On the create page of a signed-in user, with the list
    loaded and nothing in flight, a submit the browser lets through sends a
    create and mounts the list; its Create Invoice link mounts a new create
    page, whose submit button is enabled although the first create has not
    settled, and the form typed into its Month and Sales Amount inputs, if
    the browser lets it through, is sent too.  Two creates are then in
    flight, one per mount: each page's [disabled={isCreating}] only guards
    the requests of its own mount, the gap spec 4.1 notes. *)
Theorem resubmit_two_creates_in_flight (u : User.t) (formatDate : string -> string) (s : flow)
    (fd : CreateInvoice.form) (rows : list Invoice.t) (m a now1 now2 now3 : string) :
  route s = RCreate fd -> items s = Some rows -> isLoading s = false -> calls s = [] ->
  CreateInvoice.form_accepts fd = true ->
  CreateInvoice.input_value "month" m = true -> CreateInvoice.input_value "sales_amount" a = true ->
  let fd2 := CreateInvoice.handleInputChange "sales_amount" a
               (CreateInvoice.handleInputChange "month" m (CreateInvoice.initial_formData now2)) in
  CreateInvoice.form_accepts fd2 = true ->
  exists s',
    flow_run (Some u) formatDate s
      [FSubmit now1; FOpenCreate now2; FInput "month" m; FInput "sales_amount" a; FSubmit now3] = Some s' /\
    calls s' = [CCreate (page s) (CreateInvoice.build_payload fd);
                CCreate (S (S (page s))) (CreateInvoice.build_payload fd2)] /\
    route s' = RInvoices.
Proof.
  intros Hr Hi Hl Hc Hacc Hm Ha fd2 Hacc2.
  destruct s as [r g it ld cl rm n]; cbn [route items isLoading calls page] in *; subst.
  erewrite flow_run_cons; [| apply (step_submit _ _ _ fd); [reflexivity | reflexivity | exact Hacc]].
  erewrite flow_run_cons; [| apply step_open_create; reflexivity].
  erewrite flow_run_cons; [| apply step_input; [reflexivity | set_solver | exact Hm]].
  erewrite flow_run_cons; [| apply step_input; [reflexivity | set_solver | exact Ha]].
  erewrite flow_run_cons; [| apply (step_submit _ _ _ fd2); [reflexivity | | exact Hacc2]].
  - by eexists.
  - cbn -[is_create_of]. rewrite create_of_other_mount by lia. reflexivity.
Qed.

(** C30: Deleting an invoice asks nothing and leaves it listed.  On the
    loaded list of a signed-in user with nothing in flight, clicking the
    delete button of the [j]-th invoice sends [deleteInvoice(id)] at once
    (there is no confirmation step) and disables every delete button; when
    the delete succeeds the store no longer has the row, but the page,
    which never calls [reload()], still lists every invoice, the deleted
    one included, with its button enabled again (spec 4.3 requires a
    reload after the delete). *)
Theorem delete_keeps_card_listed (u : User.t) (formatDate : string -> string) (s : flow)
    (rows : list Invoice.t) (j : nat) (inv : Invoice.t) (now : string) :
  route s = RInvoices -> items s = Some rows -> isLoading s = false -> calls s = [] ->
  rows !! j = Some inv ->
  exists s1 s2,
    flow_step (Some u) formatDate s (FClickDelete j) = Some s1 /\
    calls s1 = [CDelete (page s) (Invoice.id inv)] /\
    flow_page (Some u) formatDate s1 =
      Some (Invoices.Page (Invoices.Cards (map (Invoices.invoice_card formatDate true) rows))) /\
    flow_step (Some u) formatDate s1 (FSettle 0 true now) = Some s2 /\
    remote s2 = filter (fun r => Invoice.id r <> Invoice.id inv) (remote s) /\
    flow_page (Some u) formatDate s2 =
      Some (Invoices.Page (Invoices.Cards (map (Invoices.invoice_card formatDate false) rows))).
Proof.
  intros Hr Hi Hl Hc Hj. destruct s as [r g it ld cl rm n]; simpl in *; subst.
  destruct rows as [|x l]; [done|].
  exists (mk_flow RInvoices g (Some (x :: l)) false [CDelete g (Invoice.id inv)] rm n),
    (mk_flow RInvoices g (Some (x :: l)) false []
       (filter (fun r => Invoice.id r <> Invoice.id inv) rm) n).
  split_and!; [| reflexivity | | reflexivity | reflexivity | reflexivity].
  - cbv beta iota delta [flow_step route]. unfold list_page.
    cbn [Invoices.Invoices_render items isLoading isDeleting calls existsb].
    change (_ :: map _ l) with (map (Invoices.invoice_card formatDate false) (x :: l)).
    rewrite (lookup_map_Some _ _ _ _ Hj). reflexivity.
  - unfold flow_page, list_page, isDeleting. cbn. by rewrite Nat.eqb_refl.
Qed.

(** ** Witnesses *)

(** Typed as ["120e-1"], the month passes the browser's check and the list
    shows an invoice for month 120. *)
Lemma submit_then_listed_witness :
  exists s1 s2,
    flow_step (Some CreateInvoice.demo_user) (fun d => d) (on_create month_120_form)
      (FSubmit CreateInvoice.demo_clock) = Some s1 /\
    flow_step (Some CreateInvoice.demo_user) (fun d => d) s1 (FSettle 0 true "2024-03-01T09:31:00.000Z") = Some s2 /\
    flow_page (Some CreateInvoice.demo_user) (fun d => d) s2 =
      Some (Invoices.Invoices_render (fun d => d) (Some CreateInvoice.demo_user)
              (Some [Invoice.mk "inv-1" 120 15000 "2024-03-01" None "2024-03-01T09:31:00.000Z"]) false false).
Proof.
  destruct (submit_then_listed CreateInvoice.demo_user (fun d => d) (on_create month_120_form)
              month_120_form [] 120 15000 "2024-03-01" CreateInvoice.demo_clock "2024-03-01T09:31:00.000Z")
    as (s1 & s2 & H1 & _ & _ & H2 & _ & _ & H3);
    [reflexivity | reflexivity | reflexivity | reflexivity | vm_compute; reflexivity
    | vm_compute; reflexivity | vm_compute; reflexivity | vm_compute; reflexivity |].
  exists s1, s2. split_and!; [exact H1 | exact H2 | rewrite H3; vm_compute; reflexivity].
Defined.

(** Submitting the example form, opening a new create page and sending it
    with the month 4 and the amount 9900: both creates are in flight. *)
Lemma resubmit_two_creates_in_flight_witness :
  exists s', flow_run (Some CreateInvoice.demo_user) (fun d => d) (on_create CreateInvoice.demo_filled)
      [FSubmit CreateInvoice.demo_clock; FOpenCreate CreateInvoice.demo_clock; FInput "month" "4";
       FInput "sales_amount" "9900"; FSubmit CreateInvoice.demo_clock] = Some s' /\
    length (calls s') = 2%nat.
Proof.
  destruct (resubmit_two_creates_in_flight CreateInvoice.demo_user (fun d => d)
              (on_create CreateInvoice.demo_filled) CreateInvoice.demo_filled [] "4" "9900"
              CreateInvoice.demo_clock CreateInvoice.demo_clock CreateInvoice.demo_clock)
    as (s' & H1 & H2 & _); [reflexivity.. | vm_compute; reflexivity | reflexivity | reflexivity
                             | vm_compute; reflexivity |].
  exists s'. split; [exact H1 | by rewrite H2].
Defined.

(** Deleting the first of the two example invoices: the store drops it,
    the page still shows both. *)
Lemma delete_keeps_card_listed_witness :
  exists s1 s2,
    flow_step (Some CreateInvoice.demo_user) (fun d => d) on_list (FClickDelete 0) = Some s1 /\
    flow_step (Some CreateInvoice.demo_user) (fun d => d) s1 (FSettle 0 true "t") = Some s2 /\
    length (remote s2) = 1%nat /\
    flow_page (Some CreateInvoice.demo_user) (fun d => d) s2 =
      Some (Invoices.Page (Invoices.Cards (map (Invoices.invoice_card (fun d => d) false) Invoices.demo_invoices))).
Proof.
  destruct (delete_keeps_card_listed CreateInvoice.demo_user (fun d => d) on_list Invoices.demo_invoices 0
              (Invoice.mk "inv-1" 3 15000 "2024-03-01" None "2024-03-01T09:30:00Z") "t")
    as (s1 & s2 & H1 & _ & _ & H2 & H3 & H4); [reflexivity..|].
  exists s1, s2. split_and!; [exact H1 | exact H2 | rewrite H3; reflexivity | exact H4].
Defined.

End InvoiceFlow.
