(* ===== verification/Dashboard.v ===== *)
(** * Dashboard: the services dashboard ([src/src/pages/Dashboard.tsx])

    The component keeps [userServices] and [showCreateDialog] in local state,
    reads [user] and [authLoading] from [useAuth] and calls the hook's
    [getUserServices] and [deleteService].  Both calls are asynchronous: an
    [await] suspends the handler until the response arrives.  The model is a
    world made of the component's state, the remote store of services (the
    hook's backend, spec-modelled: a list of rows, [getUserServices] returns
    the rows of the calling user, [deleteService] removes a row, and the
    create dialog's [createService], outside [src/], adds a row of the user
    before the dialog calls [onSuccess]) and the requests in flight.  A
    request is issued by the component, served by the store at some later
    step (which reads or changes the rows, or fails), and
    its response is delivered to the suspended handler at a still later step;
    requests are served and delivered in any order.  [dash_step] is the
    executable step function of this world; every event of the page (an auth
    change with the two [useEffect]s, a delete click with the answer to
    [window.confirm], the create dialog) and of the network is a
    constructor of [event].  React compares the effects' dependencies with
    [Object.is]; [commit] compares the auth values structurally, which
    agrees as long as the auth provider hands out a new user object only
    when the user changes. *)

From S2P Require Import Prelude Entities.

Module Dashboard.

(** ** Data *)

(** The value of [useAuth()] the component renders with. *)
Record auth := mk_auth { user : option User.t; authLoading : bool }.

#[export] Instance auth_eq_dec : EqDecision auth.
Proof. solve_decision. Defined.

Inductive request :=
| GetUserServices (uid : string)
| DeleteService (id : string).

Inductive response :=
| Services (l : list Service.t)
| Deleted
| Failed.

(** What runs when an [await] of the component returns:
    [setUserServices(services)] in [loadUserServices], or
    [loadUserServices()] after [await deleteService(id)]. *)
Inductive continuation :=
| KSetUserServices
| KReloadAfterDelete (uid : string).

Record inflight := mk_inflight { req : request; kont : continuation; resp : option response }.

Inductive effect :=
| Navigate (path : string)
| Request (r : request)
| ConfirmPrompt (msg : string).

Record world := mk_world {
  mounted : bool;
  seen_auth : option auth;        (** the auth of the last commit, for the effects' dependencies *)
  userServices : list Service.t;
  showCreateDialog : bool;
  pending : list inflight;
  store : list Service.t;         (** the remote rows *)
  trace : list effect
}.

(** Field updates. *)
Definition set_mounted (b : bool) (w : world) : world :=
  mk_world b (seen_auth w) (userServices w) (showCreateDialog w) (pending w) (store w) (trace w).
Definition set_seen_auth (a : auth) (w : world) : world :=
  mk_world (mounted w) (Some a) (userServices w) (showCreateDialog w) (pending w) (store w) (trace w).
Definition set_userServices (l : list Service.t) (w : world) : world :=
  mk_world (mounted w) (seen_auth w) l (showCreateDialog w) (pending w) (store w) (trace w).
Definition set_showCreateDialog (b : bool) (w : world) : world :=
  mk_world (mounted w) (seen_auth w) (userServices w) b (pending w) (store w) (trace w).
Definition set_pending (p : list inflight) (w : world) : world :=
  mk_world (mounted w) (seen_auth w) (userServices w) (showCreateDialog w) p (store w) (trace w).
Definition set_store (rows : list Service.t) (w : world) : world :=
  mk_world (mounted w) (seen_auth w) (userServices w) (showCreateDialog w) (pending w) rows (trace w).
Definition emit (e : effect) (w : world) : world :=
  mk_world (mounted w) (seen_auth w) (userServices w) (showCreateDialog w) (pending w) (store w)
    (trace w ++ [e]).

Inductive event :=
| EvAuth (a : auth)                        (** useAuth changes: render, then effects *)
| EvServe (i : nat) (ok : bool)            (** the store handles the i-th request *)
| EvDeliver (i : nat)                      (** the i-th response reaches the component *)
| EvClickDelete (id : string) (confirmed : bool)
| EvOpenDialog                             (** Add Service / Create Your First Service *)
| EvDialogOpenChange (b : bool)            (** onOpenChange={setShowCreateDialog} *)
| EvDialogSuccess (created : Service.t).  (** the dialog created [created], then onSuccess={loadUserServices} *)

(** ** The remote store (spec-modelled) *)

Definition store_user_services (rows : list Service.t) (uid : string) : list Service.t :=
  filter (fun s => Service.user_id s = uid) rows.

Definition store_delete (rows : list Service.t) (id : string) : list Service.t :=
  filter (fun s => Service.id s <> id) rows.

Definition serve (rows : list Service.t) (r : request) (ok : bool) : list Service.t * response :=
  if ok then
    match r with
    | GetUserServices uid => (rows, Services (store_user_services rows uid))
    | DeleteService id => (store_delete rows id, Deleted)
    end
  else (rows, Failed).

(** [createService] of the create dialog: the new row is added. *)
Definition store_create (rows : list Service.t) (created : Service.t) : list Service.t :=
  rows ++ [created].

(** ** The component's operations *)

(** [getUserServices()] or [deleteService(id)] sent, its [await] pending. *)
Definition issue (r : request) (k : continuation) (w : world) : world :=
  emit (Request r) (set_pending (pending w ++ [mk_inflight r k None]) w).

(** [loadUserServices()] for the user of the render that created it. *)
Definition loadUserServices (uid : string) (w : world) : world :=
  issue (GetUserServices uid) KSetUserServices w.

(** [setUserServices]: React drops updates of an unmounted component. *)
Definition setUserServices (l : list Service.t) (w : world) : world :=
  if mounted w then set_userServices l w else w.

(** The first effect: [if (!authLoading && !user) navigate("/login")];
    leaving the route unmounts the dashboard. *)
Definition redirect_effect (a : auth) (w : world) : world :=
  if negb (authLoading a) && bool_decide (user a = None)
  then set_mounted false (emit (Navigate "/login") w)
  else w.

(** The second effect: [if (user) loadUserServices()]. *)
Definition load_effect (a : auth) (w : world) : world :=
  match user a with
  | Some u => loadUserServices (User.id u) w
  | None => w
  end.

(** A commit with [a]: each effect runs when one of its dependencies
    changed since the previous commit, or on mount. *)
Definition commit (a : auth) (w : world) : world :=
  let prev := seen_auth w in
  let w := set_seen_auth a w in
  let w := if bool_decide (prev = Some a) then w else redirect_effect a w in
  let w := if bool_decide (option_map user prev = Some (user a)) then w else load_effect a w in
  w.

(** [handleDeleteService(id)]: [window.confirm], then [await deleteService(id)]. *)
Definition handleDeleteService (uid id : string) (confirmed : bool) (w : world) : world :=
  let w := emit (ConfirmPrompt "Are you sure you want to delete this service?") w in
  if confirmed then issue (DeleteService id) (KReloadAfterDelete uid) w else w.

(** The rest of a handler after its [await] returns [r]: a failed request
    rejects the [await] and the handler stops. *)
Definition resume (k : continuation) (r : response) (w : world) : world :=
  match k, r with
  | KSetUserServices, Services l => setUserServices l w
  | KReloadAfterDelete uid, Deleted => loadUserServices uid w
  | _, _ => w
  end.

(** The signed-in user the page shows, when it shows the page. *)
Definition page_user (w : world) : option User.t :=
  match seen_auth w with
  | Some a => if mounted w && negb (authLoading a) then user a else None
  | None => None
  end.

(** ** The step function *)

Definition dash_step (w : world) (ev : event) : option world :=
  match ev with
  | EvAuth a => if mounted w then Some (commit a w) else None
  | EvServe i ok =>
      match pending w !! i with
      | Some f =>
          match resp f with
          | None =>
              let '(rows, r) := serve (store w) (req f) ok in
              Some (set_pending (<[i := mk_inflight (req f) (kont f) (Some r)]> (pending w))
                      (set_store rows w))
          | Some _ => None
          end
      | None => None
      end
  | EvDeliver i =>
      match pending w !! i with
      | Some f =>
          match resp f with
          | Some r => Some (resume (kont f) r (set_pending (delete i (pending w)) w))
          | None => None
          end
      | None => None
      end
  | EvClickDelete id confirmed =>
      match page_user w with
      | Some u =>
          if bool_decide (id ∈ Service.id <$> userServices w)
          then Some (handleDeleteService (User.id u) id confirmed w) else None
      | None => None
      end
  | EvOpenDialog => if bool_decide (page_user w <> None) then Some (set_showCreateDialog true w) else None
  | EvDialogOpenChange b => if bool_decide (page_user w <> None) then Some (set_showCreateDialog b w) else None
  | EvDialogSuccess created =>
      match page_user w with
      | Some u =>
          if bool_decide (Service.user_id created = User.id u)
          then Some (loadUserServices (User.id u) (set_store (store_create (store w) created) w))
          else None
      | None => None
      end
  end.

(** Several events in a row. *)
Fixpoint dash_run (w : world) (evs : list event) : option world :=
  match evs with
  | [] => Some w
  | ev :: evs' => match dash_step w ev with Some w' => dash_run w' evs' | None => None end
  end.

(** Mounting with the store [rows]: [useState([])], [useState(false)], then
    the first commit with [a]. *)
Definition mount (a : auth) (rows : list Service.t) : world :=
  commit a (mk_world true None [] false [] rows []).

(** ** Rendering *)

(** One service card: its texts, and the handlers of its three buttons
    (View and Edit have none). *)
Record card := mk_card {
  card_key : string;
  card_title : string;
  card_category : string;
  card_badge : string;
  card_description : string;
  card_on_view : option string;
  card_on_edit : option string;
  card_on_delete : option string   (** the id passed to [handleDeleteService] *)
}.

Inductive view :=
| Loading                          (** [authLoading] *)
| Nothing                          (** [!user]: [return null] *)
| Page (welcome : string) (cards : list card) (empty_state : bool) (dialog_open : bool).

Definition service_card (s : Service.t) : card :=
  {| card_key := Service.id s;
     card_title := Service.title s;
     card_category := Service.category s;
     card_badge := if Service.is_active s then "Active" else "Inactive";
     card_description := Service.description s;
     card_on_view := None;
     card_on_edit := None;
     card_on_delete := Some (Service.id s) |}.

(** [profile?.display_name || user.email]. *)
Definition welcome_name (profile : option Profile.t) (u : User.t) : string :=
  match profile with
  | Some p => match Profile.display_name p with
              | Some d => d ||s User.email u
              | None => User.email u
              end
  | None => User.email u
  end.

Definition Dashboard_render (a : auth) (profile : option Profile.t) (w : world) : view :=
  if authLoading a then Loading
  else match user a with
       | None => Nothing
       | Some u =>
           Page ("Welcome back, " +:+ welcome_name profile u)
                (map service_card (userServices w))
                (Nat.eqb (length (userServices w)) 0)
                (showCreateDialog w)
       end.

(** ** Reachable worlds and a first-in first-out network *)

Definition dash_rel (w w' : world) : Prop := exists ev, dash_step w ev = Some w'.

Definition dash_reachable (a : auth) (rows : list Service.t) (w : world) : Prop :=
  rtc dash_rel (mount a rows) w.

(** Every request resumes the handler that issued it, with a response of
    its own kind. *)
Definition wf_inflight (f : inflight) : Prop :=
  match req f, kont f with
  | GetUserServices _, KSetUserServices =>
      match resp f with Some Deleted => False | _ => True end
  | DeleteService _, KReloadAfterDelete _ =>
      match resp f with Some (Services _) => False | _ => True end
  | _, _ => False
  end.

Definition wf_world (w : world) : Prop := Forall wf_inflight (pending w).

(** The work left: a delete still owes its reload. *)
Definition weight (f : inflight) : nat :=
  match req f with DeleteService _ => 2 | GetUserServices _ => 1 end.

Definition total_weight (w : world) : nat := sum_list_with weight (pending w).

(** A network that serves (successfully) and delivers the oldest request
    first, for at most [fuel] rounds. *)
Fixpoint drain (fuel : nat) (w : world) : world :=
  match fuel with
  | O => w
  | S fuel' =>
      match pending w with
      | [] => w
      | f :: _ =>
          let w1 := match resp f with
                    | None => default w (dash_step w (EvServe 0 true))
                    | Some _ => w
                    end in
          drain fuel' (default w1 (dash_step w1 (EvDeliver 0)))
      end
  end.

Definition confirm_msg : string := "Are you sure you want to delete this service?".

(** ** Concrete worlds *)

Definition demo_user : User.t := User.mk "u-1" "owner@example.com".
Definition demo_auth : auth := mk_auth (Some demo_user) false.
Definition demo_service (id : string) : Service.t :=
  Service.mk id "u-1" "Consulting" "Advice for growth" "Finance" "$1,200" "Chicago, IL" true
    "2024-03-01T09:30:00Z" "2024-03-01T09:30:00Z" None.
Definition demo_rows : list Service.t := [demo_service "s-1"; demo_service "s-2"].

(** Mounted for [demo_user], the first load served and delivered. *)
Definition demo_loaded : world :=
  default (mount demo_auth demo_rows) (dash_run (mount demo_auth demo_rows) [EvServe 0 true; EvDeliver 0]).

(** The loaded demo page after a confirmed delete of ["s-1"] has been
    served, then a sign-out that redirects to [/login] and unmounts it. *)
Definition demo_signed_out : world :=
  default demo_loaded (dash_run demo_loaded [EvClickDelete "s-1" true; EvServe 0 true;
                                             EvAuth (mk_auth None false)]).

(** ** Lemmas *)

Lemma page_user_Some w u :
  page_user w = Some u ->
  mounted w = true /\ exists a, seen_auth w = Some a /\ authLoading a = false /\ user a = Some u.
Proof.
  unfold page_user. destruct (seen_auth w) as [au|]; [|done].
  destruct (mounted w), (authLoading au) eqn:E; simpl; try done. intros H. split; [done|]. by exists au.
Qed.

Lemma page_user_emit e w : page_user (emit e w) = page_user w.
Proof. done. Qed.

Lemma page_user_issue r k w : page_user (issue r k w) = page_user w.
Proof. done. Qed.

Lemma store_user_services_deleted rows id uid :
  id ∉ (Service.id <$> store_user_services (store_delete rows id) uid).
Proof.
  intros Hin. apply list_elem_of_fmap in Hin as (s & -> & Hs).
  unfold store_user_services, store_delete in Hs.
  apply list_elem_of_filter in Hs as [_ Hs]. by apply list_elem_of_filter in Hs as [? _].
Qed.


(** The rows of [uid] after a row of [uid] is created end with it. *)
Lemma store_user_services_create rows created uid :
  Service.user_id created = uid ->
  store_user_services (store_create rows created) uid = store_user_services rows uid ++ [created].
Proof. intros Hu. unfold store_user_services, store_create. rewrite filter_app, filter_cons_True by done. done. Qed.

(** Answering the last request of a queue and delivering it. *)
Lemma delete_insert_last {A} (L : list A) (x y : A) :
  delete (length L) (<[length L := x]> (L ++ [y])) = L.
Proof.
  rewrite insert_app_r_alt, Nat.sub_diag by lia. simpl.
  rewrite (delete_middle L [] x). apply app_nil_r.
Qed.

(** ** Properties *)

(** C2: A confirmed delete removes the service and reloads the list (spec
    scenario C).  On a dashboard showing the page to user [u], with no
    request in flight and service [id] on screen, a confirmed click on its
    Delete button, followed by the store serving and the component
    receiving each request in turn, prompts once, sends exactly
    [deleteService(id)] then [getUserServices()], and leaves the page
    showing the store's services of [u] after the deletion, none of which
    has id [id]. *)
Theorem delete_confirmed_reloads w u id :
  page_user w = Some u -> id ∈ (Service.id <$> userServices w) -> pending w = [] ->
  exists w', dash_run w [EvClickDelete id true; EvServe 0 true; EvDeliver 0;
                         EvServe 0 true; EvDeliver 0] = Some w' /\
    userServices w' = store_user_services (store_delete (store w) id) (User.id u) /\
    (id ∉ (Service.id <$> userServices w')) /\
    pending w' = [] /\ store w' = store_delete (store w) id /\
    trace w' = trace w ++ [ConfirmPrompt confirm_msg; Request (DeleteService id);
                           Request (GetUserServices (User.id u))].
Proof.
  intros Hpu Hin Hp. destruct (page_user_Some w u Hpu) as (Hm & a & Ha & Hl & Hu).
  destruct w as [m sa us sd p st tr]; simpl in *; subst.
  exists (mk_world true (Some a) (store_user_services (store_delete st id) (User.id u)) sd []
            (store_delete st id)
            (((tr ++ [ConfirmPrompt confirm_msg]) ++ [Request (DeleteService id)]) ++
               [Request (GetUserServices (User.id u))])).
  split; [simpl; rewrite Hpu, bool_decide_true by done; reflexivity |].
  simpl. split_and!; try done; [apply store_user_services_deleted | by rewrite <- !app_assoc].
Qed.

(** C12: Declining the confirmation changes nothing.  When the page of user
    [u] shows service [id] and the user answers Cancel to
    [window.confirm], the only thing that happens is the prompt: no request
    is sent, and the services shown, the requests in flight and the store
    are unchanged. *)
Theorem delete_declined_noop w u id :
  page_user w = Some u -> id ∈ (Service.id <$> userServices w) ->
  exists w', dash_step w (EvClickDelete id false) = Some w' /\
    userServices w' = userServices w /\ pending w' = pending w /\ store w' = store w /\
    trace w' = trace w ++ [ConfirmPrompt confirm_msg].
Proof.
  intros Hpu Hin. eexists. split; [simpl; rewrite Hpu, bool_decide_true by done; reflexivity |]. done.
Qed.

(** C6: A failed delete, or a failed reload after it, leaves the list as
    it was.  On a dashboard showing the page to user [u], with no request
    in flight and service [id] on screen, a confirmed Delete whose
    [deleteService(id)] fails rejects the [await]: nothing is reloaded and
    the page, the store and the dialog stay as they were.  When the delete
    succeeds but the [getUserServices()] that follows fails, the store has
    lost the row but the page still shows every service it showed, [id]
    included, with nothing in flight: no error is surfaced (spec section 7:
    failures are not distinguished from success). *)
Theorem delete_failures_keep_list w u id :
  page_user w = Some u -> id ∈ (Service.id <$> userServices w) -> pending w = [] ->
  dash_run w [EvClickDelete id true; EvServe 0 false; EvDeliver 0] =
    Some (mk_world (mounted w) (seen_auth w) (userServices w) (showCreateDialog w) [] (store w)
            (trace w ++ [ConfirmPrompt confirm_msg; Request (DeleteService id)])) /\
  dash_run w [EvClickDelete id true; EvServe 0 true; EvDeliver 0; EvServe 0 false; EvDeliver 0] =
    Some (mk_world (mounted w) (seen_auth w) (userServices w) (showCreateDialog w) []
            (store_delete (store w) id)
            (trace w ++ [ConfirmPrompt confirm_msg; Request (DeleteService id);
                         Request (GetUserServices (User.id u))])).
Proof.
  intros Hpu Hin Hp. destruct (page_user_Some w u Hpu) as (Hm & a & Ha & Hl & Hu).
  destruct w as [m sa us sd p st tr]; simpl in *; subst.
  split.
  - transitivity (Some (mk_world true (Some a) us sd [] st
                    ((tr ++ [ConfirmPrompt confirm_msg]) ++ [Request (DeleteService id)]))).
    + simpl. rewrite Hpu, bool_decide_true by done. reflexivity.
    + by rewrite <- app_assoc.
  - transitivity (Some (mk_world true (Some a) us sd [] (store_delete st id)
                    (((tr ++ [ConfirmPrompt confirm_msg]) ++ [Request (DeleteService id)]) ++
                       [Request (GetUserServices (User.id u))]))).
    + simpl. rewrite Hpu, bool_decide_true by done. reflexivity.
    + by rewrite <- !app_assoc.
Qed.

(** C5: A stale response can bring a deleted service back.  Requests are
    not ordered or cancelled: there is a run from a fresh mount where a
    [getUserServices] answered before a deletion is delivered after the
    reload that follows it, so that, with nothing left in flight, the page
    shows a service the store no longer has. *)
Theorem stale_response_restores_deleted :
  exists a rows evs w s,
    dash_run (mount a rows) evs = Some w /\ pending w = [] /\
    s ∈ userServices w /\ s ∉ store w.
Proof.
  set (svc := fun id => Service.mk id "u1" "Consulting" "Advice" "Finance" "$100" "Paris" true "t0" "t0" None).
  exists (mk_auth (Some (User.mk "u1" "owner@example.com")) false), [svc "x"; svc "y"],
    [EvServe 0 true; EvDeliver 0; EvDialogSuccess (svc "z"); EvServe 0 true; EvClickDelete "x" true;
     EvServe 1 true; EvDeliver 1; EvServe 1 true; EvDeliver 1; EvDeliver 0].
  eexists. exists (svc "x"). split_and!; [vm_compute; reflexivity | reflexivity | |].
  - simpl. set_solver.
  - simpl. unfold store_delete. simpl. set_solver.
Qed.

(** C14: An anonymous visitor is sent to the log-in page.  When the auth
    state of a mounted dashboard settles to "not loading, no user" (from
    any other value), the first effect navigates to [/login] once, the
    dashboard is left, no request is sent, and it renders nothing. *)
Theorem signed_out_redirects w a (profile : option Profile.t) :
  mounted w = true -> seen_auth w = Some a -> a <> mk_auth None false ->
  exists w', dash_step w (EvAuth (mk_auth None false)) = Some w' /\
    trace w' = trace w ++ [Navigate "/login"] /\ mounted w' = false /\
    pending w' = pending w /\ Dashboard_render (mk_auth None false) profile w' = Nothing.
Proof.
  intros Hm Ha Hne. eexists. split; [simpl; rewrite Hm; reflexivity |].
  unfold commit. rewrite Ha, (bool_decide_false (Some a = _)) by congruence.
  destruct (bool_decide (option_map _ _ = _)); done.
Qed.

(** C15: Signing in loads the services once.  When a mounted dashboard
    is committed with a newly signed-in user [u], the second effect sends
    exactly one [getUserServices()] for [u] and nothing else; committing
    the same auth state again runs no effect. *)
Theorem sign_in_loads_once w a u :
  mounted w = true -> seen_auth w = Some a -> user a <> Some u ->
  exists w', dash_step w (EvAuth (mk_auth (Some u) false)) = Some w' /\
    trace w' = trace w ++ [Request (GetUserServices (User.id u))] /\
    pending w' = pending w ++ [mk_inflight (GetUserServices (User.id u)) KSetUserServices None] /\
    dash_step w' (EvAuth (mk_auth (Some u) false)) = Some w'.
Proof.
  intros Hm Ha Hne. eexists. split; [simpl; rewrite Hm; reflexivity |].
  unfold commit. rewrite Ha.
  rewrite (bool_decide_false (Some a = _)) by (intros H; injection H as ->; by apply Hne).
  rewrite (bool_decide_false (option_map _ _ = _)) by (intros H; injection H; done).
  simpl. split_and!; [done | done |]. rewrite Hm. unfold commit. simpl.
  by rewrite !bool_decide_true.
Qed.

(** C16: Delete buttons stay enabled while a deletion is in flight.  Unlike
    the invoice list, the dashboard does not disable its Delete buttons:
    two confirmed clicks on the same service, with nothing served in
    between, prompt twice and send [deleteService(id)] twice. *)
Theorem double_delete_two_requests w u id :
  page_user w = Some u -> id ∈ (Service.id <$> userServices w) ->
  exists w', dash_run w [EvClickDelete id true; EvClickDelete id true] = Some w' /\
    trace w' = trace w ++ [ConfirmPrompt confirm_msg; Request (DeleteService id);
                           ConfirmPrompt confirm_msg; Request (DeleteService id)] /\
    pending w' = pending w ++ [mk_inflight (DeleteService id) (KReloadAfterDelete (User.id u)) None;
                               mk_inflight (DeleteService id) (KReloadAfterDelete (User.id u)) None].
Proof.
  intros Hpu Hin. eexists. split.
  - unfold dash_run, dash_step. rewrite Hpu, bool_decide_true by done.
    unfold handleDeleteService at 1. rewrite page_user_issue, page_user_emit, Hpu.
    rewrite bool_decide_true by done. reflexivity.
  - simpl. by rewrite <- !app_assoc.
Qed.

(** *** Well-formed requests in flight *)

Lemma wf_issue r k w :
  wf_world w -> wf_inflight (mk_inflight r k None) -> wf_world (issue r k w).
Proof. intros Hw Hf. unfold wf_world in *. simpl. apply Forall_app; auto. Qed.

Lemma wf_loadUserServices uid w : wf_world w -> wf_world (loadUserServices uid w).
Proof. intros Hw. by apply wf_issue. Qed.

Lemma wf_resume k r w : wf_world w -> wf_world (resume k r w).
Proof.
  intros Hw. destruct k, r; simpl; try done; [| by apply wf_loadUserServices].
  unfold setUserServices. by destruct (mounted w).
Qed.

Lemma wf_commit a w : wf_world w -> wf_world (commit a w).
Proof.
  intros Hw. unfold commit, redirect_effect, load_effect.
  repeat case_match; simpl; try done; by apply wf_loadUserServices.
Qed.

#[local] Hint Resolve wf_issue wf_loadUserServices wf_resume wf_commit : bizconnect.

Lemma wf_serve f rows ok :
  wf_inflight f -> wf_inflight (mk_inflight (req f) (kont f) (Some (serve rows (req f) ok).2)).
Proof. destruct f as [[] [] r], ok; simpl; done. Qed.

Lemma dash_step_wf w ev w' : wf_world w -> dash_step w ev = Some w' -> wf_world w'.
Proof.
  intros Hw Hstep.
  destruct ev; simpl in Hstep; repeat case_match; simplify_eq; simpl; eauto with bizconnect.
  - unfold wf_world in *. simpl. apply Forall_insert; [done|].
    pose proof (wf_serve i0 (store w) ok (Forall_lookup_1 _ _ _ _ Hw H)) as Hs.
    by rewrite H1 in Hs.
  - apply wf_resume. unfold wf_world in *. simpl. by apply Forall_delete.
  - unfold handleDeleteService. destruct confirmed; [apply wf_issue|]; done.
Qed.

(** Every request in flight of a reachable world resumes the handler that
    sent it with an answer of its own kind. *)
Lemma reachable_wf a rows w : dash_reachable a rows w -> wf_world w.
Proof.
  unfold dash_reachable. apply rtc_invariant.
  - intros w1 w2 Hw [ev Hstep]. by eapply dash_step_wf.
  - apply wf_commit. constructor.
Qed.

(** *** Draining a first-in first-out network *)

Lemma serve_head w f rest ok :
  pending w = f :: rest -> resp f = None ->
  dash_step w (EvServe 0 ok) =
    Some (set_pending (mk_inflight (req f) (kont f) (Some (serve (store w) (req f) ok).2) :: rest)
                      (set_store (serve (store w) (req f) ok).1 w)).
Proof. intros Hp Hr. simpl. rewrite Hp. simpl. rewrite Hr. by destruct (serve _ _ _). Qed.

Lemma deliver_head w f rest r :
  pending w = f :: rest -> resp f = Some r ->
  dash_step w (EvDeliver 0) = Some (resume (kont f) r (set_pending rest w)).
Proof. intros Hp Hr. simpl. rewrite Hp. simpl. by rewrite Hr. Qed.

(** Resuming a handler adds at most its follow-up reload, which weighs
    less than the request it answers. *)
Lemma weight_resume f r w :
  wf_inflight (mk_inflight (req f) (kont f) (Some r)) ->
  wf_world w -> wf_world (resume (kont f) r w) /\
  total_weight (resume (kont f) r w) < total_weight w + weight f.
Proof.
  intros Hf Hw. split; [by apply wf_resume|].
  destruct f as [[uid|id] [|uid'] resp0]; simpl in Hf |- *; try contradiction;
    destruct r; try contradiction; unfold total_weight; simpl;
    try (unfold setUserServices; destruct (mounted w)); simpl;
    rewrite ?sum_list_with_app; cbn [weight req sum_list_with]; lia.
Qed.

Lemma drain_round w f rest :
  wf_world w -> pending w = f :: rest ->
  let w1 := match resp f with None => default w (dash_step w (EvServe 0 true)) | Some _ => w end in
  let w2 := default w1 (dash_step w1 (EvDeliver 0)) in
  wf_world w2 /\ total_weight w2 < total_weight w.
Proof.
  intros Hw Hp w1 w2. unfold wf_world in Hw. rewrite Hp in Hw. inversion Hw as [|? ? Hf Hrest]; subst.
  assert (exists r, pending w1 = mk_inflight (req f) (kont f) (Some r) :: rest /\
                    wf_inflight (mk_inflight (req f) (kont f) (Some r)) /\
                    total_weight w1 = total_weight w) as (r & Hp1 & Hf1 & Hw1).
  { subst w1. destruct (resp f) as [r|] eqn:Hr.
    - exists r. destruct f; simpl in *; subst. by split_and!.
    - rewrite (serve_head w f rest true Hp Hr). cbn [default].
      exists (serve (store w) (req f) true).2.
      split_and!; [done | exact (wf_serve f (store w) true Hf) |].
      unfold total_weight. simpl. rewrite Hp. by destruct f. }
  subst w2. rewrite (deliver_head w1 _ rest r Hp1 eq_refl). simpl.
  destruct (weight_resume (mk_inflight (req f) (kont f) (Some r)) r (set_pending rest w1)) as [Hwf Hlt];
    [done | done |].
  split; [done|]. unfold total_weight in *. rewrite Hp. cbn [sum_list_with].
  assert (weight (mk_inflight (req f) (kont f) (Some r)) = weight f) by (by destruct f).
  cbn [kont pending set_pending] in Hlt. lia.
Qed.

(** C7: Under a network that serves and delivers the oldest request
    first, every request settles.  From any world whose requests are well
    formed (every reachable world, by [reachable_wf]), draining the network settles
    all requests within [total_weight] rounds: a [getUserServices] takes
    one round and a [deleteService] at most two, its follow-up reload
    included. *)
Theorem drain_settles fuel w :
  wf_world w -> total_weight w <= fuel -> pending (drain fuel w) = [].
Proof.
  revert w. induction fuel as [|fuel IH]; intros w Hw Hle; cbn [drain].
  - destruct (pending w) as [|f rest] eqn:Hp; [done|].
    unfold total_weight in Hle. rewrite Hp in Hle. simpl in Hle. destruct f as [[] ? ?]; simpl in Hle; lia.
  - destruct (pending w) as [|f rest] eqn:Hp; [done|].
    destruct (drain_round w f rest Hw Hp) as [Hwf Hlt]. apply IH; [exact Hwf | lia].
Qed.

(** C18: The dashboard shows one card per service, with a working Delete
    and no-op View and Edit buttons.  When auth has settled on a user [u],
    the page greets [profile?.display_name || user.email] and renders one
    card per service in [userServices], keyed by its id, whose Delete
    button calls [handleDeleteService] with that id and whose View and
    Edit buttons have no handler; the empty state is shown exactly when
    there is no service. *)
Theorem dashboard_page_cards a profile w u :
  authLoading a = false -> user a = Some u ->
  exists cs empty,
    Dashboard_render a profile w =
      Page ("Welcome back, " +:+ welcome_name profile u) cs empty (showCreateDialog w) /\
    Forall2 (fun c s => card_key c = Service.id s /\ card_on_delete c = Some (Service.id s) /\
                        card_on_view c = None /\ card_on_edit c = None) cs (userServices w) /\
    (empty = true <-> userServices w = []).
Proof.
  intros Hl Hu. unfold Dashboard_render. rewrite Hl, Hu.
  eexists _, _. split; [reflexivity|]. split.
  - induction (userServices w); constructor; auto.
  - destruct (userServices w); simpl; split; congruence.
Qed.


(** C31: A dashboard that has been left still reloads after a delete, and
    drops the answer.  When the dashboard is unmounted (e.g. the sign-out
    redirect to [/login]) while a [deleteService] it sent has been served,
    delivering that answer still runs [loadUserServices()], which sends a
    new [getUserServices()]; serving and delivering it then changes
    nothing on the page, because [setUserServices] of an unmounted
    component is dropped.  No request is cancelled at teardown (spec 5). *)
Theorem unmounted_delete_still_reloads (w : world) (i : nat) (uid id : string) :
  mounted w = false ->
  pending w !! i = Some (mk_inflight (DeleteService id) (KReloadAfterDelete uid) (Some Deleted)) ->
  let k := length (delete i (pending w)) in
  exists w1 w2 w3,
    dash_step w (EvDeliver i) = Some w1 /\
    trace w1 = trace w ++ [Request (GetUserServices uid)] /\
    dash_step w1 (EvServe k true) = Some w2 /\
    dash_step w2 (EvDeliver k) = Some w3 /\
    mounted w3 = false /\ userServices w3 = userServices w /\ pending w3 = delete i (pending w).
Proof.
  intros Hm Hi k.
  set (g := mk_inflight (GetUserServices uid) KSetUserServices None).
  set (r := Services (store_user_services (store w) uid)).
  set (w1 := mk_world false (seen_auth w) (userServices w) (showCreateDialog w)
                      (delete i (pending w) ++ [g]) (store w) (trace w ++ [Request (GetUserServices uid)])).
  set (w2 := set_pending (<[k := mk_inflight (GetUserServices uid) KSetUserServices (Some r)]> (pending w1)) w1).
  assert (Hg : pending w1 !! k = Some g) by (simpl; rewrite lookup_app_r, Nat.sub_diag by lia; done).
  assert (Hk : (k < length (pending w1))%nat) by (simpl; rewrite length_app; simpl; lia).
  exists w1, w2, (set_pending (delete i (pending w)) w2). split_and!; try done.
  - cbn [dash_step]. rewrite Hi. simpl. unfold loadUserServices, issue, emit. by destruct w; simplify_eq/=.
  - cbn [dash_step]. rewrite Hg. reflexivity.
  - assert (Hg2 : pending w2 !! k = Some (mk_inflight (GetUserServices uid) KSetUserServices (Some r)))
      by (unfold w2; simpl; by apply list_lookup_insert_eq).
    cbn [dash_step]. rewrite Hg2. simpl. unfold setUserServices. simpl. do 2 f_equal.
    unfold w2, k. simpl. apply delete_insert_last.
Qed.


(** C32: A service created through the dialog is on the page after the
    reload.  On a dashboard showing the page of [u] with nothing in flight,
    when the create dialog has created a row of [u] and calls
    [onSuccess={loadUserServices}], the component sends exactly one
    [getUserServices()]; once it is served and delivered, the page shows
    the store's rows of [u], the new one last (spec 4.1: after a create the
    items reflect the new entity, here through an explicit reload). *)
Theorem dialog_created_shown (w : world) (u : User.t) (created : Service.t) :
  page_user w = Some u -> pending w = [] -> Service.user_id created = User.id u ->
  exists w', dash_run w [EvDialogSuccess created; EvServe 0 true; EvDeliver 0] = Some w' /\
    store w' = store_create (store w) created /\
    userServices w' = store_user_services (store w) (User.id u) ++ [created] /\
    pending w' = [] /\ trace w' = trace w ++ [Request (GetUserServices (User.id u))].
Proof.
  intros Hpu Hp Hown. destruct (page_user_Some w u Hpu) as (Hm & a & Ha & Hl & Hu).
  destruct w as [m sa us sd p st tr]; simpl in *; subst.
  exists (mk_world true (Some a) (store_user_services (store_create st created) (User.id u)) sd []
            (store_create st created) (tr ++ [Request (GetUserServices (User.id u))])).
  split; [simpl; rewrite Hpu, bool_decide_true by done; reflexivity |].
  simpl. split_and!; try done. by apply store_user_services_create.
Qed.

(** ** Witnesses *)

Lemma demo_loaded_page_user : page_user demo_loaded = Some demo_user.
Proof. reflexivity. Qed.

Lemma delete_confirmed_reloads_witness :
  exists w', dash_run demo_loaded [EvClickDelete "s-1" true; EvServe 0 true; EvDeliver 0;
                                   EvServe 0 true; EvDeliver 0] = Some w' /\
    userServices w' = store_user_services (store_delete (store demo_loaded) "s-1") "u-1" /\
    ("s-1" ∉ (Service.id <$> userServices w')) /\
    pending w' = [] /\ store w' = store_delete (store demo_loaded) "s-1" /\
    trace w' = trace demo_loaded ++ [ConfirmPrompt confirm_msg; Request (DeleteService "s-1");
                                    Request (GetUserServices "u-1")].
Proof.
  apply (delete_confirmed_reloads demo_loaded demo_user "s-1");
    [reflexivity | vm_compute; set_solver | reflexivity].
Defined.

Lemma delete_declined_noop_witness :
  exists w', dash_step demo_loaded (EvClickDelete "s-2" false) = Some w' /\
    userServices w' = userServices demo_loaded /\ pending w' = pending demo_loaded /\
    store w' = store demo_loaded /\ trace w' = trace demo_loaded ++ [ConfirmPrompt confirm_msg].
Proof. apply (delete_declined_noop demo_loaded demo_user "s-2"); [reflexivity | vm_compute; set_solver]. Defined.

(** Deleting ["s-1"] of the loaded demo page, then the reload, fail in
    turn: ["s-1"] is still on the page after the store has dropped it. *)
Lemma delete_failures_keep_list_witness :
  dash_run demo_loaded [EvClickDelete "s-1" true; EvServe 0 true; EvDeliver 0; EvServe 0 false; EvDeliver 0] =
    Some (mk_world true (Some demo_auth) demo_rows false [] [demo_service "s-2"]
            (trace demo_loaded ++ [ConfirmPrompt confirm_msg; Request (DeleteService "s-1");
                                   Request (GetUserServices "u-1")])).
Proof.
  destruct (delete_failures_keep_list demo_loaded demo_user "s-1") as [_ H];
    [reflexivity | vm_compute; set_solver | reflexivity | rewrite H; vm_compute; reflexivity].
Defined.

Lemma signed_out_redirects_witness :
  exists w', dash_step (mount (mk_auth None true) demo_rows) (EvAuth (mk_auth None false)) = Some w' /\
    trace w' = trace (mount (mk_auth None true) demo_rows) ++ [Navigate "/login"] /\
    mounted w' = false /\ pending w' = pending (mount (mk_auth None true) demo_rows) /\
    Dashboard_render (mk_auth None false) None w' = Nothing.
Proof.
  apply (signed_out_redirects _ (mk_auth None true)); [reflexivity | reflexivity | discriminate].
Defined.

Lemma sign_in_loads_once_witness :
  exists w', dash_step (mount (mk_auth None true) demo_rows) (EvAuth demo_auth) = Some w' /\
    trace w' = trace (mount (mk_auth None true) demo_rows) ++ [Request (GetUserServices "u-1")] /\
    pending w' = pending (mount (mk_auth None true) demo_rows) ++
                 [mk_inflight (GetUserServices "u-1") KSetUserServices None] /\
    dash_step w' (EvAuth demo_auth) = Some w'.
Proof.
  apply (sign_in_loads_once _ (mk_auth None true) demo_user); [reflexivity | reflexivity | discriminate].
Defined.

Lemma double_delete_two_requests_witness :
  exists w', dash_run demo_loaded [EvClickDelete "s-1" true; EvClickDelete "s-1" true] = Some w' /\
    trace w' = trace demo_loaded ++ [ConfirmPrompt confirm_msg; Request (DeleteService "s-1");
                                     ConfirmPrompt confirm_msg; Request (DeleteService "s-1")] /\
    pending w' = pending demo_loaded ++
      [mk_inflight (DeleteService "s-1") (KReloadAfterDelete "u-1") None;
       mk_inflight (DeleteService "s-1") (KReloadAfterDelete "u-1") None].
Proof.
  apply (double_delete_two_requests demo_loaded demo_user "s-1"); [reflexivity | vm_compute; set_solver].
Defined.

Lemma drain_settles_witness :
  pending (drain 4 (default demo_loaded (dash_run demo_loaded [EvClickDelete "s-1" true; EvDialogSuccess (demo_service "s-3")]))) = [].
Proof. apply drain_settles; [vm_compute; repeat constructor | vm_compute; lia]. Defined.

Lemma dashboard_page_cards_witness :
  exists cs empty,
    Dashboard_render demo_auth None demo_loaded =
      Page ("Welcome back, " +:+ welcome_name None demo_user) cs empty (showCreateDialog demo_loaded) /\
    Forall2 (fun c s => card_key c = Service.id s /\ card_on_delete c = Some (Service.id s) /\
                        card_on_view c = None /\ card_on_edit c = None) cs (userServices demo_loaded) /\
    (empty = true <-> userServices demo_loaded = []).
Proof. apply (dashboard_page_cards demo_auth None demo_loaded demo_user); reflexivity. Defined.

(** Signed out while the delete of ["s-1"] is served but not delivered:
    the left page still sends [getUserServices()]. *)
Lemma unmounted_delete_still_reloads_witness :
  exists w1 w2 w3,
    dash_step demo_signed_out (EvDeliver 0) = Some w1 /\
    trace w1 = trace demo_signed_out ++ [Request (GetUserServices "u-1")] /\
    dash_step w1 (EvServe 0 true) = Some w2 /\
    dash_step w2 (EvDeliver 0) = Some w3 /\
    mounted w3 = false /\ userServices w3 = userServices demo_signed_out /\ pending w3 = [].
Proof.
  apply (unmounted_delete_still_reloads demo_signed_out 0 "u-1" "s-1"); vm_compute; reflexivity.
Defined.

(** Creating ["s-3"] on the loaded demo page: it is shown after the reload. *)
Lemma dialog_created_shown_witness :
  exists w', dash_run demo_loaded [EvDialogSuccess (demo_service "s-3"); EvServe 0 true; EvDeliver 0] = Some w' /\
    store w' = store_create (store demo_loaded) (demo_service "s-3") /\
    userServices w' = store_user_services (store demo_loaded) "u-1" ++ [demo_service "s-3"] /\
    pending w' = [] /\ trace w' = trace demo_loaded ++ [Request (GetUserServices "u-1")].
Proof. apply (dialog_created_shown demo_loaded demo_user); reflexivity. Defined.

End Dashboard.
