(* ===== verification/DashboardSpec.v ===== *)
(** * DashboardSpec: the dashboard against the spec's sequential contract

    Spec section 4.3 describes the dashboard as a sequential CRUD view: a
    declined confirmation does nothing; a confirmed delete removes the
    service and then reloads, so that the view shows the remote rows of the
    user again; the create dialog's success reloads.  [spec_step] is that
    contract as an abstract machine over the remote rows and the rows shown,
    with the effects each action performs.

    The component ([Dashboard.dash_step]) is asynchronous, and C5 shows that
    with responses in any order it does not meet the contract.  Under a
    serial scheduler, where each user action is followed by a network that
    serves and delivers every request in order ([Dashboard.drain]) before
    the next action, it does: [serial_step] simulates [spec_step] step by
    step (the relation [sync] is preserved, the effects are the same), and
    consequently a deleted service never comes back. *)

From S2P Require Import Prelude Entities Dashboard.
Import Dashboard.

Module DashboardSpec.

(** The abstract page of one user: the remote rows, the rows shown, and
    whether the create dialog is open. *)
Record spec_state := mk_spec {
  s_store : list Service.t;
  s_shown : list Service.t;
  s_dialog : bool
}.

(** The user's actions on the page. *)
Inductive action :=
| ADelete (id : string) (confirmed : bool)
| AOpenDialog
| ADialogOpenChange (b : bool)
| ADialogSuccess (created : Service.t).

Definition to_event (act : action) : event :=
  match act with
  | ADelete id confirmed => EvClickDelete id confirmed
  | AOpenDialog => EvOpenDialog
  | ADialogOpenChange b => EvDialogOpenChange b
  | ADialogSuccess created => EvDialogSuccess created
  end.

(** The contract: each action, with its effects, as one atomic step. *)
Definition spec_step (uid : string) (s : spec_state) (act : action) : option (spec_state * list effect) :=
  match act with
  | ADelete id confirmed =>
      if bool_decide (id ∈ Service.id <$> s_shown s) then
        if confirmed then
          let rows := store_delete (s_store s) id in
          Some (mk_spec rows (store_user_services rows uid) (s_dialog s),
                [ConfirmPrompt confirm_msg; Request (DeleteService id); Request (GetUserServices uid)])
        else Some (s, [ConfirmPrompt confirm_msg])
      else None
  | AOpenDialog => Some (mk_spec (s_store s) (s_shown s) true, [])
  | ADialogOpenChange b => Some (mk_spec (s_store s) (s_shown s) b, [])
  | ADialogSuccess created =>
      if bool_decide (Service.user_id created = uid) then
        let rows := store_create (s_store s) created in
        Some (mk_spec rows (store_user_services rows uid) (s_dialog s), [Request (GetUserServices uid)])
      else None
  end.

Fixpoint spec_run (uid : string) (s : spec_state) (acts : list action) : option (spec_state * list effect) :=
  match acts with
  | [] => Some (s, [])
  | act :: acts' =>
      '(s1, e1) ← spec_step uid s act;
      '(s2, e2) ← spec_run uid s1 acts';
      Some (s2, e1 ++ e2)
  end.

(** The serial scheduler: an action, then the in-order network until
    nothing is in flight. *)
Definition serial_step (w : world) (act : action) : option world :=
  w' ← dash_step w (to_event act); Some (drain (total_weight w') w').

Fixpoint serial_run (w : world) (acts : list action) : option world :=
  match acts with
  | [] => Some w
  | act :: acts' => w' ← serial_step w act; serial_run w' acts'
  end.

(** Whether an action is the dialog creating a row with id [id]. *)
Definition creates_id (id : string) (act : action) : Prop :=
  match act with ADialogSuccess c => Service.id c = id | _ => False end.

(** The component shows the page of [u] and agrees with the abstract page. *)
Definition sync (u : User.t) (w : world) (s : spec_state) : Prop :=
  page_user w = Some u /\ pending w = [] /\ store w = s_store s /\
  userServices w = s_shown s /\ showCreateDialog w = s_dialog s.

(** ** Lemmas *)

Lemma spec_run_cons uid s act acts :
  spec_run uid s (act :: acts) =
    '(s1, e1) ← spec_step uid s act; '(s2, e2) ← spec_run uid s1 acts; Some (s2, e1 ++ e2).
Proof. reflexivity. Qed.

(** The refinement of one action, as a function of the abstract outcome. *)
Definition step_refines (u : User.t) (w : world) (s : spec_state) (act : action) : Prop :=
  match spec_step (User.id u) s act with
  | Some (s', effs) => exists w', serial_step w act = Some w' /\ sync u w' s' /\ trace w' = trace w ++ effs
  | None => serial_step w act = None
  end.

Lemma serial_step_sync u w s act : sync u w s -> step_refines u w s act.
Proof.
  intros (Hpu & Hp & Hst & Hsh & Hd). unfold step_refines, serial_step.
  destruct (page_user_Some w u Hpu) as (Hm & a & Ha & Hl & Hu).
  destruct act as [id [|] | | b | c]; cbn [spec_step to_event dash_step]; rewrite ?Hpu, ?Hsh;
    [case_bool_decide; [|done].. | | | case_bool_decide; [|done]]; eexists; (split; [reflexivity|]);
    destruct w as [m sa us sd p st tr], s as [sst ssh sdl]; simpl in *; subst;
    unfold sync; simpl; rewrite ?Hl, ?Hu; split_and!; try done;
    rewrite ?app_nil_r; by rewrite <- ?app_assoc.
Qed.

(** The simulation of whole runs. *)
Lemma serial_run_sync u acts : forall w s,
  sync u w s ->
  match spec_run (User.id u) s acts with
  | Some (s', effs) => exists w', serial_run w acts = Some w' /\ sync u w' s' /\ trace w' = trace w ++ effs
  | None => serial_run w acts = None
  end.
Proof.
  induction acts as [|act acts IH]; intros w s Hsync.
  - exists w. by rewrite app_nil_r.
  - pose proof (serial_step_sync u w s act Hsync) as Hstep. unfold step_refines in Hstep.
    rewrite spec_run_cons. cbn [serial_run].
    destruct (spec_step _ s act) as [[s1 e1]|]; cbn [mbind option_bind]; [|by rewrite Hstep].
    destruct Hstep as (w1 & -> & Hs1 & Ht1). cbn [mbind option_bind].
    specialize (IH w1 s1 Hs1). destruct (spec_run _ s1 acts) as [[s2 e2]|]; [|done].
    destruct IH as (w2 & Hrun & Hs2 & Ht2). exists w2. split_and!; [done | done |].
    by rewrite Ht2, Ht1, app_assoc.
Qed.

(** The contract never brings a deleted id back: rows only disappear. *)
Definition id_absent (id : string) (s : spec_state) : Prop :=
  (id ∉ (Service.id <$> s_store s)) /\ (id ∉ (Service.id <$> s_shown s)).

Lemma id_absent_user_services id rows uid :
  id ∉ (Service.id <$> rows) -> id ∉ (Service.id <$> store_user_services rows uid).
Proof.
  intros Hn Hin. apply Hn. apply list_elem_of_fmap in Hin as (x & -> & Hx).
  apply list_elem_of_fmap. exists x. split; [done|]. by apply list_elem_of_filter in Hx as [_ ?].
Qed.

Lemma id_absent_store_delete id id' rows :
  id ∉ (Service.id <$> rows) -> id ∉ (Service.id <$> store_delete rows id').
Proof.
  intros Hn Hin. apply Hn. apply list_elem_of_fmap in Hin as (x & -> & Hx).
  apply list_elem_of_fmap. exists x. split; [done|]. by apply list_elem_of_filter in Hx as [_ ?].
Qed.

Lemma id_absent_store_create id rows c :
  id ∉ (Service.id <$> rows) -> Service.id c <> id -> id ∉ (Service.id <$> store_create rows c).
Proof.
  intros Hn Hc. unfold store_create. rewrite fmap_app. simpl. set_solver.
Qed.

Lemma spec_step_id_absent uid id s act s' e :
  ~ creates_id id act -> id_absent id s -> spec_step uid s act = Some (s', e) -> id_absent id s'.
Proof.
  intros Hcr [Hst Hsh] Hstep. destruct act as [id' [|] | | b | c]; simpl in Hstep;
    repeat case_match; simplify_eq; unfold id_absent; simpl; try done;
    split; try done; auto using id_absent_user_services, id_absent_store_delete.
  - by apply id_absent_store_create.
  - by apply id_absent_user_services, id_absent_store_create.
Qed.

Lemma spec_run_id_absent uid id acts : forall s s' e,
  Forall (fun act => ~ creates_id id act) acts ->
  id_absent id s -> spec_run uid s acts = Some (s', e) -> id_absent id s'.
Proof.
  induction acts as [|act acts IH]; intros s s' e Hcr Ha Hrun; simpl in Hrun; [by simplify_eq|].
  inversion Hcr as [|? ? Hact Hcr']; subst.
  destruct (spec_step uid s act) as [[s1 e1]|] eqn:Hs; [|done]. cbn [mbind option_bind] in Hrun.
  destruct (spec_run uid s1 acts) as [[s2 e2]|] eqn:Hr; [|done].
  cbn [mbind option_bind] in Hrun. simplify_eq.
  eapply IH; [exact Hcr' | eapply spec_step_id_absent; [exact Hact | exact Ha | exact Hs] | exact Hr].
Qed.

Lemma spec_delete_absent uid s id s' e :
  spec_step uid s (ADelete id true) = Some (s', e) -> id_absent id s'.
Proof.
  simpl. case_bool_decide; [|done]. intros [= <- _]. split; simpl.
  - intros Hin. apply list_elem_of_fmap in Hin as (x & -> & Hx).
    by apply list_elem_of_filter in Hx as [? _].
  - apply store_user_services_deleted.
Qed.

Lemma spec_run_app uid s acts1 acts2 :
  spec_run uid s (acts1 ++ acts2) =
    '(s1, e1) ← spec_run uid s acts1; '(s2, e2) ← spec_run uid s1 acts2; Some (s2, e1 ++ e2).
Proof.
  revert s. induction acts1 as [|act acts1 IH]; intros s; simpl.
  - by destruct (spec_run uid s acts2) as [[]|].
  - destruct (spec_step uid s act) as [[s1 e1]|]; [|done]. cbn [mbind option_bind]. rewrite IH.
    destruct (spec_run uid s1 acts1) as [[s2 e2]|]; [|done]. cbn [mbind option_bind].
    destruct (spec_run uid s2 acts2) as [[s3 e3]|]; [|done]. simpl. by rewrite app_assoc.
Qed.

(** A confirmed delete anywhere in a run of the contract leaves its id out
    of the rows and of the page. *)
Lemma spec_run_after_delete uid s acts1 id acts2 s' e :
  Forall (fun act => ~ creates_id id act) acts2 ->
  spec_run uid s (acts1 ++ ADelete id true :: acts2) = Some (s', e) -> id_absent id s'.
Proof.
  intros Hcr. rewrite spec_run_app. destruct (spec_run uid s acts1) as [[s1 e1]|]; [|done].
  cbn [mbind option_bind]. rewrite spec_run_cons.
  destruct (spec_step uid s1 (ADelete id true)) as [[s2 e2]|] eqn:Hdel; [|done]. cbn [mbind option_bind].
  destruct (spec_run uid s2 acts2) as [[s3 e3]|] eqn:Hr; [|done]. cbn [mbind option_bind].
  intros [= <- _]. eapply spec_run_id_absent; [exact Hcr | eapply spec_delete_absent, Hdel | exact Hr].
Qed.

(** ** Properties *)

(** C21: Under a serial network the dashboard refines the spec's
    sequential contract.  If the component shows the page of [u] and
    agrees with an abstract page [s] ([sync]), then for every sequence of
    user actions (delete with the answer to the prompt, the create
    dialog's open/close and success), each followed by the in-order
    network until nothing is in flight: when the contract accepts the
    sequence, the component reaches a world that agrees with the
    contract's final page and has performed exactly the contract's
    effects; when the contract rejects it (a delete of an id not shown),
    so does the component. *)
Theorem serial_run_refines_spec (u : User.t) (w : world) (s : spec_state) (acts : list action) :
  sync u w s ->
  (forall s' effs, spec_run (User.id u) s acts = Some (s', effs) ->
     exists w', serial_run w acts = Some w' /\ sync u w' s' /\ trace w' = trace w ++ effs) /\
  (spec_run (User.id u) s acts = None -> serial_run w acts = None).
Proof.
  intros Hsync. pose proof (serial_run_sync u acts w s Hsync) as Hsim.
  split; [intros s' effs Hrun | intros Hrun]; by rewrite Hrun in Hsim.
Qed.

(** C22: Under a serial network a deleted service never comes back.  From
    a page in agreement with the contract, after any run in which service
    [id] was deleted (a confirmed delete, followed by any further actions
    none of which is the dialog creating a row with that same id), neither
    the page nor the remote rows contain [id]; compare C5, where responses
    arrive out of order. *)
Theorem serial_deleted_stays_deleted (u : User.t) (w : world) (s : spec_state) acts1 id acts2 w' :
  sync u w s -> Forall (fun act => ~ creates_id id act) acts2 ->
  serial_run w (acts1 ++ ADelete id true :: acts2) = Some w' ->
  (id ∉ (Service.id <$> userServices w')) /\ (id ∉ (Service.id <$> store w')).
Proof.
  intros Hsync Hcr Hrun. pose proof (serial_run_sync u (acts1 ++ ADelete id true :: acts2) w s Hsync) as Hsim.
  destruct (spec_run _ s _) as [[s' e]|] eqn:Hspec; [|congruence].
  destruct Hsim as (w'' & Hrun' & (_ & _ & Hst & Hsh & _) & _). rewrite Hrun in Hrun'. simplify_eq.
  destruct (spec_run_after_delete _ _ _ _ _ _ _ Hcr Hspec) as [Hs1 Hs2]. by rewrite Hsh, Hst.
Qed.

(** ** Witnesses *)

Definition demo_spec : spec_state := mk_spec demo_rows (store_user_services demo_rows "u-1") false.

Lemma demo_sync : sync demo_user demo_loaded demo_spec.
Proof. unfold sync. split_and!; [apply demo_loaded_page_user | reflexivity..]. Qed.

Lemma serial_run_refines_spec_witness :
  exists w', serial_run demo_loaded [ADelete "s-1" true; AOpenDialog] = Some w' /\
    sync demo_user w' (mk_spec (store_delete demo_rows "s-1")
                          (store_user_services (store_delete demo_rows "s-1") "u-1") true) /\
    trace w' = trace demo_loaded ++ [ConfirmPrompt confirm_msg; Request (DeleteService "s-1");
                                     Request (GetUserServices "u-1")].
Proof.
  apply (proj1 (serial_run_refines_spec demo_user demo_loaded demo_spec
                  [ADelete "s-1" true; AOpenDialog] demo_sync)).
  reflexivity.
Defined.

Lemma serial_deleted_stays_deleted_witness :
  exists w', serial_run demo_loaded ([] ++ ADelete "s-1" true :: [ADialogSuccess (demo_service "s-3")]) = Some w' /\
    ("s-1" ∉ (Service.id <$> userServices w')) /\ ("s-1" ∉ (Service.id <$> store w')).
Proof.
  set (acts := [] ++ ADelete "s-1" true :: [ADialogSuccess (demo_service "s-3")]).
  set (w' := default demo_loaded (serial_run demo_loaded acts)).
  assert (Hrun : serial_run demo_loaded acts = Some w') by (vm_compute; reflexivity).
  exists w'. split; [exact Hrun|].
  exact (serial_deleted_stays_deleted demo_user demo_loaded demo_spec [] "s-1" [ADialogSuccess (demo_service "s-3")] w'
           demo_sync ltac:(repeat constructor; cbn; discriminate) Hrun).
Defined.

End DashboardSpec.
