(* ===== verification/DashboardOrder.v ===== *)
(** * DashboardOrder: in-order delivery is enough for a consistent dashboard

    C5 shows that the dashboard can end with a deleted service on screen
    when a stale [getUserServices] response is delivered after the reload
    that follows a deletion.  This file shows that the order of delivery
    is the whole problem: on a network that never fails and delivers the
    responses in the order the requests were sent ([EvDeliver 0] only),
    however the store interleaves serving them, every settled dashboard
    shows only rows the store still has.

    The proof is an invariant of the worlds reachable on such a network:
    every row that is shown, or carried by a pending response, but is no
    longer in the store has a pending request that will replace it, namely
    a [deleteService] anywhere in the queue (its delivery appends a reload
    at the end), or a later [getUserServices] that is unserved or whose
    response lacks the row. *)

From S2P Require Import Prelude Entities Dashboard.
Import Dashboard.

Module DashboardOrder.

(** The events of a network that never fails and delivers in order. *)
Definition in_order_event (ev : event) : bool :=
  match ev with
  | EvServe _ ok => ok
  | EvDeliver i => Nat.eqb i 0
  | _ => true
  end.

Definition ordered_rel (w w' : world) : Prop :=
  exists ev, in_order_event ev = true /\ dash_step w ev = Some w'.

Definition ordered_reachable (a : auth) (rows : list Service.t) (w : world) : Prop :=
  rtc ordered_rel (mount a rows) w.

(** A pending [deleteService] that has not failed. *)
Definition del_fix (f : inflight) : Prop :=
  match req f, resp f with
  | DeleteService _, Some Failed => False
  | DeleteService _, _ => True
  | _, _ => False
  end.

(** A pending [getUserServices] whose delivery will not show [x]. *)
Definition get_fix (x : Service.t) (f : inflight) : Prop :=
  match req f, resp f with
  | GetUserServices _, None => True
  | GetUserServices _, Some (Services r) => x ∉ r
  | _, _ => False
  end.

Definition fixes (x : Service.t) (f : inflight) : Prop := del_fix f \/ get_fix x f.

(** A response carrying row [x]. *)
Definition carries (x : Service.t) (f : inflight) : Prop :=
  match resp f with Some (Services r) => x ∈ r | _ => False end.

Definition obligations (w : world) : Prop :=
  forall x, x ∉ store w ->
    (mounted w = true -> x ∈ userServices w -> Exists (fixes x) (pending w)) /\
    (forall i f, pending w !! i = Some f -> carries x f ->
       exists j g, pending w !! j = Some g /\ (del_fix g \/ (i < j)%nat /\ get_fix x g)).

Definition no_failure (w : world) : Prop :=
  Forall (fun f => resp f <> Some Failed) (pending w).

Definition consistent (w : world) : Prop := wf_world w /\ no_failure w /\ obligations w.

(** The operations that only add rows to the store, keep the rows shown,
    may unmount the page, and only append fresh requests. *)
Definition frame (w w' : world) : Prop :=
  (forall x, x ∈ store w -> x ∈ store w') /\ userServices w' = userServices w /\
  (mounted w' = true -> mounted w = true) /\
  exists extra, pending w' = pending w ++ extra /\ Forall (fun f => resp f = None) extra.

(** ** Lemmas *)

(** Operations that only add rows to the store, keep the rows shown, may
    unmount, and only append fresh requests keep the obligations. *)
Lemma obligations_frame w w' extra :
  (forall x, x ∈ store w -> x ∈ store w') -> userServices w' = userServices w ->
  (mounted w' = true -> mounted w = true) -> pending w' = pending w ++ extra ->
  Forall (fun f => resp f = None) extra ->
  obligations w -> obligations w'.
Proof.
  intros Hst Hsh Hm Hp Hextra Hob x Hx'. assert (Hx : x ∉ store w) by (intros Hin; by apply Hx', Hst).
  destruct (Hob x Hx) as [Hshown Hcar]. rewrite Hp, Hsh. split.
  - intros Hm' Hin. apply Exists_app. left. apply Hshown; [by apply Hm | done].
  - intros i f Hi Hc. apply lookup_app_Some in Hi as [Hi | [Hlen Hi]].
    + destruct (Hcar i f Hi Hc) as (j & g & Hj & Hg). exists j, g. split; [by apply lookup_app_l_Some|done].
    + apply (Forall_lookup_1 _ _ _ _ Hextra) in Hi. unfold carries in Hc. by rewrite Hi in Hc.
Qed.

Lemma frame_refl w : frame w w.
Proof. split_and!; [done..|]. exists []. by rewrite app_nil_r. Qed.

Lemma frame_trans w1 w2 w3 : frame w1 w2 -> frame w2 w3 -> frame w1 w3.
Proof.
  intros (H1 & H2 & H3 & e1 & Hp1 & He1) (H1' & H2' & H3' & e2 & Hp2 & He2).
  split_and!; [auto | congruence | auto |]. exists (e1 ++ e2).
  rewrite Hp2, Hp1, app_assoc. split; [done | by apply Forall_app].
Qed.

Lemma frame_emit e w : frame w (emit e w).
Proof. split_and!; [done..|]. exists []. by rewrite app_nil_r. Qed.

Lemma frame_issue r k w : frame w (issue r k w).
Proof. split_and!; [done..|]. exists [mk_inflight r k None]. split; [done | by repeat constructor]. Qed.

Lemma frame_loadUserServices uid w : frame w (loadUserServices uid w).
Proof. apply frame_issue. Qed.

Lemma frame_set_seen_auth a w : frame w (set_seen_auth a w).
Proof. split_and!; [done..|]. exists []. by rewrite app_nil_r. Qed.

Lemma frame_set_showCreateDialog b w : frame w (set_showCreateDialog b w).
Proof. split_and!; [done..|]. exists []. by rewrite app_nil_r. Qed.

Lemma frame_unmount w : frame w (set_mounted false w).
Proof. split_and!; [done | done | done |]. exists []. by rewrite app_nil_r. Qed.

(** The create dialog adds a row to the store. *)
Lemma frame_set_store_create c w : frame w (set_store (store_create (store w) c) w).
Proof.
  split_and!; [| done | done |].
  - intros x Hx. unfold store_create. simpl. set_solver.
  - exists []. by rewrite app_nil_r.
Qed.

#[local] Hint Resolve frame_refl frame_emit frame_issue frame_loadUserServices frame_set_seen_auth
  frame_set_showCreateDialog frame_unmount : bizconnect.

Lemma frame_redirect_effect a w : frame w (redirect_effect a w).
Proof.
  unfold redirect_effect. case_match; [|apply frame_refl].
  eapply frame_trans; [apply frame_emit | apply frame_unmount].
Qed.

Lemma frame_load_effect a w : frame w (load_effect a w).
Proof. unfold load_effect. case_match; [apply frame_loadUserServices | apply frame_refl]. Qed.

Lemma frame_commit a w : frame w (commit a w).
Proof.
  assert (H1 : frame w (if bool_decide (seen_auth w = Some a) then set_seen_auth a w
                         else redirect_effect a (set_seen_auth a w))).
  { case_match; [apply frame_set_seen_auth|].
    eapply frame_trans; [apply frame_set_seen_auth | apply frame_redirect_effect]. }
  unfold commit. destruct (bool_decide (option_map user (seen_auth w) = Some (user a))); [exact H1|].
  eapply frame_trans; [exact H1 | apply frame_load_effect].
Qed.

Lemma frame_handleDeleteService uid id confirmed w : frame w (handleDeleteService uid id confirmed w).
Proof.
  unfold handleDeleteService. destruct confirmed; [eapply frame_trans; [apply frame_emit | apply frame_issue]|].
  apply frame_emit.
Qed.

Lemma frame_obligations w w' : frame w w' -> obligations w -> obligations w'.
Proof. intros (Hst & Hsh & Hm & extra & Hp & He). by apply obligations_frame with (extra := extra). Qed.

Lemma frame_no_failure w w' : frame w w' -> no_failure w -> no_failure w'.
Proof.
  intros (_ & _ & _ & extra & Hp & He) Hnf. unfold no_failure. rewrite Hp. apply Forall_app. split; [done|].
  eapply Forall_impl; [exact He | by intros f ->].
Qed.

Lemma Exists_lookup {A} (P : A -> Prop) (l : list A) :
  Exists P l <-> exists k y, l !! k = Some y /\ P y.
Proof.
  rewrite Exists_exists. split.
  - intros (y & Hy & HP). apply list_elem_of_lookup in Hy as [k Hk]. by exists k, y.
  - intros (k & y & Hk & HP). exists y. split; [by eapply list_elem_of_lookup_2 | done].
Qed.

(** Replacing the request at [i] by [e]: [e] carries no row the new store
    lacks, keeps the role of the old request for rows already absent, and
    fixes (as a deletion) the rows that have just disappeared. *)
Lemma obligations_replace w w' i f e :
  pending w !! i = Some f -> pending w' = <[i := e]> (pending w) ->
  userServices w' = userServices w -> mounted w' = mounted w ->
  (forall x, x ∉ store w' -> ~ carries x e) ->
  (forall x, x ∉ store w' -> x ∉ store w -> (del_fix f -> del_fix e) /\ (get_fix x f -> get_fix x e)) ->
  (forall x, x ∉ store w' -> x ∈ store w -> del_fix e) ->
  obligations w -> obligations w'.
Proof.
  intros Hf Hp Hsh Hm Hnc Hpres Hnew Hob x Hx.
  assert (Hie : pending w' !! i = Some e) by (rewrite Hp; apply list_lookup_insert_eq; by eapply lookup_lt_Some).
  assert (Hne : forall k, k <> i -> pending w' !! k = pending w !! k)
    by (intros k Hk; rewrite Hp; by apply list_lookup_insert_ne).
  destruct (decide (x ∈ store w)) as [Hin | Hout].
  - split.
    + intros _ _. apply Exists_lookup. exists i, e. split; [done | left; by eapply Hnew].
    + intros i0 f0 _ _. exists i, e. split; [done | left; by eapply Hnew].
  - destruct (Hob x Hout) as [Hshown Hcar]. destruct (Hpres x Hx Hout) as [Hdel Hget]. split.
    + intros Hm' Hin'. rewrite Hm in Hm'. rewrite Hsh in Hin'.
      apply Exists_lookup in Hshown as (k & g & Hk & Hg); [|done..].
      apply Exists_lookup. destruct (decide (k = i)) as [-> | Hki].
      * rewrite Hf in Hk. injection Hk as <-. exists i, e. split; [done|].
        destruct Hg; [left; auto | right; auto].
      * exists k, g. split; [by rewrite Hne | done].
    + intros i0 f0 Hi0 Hc. destruct (decide (i0 = i)) as [-> | Hi0i].
      { rewrite Hie in Hi0. injection Hi0 as <-. by destruct (Hnc x Hx Hc). }
      rewrite Hne in Hi0 by done. destruct (Hcar i0 f0 Hi0 Hc) as (j & g & Hj & Hg).
      destruct (decide (j = i)) as [-> | Hji].
      * rewrite Hf in Hj. injection Hj as <-. exists i, e. split; [done|].
        destruct Hg as [? | [? ?]]; [left; auto | right; auto].
      * exists j, g. split; [by rewrite Hne | done].
Qed.

Lemma store_user_services_sub x rows uid : x ∈ store_user_services rows uid -> x ∈ rows.
Proof. unfold store_user_services. intros Hx. by apply list_elem_of_filter in Hx as [_ ?]. Qed.

Lemma store_delete_absent x rows id : x ∉ store_delete rows id -> x ∈ rows -> Service.id x = id.
Proof.
  intros Hx Hin. destruct (decide (Service.id x = id)) as [|Hne]; [done|].
  exfalso. apply Hx. unfold store_delete. by apply list_elem_of_filter.
Qed.

(** Serving a request successfully keeps the obligations. *)
Lemma obligations_serve w i f :
  pending w !! i = Some f -> resp f = None -> obligations w ->
  obligations (set_pending (<[i := mk_inflight (req f) (kont f) (Some (serve (store w) (req f) true).2)]>
                              (pending w))
                           (set_store (serve (store w) (req f) true).1 w)).
Proof.
  intros Hf Hr. eapply obligations_replace; [exact Hf | done | done | done | | |];
    destruct f as [[uid | id] k r0]; simpl in Hr |- *; subst r0; unfold carries, del_fix, get_fix; simpl.
  - intros x Hx Hc. apply store_user_services_sub in Hc. by apply Hx.
  - naive_solver.
  - intros x Hx Hnx. split; [done|]. intros _ Hc. apply store_user_services_sub in Hc. by apply Hnx.
  - naive_solver.
  - intros x Hx Hin. by apply Hx in Hin.
  - naive_solver.
Qed.

(** Delivering the oldest response keeps the obligations. *)
Lemma obligations_deliver w f rest r :
  pending w = f :: rest -> resp f = Some r -> wf_inflight f -> r <> Failed ->
  obligations w -> obligations (resume (kont f) r (set_pending rest w)).
Proof.
  intros Hp Hr Hwf Hnf Hob x Hx.
  destruct f as [[uid | id] [|uid'] r0]; simpl in Hr, Hwf; subst r0; try contradiction;
    destruct r as [l| |]; try contradiction; try congruence; cbn [resume kont] in Hx |- *.
  - (* a list of services: it is shown, and its fixers follow it *)
    assert (Hst : store (setUserServices l (set_pending rest w)) = store w)
      by (unfold setUserServices; simpl; destruct (mounted w); reflexivity).
    rewrite Hst in Hx. destruct (Hob x Hx) as [Hshown Hcar]. rewrite Hp in Hcar.
    assert (Hlater : forall i0 f0, (mk_inflight (GetUserServices uid) KSetUserServices (Some (Services l)) :: rest) !! i0 = Some f0 ->
              carries x f0 -> exists j g, rest !! j = Some g /\ (del_fix g \/ (i0 <= j)%nat /\ get_fix x g)).
    { intros i0 f0 Hi0 Hc. destruct (Hcar i0 f0 Hi0 Hc) as ([|j] & g & Hj & Hg).
      - simpl in Hj. injection Hj as <-. destruct Hg as [Hd | [Hlt _]]; [done | lia].
      - exists j, g. split; [done|]. destruct Hg as [? | [? ?]]; [by left | right; split; [lia | done]]. }
    unfold setUserServices. simpl. destruct (mounted w) eqn:Em; simpl; split.
    + intros _ Hin. destruct (Hlater 0 _ eq_refl Hin) as (j & g & Hj & Hg).
      apply Exists_lookup. exists j, g. split; [done|]. destruct Hg as [? | [_ ?]]; [by left | by right].
    + intros i0 f0 Hi0 Hc. destruct (Hlater (S i0) f0 Hi0 Hc) as (j & g & Hj & Hg).
      exists j, g. split; [done|]. destruct Hg as [? | [? ?]]; [by left | right; split; [lia | done]].
    + intros Hm; congruence.
    + intros i0 f0 Hi0 Hc. destruct (Hlater (S i0) f0 Hi0 Hc) as (j & g & Hj & Hg).
      exists j, g. split; [done|]. destruct Hg as [? | [? ?]]; [by left | right; split; [lia | done]].
  - (* a deletion: the reload appended at the end fixes everything *)
    set (g := mk_inflight (GetUserServices uid') KSetUserServices None).
    assert (Hg : get_fix x g) by done.
    cbn [loadUserServices issue emit set_pending store userServices mounted pending] in *. split.
    + intros _ _. apply Exists_app. right. by constructor; right.
    + intros i0 f0 Hi0 Hc. exists (length rest), g. split; [by rewrite lookup_app_r, Nat.sub_diag by lia|].
      right. split; [|done]. apply lookup_app_Some in Hi0 as [Hi0 | [Hge Hi0]].
      * by eapply lookup_lt_Some.
      * rewrite list_lookup_singleton in Hi0. case_match; [|done]. by injection Hi0 as <-.
Qed.

Lemma no_failure_serve w i f :
  no_failure w ->
  no_failure (set_pending (<[i := mk_inflight (req f) (kont f) (Some (serve (store w) (req f) true).2)]>
                             (pending w))
                          (set_store (serve (store w) (req f) true).1 w)).
Proof. intros Hnf. apply Forall_insert; [done|]. by destruct f as [[] ? ?]. Qed.

Lemma no_failure_resume k r w : no_failure w -> no_failure (resume k r w).
Proof.
  intros Hnf. destruct k, r; simpl; try done.
  - unfold setUserServices. by destruct (mounted w).
  - apply Forall_app. by split; [|constructor].
Qed.

(** Every step of a network that never fails and delivers in order keeps
    the world consistent. *)
Lemma consistent_step w ev w' :
  consistent w -> in_order_event ev = true -> dash_step w ev = Some w' -> consistent w'.
Proof.
  intros (Hwf & Hnf & Hob) Hev Hstep. split; [by eapply dash_step_wf|].
  assert (Hfr : frame w w' -> no_failure w' /\ obligations w')
    by (intros Hf; split; [by eapply frame_no_failure | by eapply frame_obligations]).
  destruct ev as [a | i ok | i | id confirmed | | b |]; simpl in Hev, Hstep.
  - destruct (mounted w); simplify_eq. apply Hfr, frame_commit.
  - subst ok. destruct (pending w !! i) as [f|] eqn:Hi; [|done]. destruct (resp f) eqn:Hr; [done|].
    pose proof (no_failure_serve w i f Hnf) as H1. pose proof (obligations_serve w i f Hi Hr Hob) as H2.
    destruct (serve (store w) (req f) true) as [rows r]. simplify_eq. by split.
  - apply Nat.eqb_eq in Hev. subst i. destruct (pending w) as [|f rest] eqn:Hp; [done|].
    unfold no_failure, wf_world in Hnf, Hwf. rewrite Hp in Hnf, Hwf.
    inversion Hnf as [|? ? Hnf0 Hnf1]; inversion Hwf as [|? ? Hwf0 Hwf1]; subst.
    simpl in Hstep. destruct (resp f) as [r|] eqn:Hr; [|done]. simplify_eq. split.
    + apply no_failure_resume. exact Hnf1.
    + eapply obligations_deliver; [exact Hp | exact Hr | exact Hwf0 | intros ->; congruence | exact Hob].
  - destruct (page_user w); [|done]. case_bool_decide; [|done]. simplify_eq.
    apply Hfr, frame_handleDeleteService.
  - case_bool_decide; [|done]. simplify_eq. apply Hfr, frame_set_showCreateDialog.
  - case_bool_decide; [|done]. simplify_eq. apply Hfr, frame_set_showCreateDialog.
  - destruct (page_user w); [|done]. case_bool_decide; [|done]. simplify_eq.
    apply Hfr. eapply frame_trans; [apply frame_set_store_create | apply frame_loadUserServices].
Qed.

Lemma consistent_mount a rows : consistent (mount a rows).
Proof.
  assert (H0 : consistent (mk_world true None [] false [] rows [])).
  { split_and!; [constructor | constructor |]. intros x Hx. split.
    - intros _ Hin. by apply elem_of_nil in Hin.
    - intros i f Hi. simpl in Hi. by rewrite lookup_nil in Hi. }
  destruct H0 as (Hwf & Hnf & Hob). split_and!; [by apply wf_commit | |].
  - eapply frame_no_failure; [apply frame_commit | exact Hnf].
  - eapply frame_obligations; [apply frame_commit | exact Hob].
Qed.

(** ** Properties *)

(** C25: With in-order delivery, a settled dashboard shows only rows the
    store still has.  In every world reachable from a mount on a network
    that never fails and delivers responses in the order the requests were
    sent (the store may serve them in any order), when the page is mounted
    and nothing is in flight, every service shown is a row of the store:
    the stale response of C5 needs out-of-order delivery. *)
Theorem in_order_settled_consistent (a : auth) (rows : list Service.t) (w : world) :
  ordered_reachable a rows w -> mounted w = true -> pending w = [] ->
  Forall (fun s => s ∈ store w) (userServices w).
Proof.
  intros Hr Hm Hp.
  assert (Hc : consistent w).
  { unfold ordered_reachable in Hr. revert Hr. apply rtc_invariant; [|apply consistent_mount].
    intros w1 w2 Hw1 (ev & Hev & Hstep). by eapply consistent_step. }
  destruct Hc as (_ & _ & Hob). apply Forall_forall. intros s Hs.
  destruct (decide (s ∈ store w)) as [|Hout]; [done|].
  destruct (Hob s Hout) as [Hshown _]. specialize (Hshown Hm Hs). rewrite Hp in Hshown.
  inversion Hshown.
Qed.

(** ** Witnesses *)

Lemma demo_loaded_ordered : ordered_reachable demo_auth demo_rows demo_loaded.
Proof.
  unfold ordered_reachable, demo_loaded.
  eapply rtc_l; [exists (EvServe 0 true); split; reflexivity |].
  eapply rtc_l; [exists (EvDeliver 0); split; reflexivity | apply rtc_refl].
Qed.

Lemma in_order_settled_consistent_witness :
  Forall (fun s => s ∈ store demo_loaded) (userServices demo_loaded).
Proof. apply (in_order_settled_consistent demo_auth demo_rows); [apply demo_loaded_ordered | reflexivity..]. Defined.

End DashboardOrder.
