(* ===== verification/Index.v ===== *)
(** * Index: the landing page ([src/src/pages/Index.tsx])

    The page builds a constant array of three featured services and a
    constant list of eight categories, and renders a badge per category and a
    [ServiceCard] per featured service, keyed by the service's id.  The
    timestamps of the featured services are six separate calls of
    [new Date().toISOString()]; [clock k] is the value of the [k]-th call, in
    evaluation order. *)

From S2P Require Import Prelude Entities.

Module Index.

(** The [featuredServices] array. *)
Definition featuredServices (clock : nat -> string) : list Service.t :=
  [Service.mk "1" "mock" "Digital Marketing Strategy"
     "Comprehensive digital marketing strategies to boost your online presence and drive conversions."
     "Marketing" "$2,500" "New York, NY" true (clock 0) (clock 1)
     (Some (Service.mk_owner "MarketPro Solutions" "Marketing Expert"));
   Service.mk "2" "mock" "Web Development & Design"
     "Custom web applications and responsive designs that engage users and drive business growth."
     "Development" "$5,000" "San Francisco, CA" true (clock 2) (clock 3)
     (Some (Service.mk_owner "TechCraft Studios" "Dev Team"));
   Service.mk "3" "mock" "Financial Consulting"
     "Expert financial advisory services to optimize your business finances and investment strategies."
     "Finance" "$1,200" "Chicago, IL" true (clock 4) (clock 5)
     (Some (Service.mk_owner "FinanceWise Inc" "Finance Advisor"))].

Definition categories : list string :=
  ["Marketing"; "Development"; "Design"; "Finance"; "Consulting"; "Legal"; "HR"; "Sales"].

(** What a control does when used: the effects of its handler, if it has
    one.  Other pages navigate; the landing page attaches no handler. *)
Inductive effect := Navigate (path : string).

Inductive control_kind := KInput | KButton | KBadge.

#[global] Instance control_kind_eq_dec : EqDecision control_kind.
Proof. solve_decision. Defined.

Record control := mk_control {
  c_kind : control_kind;
  c_label : string;                       (** button text, badge text or placeholder *)
  c_handler : option (list effect)        (** [onClick] / [onChange], when present *)
}.

(** The rendered page: [<Header />], [<Hero />], then four sections.  The
    search [Input] is uncontrolled (no [value], no [onChange]); no button
    or badge has an [onClick]. *)
Record view := mk_view {
  search : control;
  filters : control;
  badge_keys : list string;
  badges : list control;
  featured_title : string;
  featured_text : string;
  card_keys : list string;
  cards : list Service.t;
  view_all : control;
  why_title : string;
  why_text : string;
  features : list (string * string);      (** the three cards: title and text *)
  cta_title : string;
  cta_text : string;
  cta_buttons : list control
}.

Definition Index_render (clock : nat -> string) : view :=
  let fs := featuredServices clock in
  {| search := mk_control KInput "Search for services, companies, or keywords..." None;
     filters := mk_control KButton "Filters" None;
     badge_keys := categories;
     badges := (fun c => mk_control KBadge c None) <$> categories;
     featured_title := "Featured Services";
     featured_text := "Discover top-rated services from verified businesses ready to help you grow";
     card_keys := Service.id <$> fs;
     cards := fs;
     view_all := mk_control KButton "View All Services" None;
     why_title := "Why Choose BizConnect?";
     why_text := "The platform built specifically for B2B service discovery and networking";
     features :=
       [("Verified Businesses",
         "All businesses are thoroughly vetted and verified to ensure quality and reliability.");
        ("Targeted Matching",
         "Our AI-powered system matches you with the most relevant services for your needs.");
        ("Quality Assurance",
         "Read reviews, compare ratings, and make informed decisions with transparent feedback.")];
     cta_title := "Ready to Grow Your Business Network?";
     cta_text := "Join thousands of businesses already connecting, collaborating, and growing together on BizConnect.";
     cta_buttons := [mk_control KButton "Start Free Today" None; mk_control KButton "Learn More" None] |}.

(** Every control of the page. *)
Definition controls (v : view) : list control :=
  [search v; filters v] ++ badges v ++ [view_all v] ++ cta_buttons v.

End Index.
